(** * Door Face Panels: face matching, threat rules and anomaly scoring

    A shallow embedding of the three engines of the access-control
    pipeline,

    - [api/facial_recognition.py]   (class [FacialRecognitionEngine]),
    - [api/threat_detection.py]     (class [ThreatDetector]),
    - [doortest/models/anomaly_detection.py] (class [AnomalyDetector]),

    followed by the properties of these engines that the design document
    states.  Python objects are passed explicitly (a method takes the
    object's fields as a record and returns the updated record), the clock
    [datetime.now()] is an argument, and exceptions are a result
    constructor.

    Numbers: Python and numpy floats are idealised as real numbers extended
    with the infinities and a not-a-number; rounding is not modelled. *)

From Stdlib Require Import Reals Lra Lia ZArith List String Ascii Bool Arith.
From Stdlib Require Import DecimalString.
From Stdlib Require Import Permutation Sorted.
Import ListNotations.

Set Implicit Arguments.

(* ------------------------------------------------------------------ *)
(** * Python and numpy values *)

Module Py.

(** Floats: reals, the two infinities, and NaN. *)
Inductive float : Type :=
| Finite (r : R)
| PosInf
| NegInf
| NaN.

(** [x < y] on floats; every comparison with NaN is false. *)
Definition float_ltb (x y : float) : bool :=
  match x, y with
  | Finite a, Finite b => if Rlt_dec a b then true else false
  | Finite _, PosInf => true
  | NegInf, Finite _ => true
  | NegInf, PosInf => true
  | _, _ => false
  end.

(** [x - y]. *)
Definition float_sub (x y : float) : float :=
  match x, y with
  | Finite a, Finite b => Finite (a - b)
  | Finite _, PosInf => NegInf
  | Finite _, NegInf => PosInf
  | PosInf, Finite _ => PosInf
  | PosInf, NegInf => PosInf
  | NegInf, Finite _ => NegInf
  | NegInf, PosInf => NegInf
  | _, _ => NaN
  end.

(** [x / y] for a finite non-zero divisor, the only one the code uses
    (the literal [1.0]); other divisors give NaN here. *)
Definition float_div (x y : float) : float :=
  match y with
  | Finite b =>
      if Req_dec_T b 0 then NaN
      else match x with
           | Finite a => Finite (a / b)
           | PosInf => if Rlt_dec 0 b then PosInf else NegInf
           | NegInf => if Rlt_dec 0 b then NegInf else PosInf
           | NaN => NaN
           end
  | _ => NaN
  end.

(** The builtin [max(a, b)]: the first argument unless the second is
    strictly greater. *)
Definition max (a b : float) : float :=
  if float_ltb a b then b else a.

(** A naive [datetime]: microseconds since 1970-01-01T00:00:00. *)
Definition datetime : Type := Z.

(** Values stored in the dictionaries the engines return.  [VIso t] is
    the string [t.isoformat()]; [VStr] holds every other string. *)
Inductive value : Type :=
| VNone
| VBool (b : bool)
| VInt (z : Z)
| VFloat (f : float)
| VStr (s : string)
| VIso (t : datetime).

(** Insertion-ordered dictionaries with string keys. *)
Definition dict (V : Type) : Type := list (string * V).

Fixpoint get {V} (d : dict V) (k : string) : option V :=
  match d with
  | [] => None
  | (k', v) :: rest => if String.eqb k' k then Some v else get rest k
  end.

(** [d.get(k, default)]. *)
Definition get_default {V} (d : dict V) (k : string) (default : V) : V :=
  match get d k with
  | Some v => v
  | None => default
  end.

(** [k in d]. *)
Definition mem {V} (d : dict V) (k : string) : bool :=
  match get d k with
  | Some _ => true
  | None => false
  end.

(** [d[k] = v]: an existing key keeps its position, a new key goes last. *)
Fixpoint set {V} (d : dict V) (k : string) (v : V) : dict V :=
  match d with
  | [] => [(k, v)]
  | (k', v') :: rest =>
      if String.eqb k' k then (k', v) :: rest else (k', v') :: set rest k v
  end.

(** Truth value of an optional string (the [person_id] of a match):
    [None] and the empty string are false. *)
Definition truthy_id (o : option string) : bool :=
  match o with
  | None => false
  | Some s => negb (String.eqb s "")
  end.

(** What a call does: return a value or raise. *)
Inductive outcome (A : Type) : Type :=
| Returned (a : A)
| Raised (exn : string).
Arguments Raised {A} exn.

Definition bind {A B} (m : outcome A) (k : A -> outcome B) : outcome B :=
  match m with
  | Returned a => k a
  | Raised e => Raised e
  end.

(** [str(n)] for an integer. *)
Definition str_of_Z (z : Z) : string := NilZero.string_of_int (Z.to_int z).

End Py.

Notation "x <- m ;; k" := (Py.bind m (fun x => k))
  (at level 61, m at next level, right associativity).

(* ------------------------------------------------------------------ *)
(** * One-dimensional numpy arrays *)

Module Np.

Local Open Scope R_scope.

Definition ndarray : Type := list R.

Definition sum (a : ndarray) : R := fold_right Rplus 0 a.

(** [np.linalg.norm(a)]: the Euclidean norm. *)
Definition norm (a : ndarray) : R := sqrt (sum (map (fun x => x * x) a)).

Fixpoint map2 (f : R -> R -> R) (a b : ndarray) : ndarray :=
  match a, b with
  | x :: a', y :: b' => f x y :: map2 f a' b'
  | _, _ => []
  end.

(** [a - b] with numpy's broadcasting for one dimension: equal lengths,
    or one operand of length one; any other pair of shapes raises. *)
Definition sub (a b : ndarray) : Py.outcome ndarray :=
  if Nat.eqb (List.length a) (List.length b) then Py.Returned (map2 Rminus a b)
  else match a, b with
       | _, [y] => Py.Returned (map (fun x => x - y) a)
       | [x], _ => Py.Returned (map (fun y => x - y) b)
       | _, _ => Py.Raised "ValueError"
       end.

(** [a / s] for a scalar [s]. *)
Definition div_scalar (a : ndarray) (s : R) : ndarray :=
  map (fun x => x / s) a.

Definition zeros (n : nat) : ndarray := repeat 0 n.

(** [np.linspace(start, stop, num)]. *)
Definition linspace (start stop : R) (num : nat) : ndarray :=
  map (fun i => start + INR i * ((stop - start) / INR (num - 1))) (seq 0 num).

(** Membership of [x] in bin [i] of the edges [edges]: half-open bins,
    the last one closed. *)
Definition in_bin (edges : ndarray) (i : nat) (x : R) : bool :=
  let lo := nth i edges 0 in
  let hi := nth (S i) edges 0 in
  if Rle_dec lo x then
    if Nat.eqb (S (S i)) (List.length edges)
    then (if Rle_dec x hi then true else false)
    else (if Rlt_dec x hi then true else false)
  else false.

(** [np.histogram(a, bins=edges, weights=w)[0]]: per bin, the sum of the
    weights of the samples that fall in it; samples outside the edges
    are dropped. *)
Definition histogram (a : ndarray) (edges : ndarray) (w : ndarray) : ndarray :=
  map (fun i =>
         sum (map snd (filter (fun xw => in_bin edges i (fst xw)) (combine a w))))
      (seq 0 (List.length edges - 1)).

End Np.

(* ------------------------------------------------------------------ *)
(** * api/facial_recognition.py *)

Module FacialRecognition.

Import Py.
Local Open Scope R_scope.
Local Open Scope string_scope.
Local Open Scope list_scope.

(** A face encoding: a one-dimensional array (128 entries when it comes
    from [_extract_face_features]). *)
Definition encoding : Type := Np.ndarray.

(** The fields of [FacialRecognitionEngine] that the methods below use;
    [known_faces] maps a person id to the list of its encodings. *)
Record FacialRecognitionEngine : Type := {
  confidence_threshold : R;
  known_faces : dict (list encoding);
  person_names : dict string
}.

(** [__init__]: both registries start empty. *)
Definition init (threshold : R) : FacialRecognitionEngine :=
  {| confidence_threshold := threshold; known_faces := []; person_names := [] |}.

(** [register_face].  Nothing in the body can raise here, so the result
    is always [True]. *)
Definition register_face (self : FacialRecognitionEngine)
    (person_id name : string) (face_encoding : encoding)
  : FacialRecognitionEngine * bool :=
  let known :=
    if mem (known_faces self) person_id then known_faces self
    else set (known_faces self) person_id [] in
  let known :=
    set known person_id (get_default known person_id [] ++ [face_encoding]) in
  ({| confidence_threshold := confidence_threshold self;
      known_faces := known;
      person_names := set (person_names self) person_id name |}, true).

(** The variables [best_match], [best_distance] of the search loop. *)
Definition best : Type := (option string * float)%type.

(** The inner loop, over the encodings of one person. *)
Fixpoint compare_encodings (test_encoding : encoding) (person_id : string)
    (encodings : list encoding) (b : best) : outcome best :=
  match encodings with
  | [] => Returned b
  | known_encoding :: rest =>
      diff <- Np.sub test_encoding known_encoding ;;
      let distance := Finite (Np.norm diff) in
      compare_encodings test_encoding person_id rest
        (if float_ltb distance (snd b) then (Some person_id, distance) else b)
  end.

(** The outer loop, over [known_faces.items()] in insertion order. *)
Fixpoint compare_persons (test_encoding : encoding)
    (items : dict (list encoding)) (b : best) : outcome best :=
  match items with
  | [] => Returned b
  | (person_id, encodings) :: rest =>
      b' <- compare_encodings test_encoding person_id encodings b ;;
      compare_persons test_encoding rest b'
  end.

(** Both loops, from [best_match = None], [best_distance = inf]. *)
Definition nearest (self : FacialRecognitionEngine) (test_encoding : encoding)
  : outcome best :=
  compare_persons test_encoding (known_faces self) (None, PosInf).

Definition id_value (o : option string) : value :=
  match o with
  | Some s => VStr s
  | None => VNone
  end.

(** [recognize_face] from the point where [test_encoding] is known
    (lines 74 to 117); [None] is a failed extraction. *)
Definition recognize_encoding (self : FacialRecognitionEngine)
    (test_encoding : option encoding) (now : datetime) : outcome (dict value) :=
  match test_encoding with
  | None =>
      Returned [("person_id", VNone); ("name", VStr "Unknown");
                ("confidence", VFloat (Finite 0)); ("timestamp", VIso now)]
  | Some test =>
      b <- nearest self test ;;
      let best_match := fst b in
      let best_distance := snd b in
      let confidence :=
        max (Finite 0) (float_sub (Finite 1) (float_div best_distance (Finite 1))) in
      let is_match := float_ltb best_distance (Finite (7 / 10)) in
      if is_match && truthy_id best_match then
        Returned [("person_id", id_value best_match);
                  ("name", VStr (match best_match with
                                 | Some p => get_default (person_names self) p "Unknown"
                                 | None => "Unknown"
                                 end));
                  ("confidence", VFloat confidence); ("timestamp", VIso now)]
      else
        Returned [("person_id", VNone); ("name", VStr "Unknown");
                  ("confidence", VFloat confidence); ("timestamp", VIso now)]
  end.

(** A single-channel 8-bit image, as the row-major list of its pixels. *)
Definition gray_image : Type := list Z.

(** The OpenCV and numpy calls of [_extract_face_features] whose results
    are taken as given: every one of them may raise. *)
Record Cv2 (image : Type) : Type := {
  size : image -> nat;                          (* [ndarray.size] *)
  crop : image -> Z * Z * Z * Z -> image;       (* [frame[y:y+h, x:x+w]] *)
  resize : image -> nat * nat -> outcome image;
  cvtColor_BGR2GRAY : image -> outcome gray_image;
  equalizeHist : gray_image -> outcome gray_image;
  (* [cv2.Sobel(gray, cv2.CV_32F, dx, dy, ksize=3)], flattened *)
  Sobel : gray_image -> nat -> nat -> outcome Np.ndarray;
  arctan2 : R -> R -> R
}.

(** [cv2.calcHist([img], [0], None, [histSize], [lo, hi]).flatten()]:
    [histSize] uniform bins over [lo, hi); a pixel [p] goes to bin
    [(p - lo) * histSize / (hi - lo)]. *)
Definition calcHist (img : gray_image) (histSize : nat) (lo hi : Z) : Np.ndarray :=
  map (fun i =>
         INR (List.length
                (filter (fun p => (lo <=? p)%Z && (p <? hi)%Z &&
                                  ((p - lo) * Z.of_nat histSize / (hi - lo) =? Z.of_nat i)%Z)
                        img)))
      (seq 0 histSize).

(** Lines 186 to 190: truncate or zero-pad to 128 entries. *)
Definition ensure_128 (combined_features : Np.ndarray) : Np.ndarray :=
  if Nat.ltb 128 (List.length combined_features) then firstn 128 combined_features
  else if Nat.ltb (List.length combined_features) 128 then
    combined_features ++ Np.zeros (128 - List.length combined_features)
  else combined_features.

(** Lines 193 to 195: divide by the norm when it is positive. *)
Definition normalize (combined_features : Np.ndarray) : Np.ndarray :=
  let norm := Np.norm combined_features in
  if Rlt_dec 0 norm then Np.div_scalar combined_features norm
  else combined_features.

(** Lines 192 to 197: normalise, then [return] the array (the cast to
    [float32] changes nothing here). *)
Definition normalize_and_return (combined_features : Np.ndarray) : option encoding :=
  Some (normalize combined_features).

Section Extraction.

Variable image : Type.
Variable cv2 : Cv2 image.

(** Lines 172 to 183: magnitude and direction of the gradient (the two
    Sobel images have one shape), the two histograms, concatenated. *)
Definition combined_histograms (gray : gray_image) (sobelx sobely : Np.ndarray)
  : Np.ndarray :=
  let magnitude := Np.map2 (fun gx gy => sqrt (gx * gx + gy * gy)) sobelx sobely in
  let direction := Np.map2 (arctan2 cv2) sobely sobelx in
  let hist_edges := Np.linspace (- PI) PI 9 in
  let hist_grad := Np.histogram direction hist_edges magnitude in
  let hist_gray := calcHist gray 64 0 256 in
  hist_grad ++ hist_gray.

(** The body of the [try] block after the emptiness test. *)
Definition extract_body (face_roi : image) : outcome (option encoding) :=
  resized <- resize cv2 face_roi (64%nat, 64%nat) ;;
  gray <- cvtColor_BGR2GRAY cv2 resized ;;
  gray <- equalizeHist cv2 gray ;;
  sobelx <- Sobel cv2 gray 1 0 ;;
  sobely <- Sobel cv2 gray 0 1 ;;
  Returned (normalize_and_return (ensure_128 (combined_histograms gray sobelx sobely))).

(** [_extract_face_features]: [None] for a missing or empty region and
    for any exception raised inside the [try] block. *)
Definition _extract_face_features (face_roi : option image) : option encoding :=
  match face_roi with
  | None => None
  | Some roi =>
      if Nat.eqb (size cv2 roi) 0 then None
      else match extract_body roi with
           | Returned result => result
           | Raised _ => None
           end
  end.

(** [recognize_face]. *)
Definition recognize_face (self : FacialRecognitionEngine) (frame : image)
    (face_location : Z * Z * Z * Z) (now : datetime) : outcome (dict value) :=
  let face_roi := crop cv2 frame face_location in
  recognize_encoding self (_extract_face_features (Some face_roi)) now.

End Extraction.

(** ** Vocabulary of the properties below *)

(** The enrolled encodings, each with its person, in the order in which
    the two loops visit them. *)
Definition enrolled (items : dict (list encoding)) : list (string * encoding) :=
  flat_map (fun entry => map (pair (fst entry)) (snd entry)) items.

(** The Euclidean distance of two arrays of one shape:
    the square root of the sum of the squared differences. *)
Fixpoint squared_differences (a b : encoding) : R :=
  match a, b with
  | x :: a', y :: b' => (x - y) * (x - y) + squared_differences a' b'
  | _, _ => 0
  end.

Definition euclidean (a b : encoding) : R := sqrt (squared_differences a b).

(** The comparison in the body of the inner loop. *)
Definition closer (b : best) (candidate : string * R) : best :=
  if float_ltb (Finite (snd candidate)) (snd b)
  then (Some (fst candidate), Finite (snd candidate))
  else b.

(** What the loops compare: each enrolled encoding's person and its
    distance to the query. *)
Definition candidates (test_encoding : encoding) (items : dict (list encoding))
  : list (string * R) :=
  map (fun entry => (fst entry, euclidean test_encoding (snd entry))) (enrolled items).

(** [(p, d)] is the first candidate of least distance in [l]. *)
Definition first_minimum (l : list (string * R)) (p : string) (d : R) : Prop :=
  exists l1 l2,
    l = l1 ++ (p, d) :: l2
    /\ (forall c, In c l1 -> d < snd c)
    /\ (forall c, In c l2 -> d <= snd c).

(** A search state in which no candidate at distance 0 has been met. *)
Definition undecided (b : best) : Prop :=
  snd b = PosInf \/ exists d, snd b = Finite d /\ 0 < d.

(** A 128-entry encoding of norm 1, for the examples. *)
Definition unit_encoding : encoding := 1 :: Np.zeros 127.

(** Another one, at distance [sqrt 2] from the first. *)
Definition other_encoding : encoding := 0 :: 1 :: Np.zeros 126.

(** The descriptor of a uniform mid-gray region: all 4096 pixels fall in
    intensity bin 32, entry 8 + 32 = 40 of the vector. *)
Definition uniform_descriptor : encoding := Np.zeros 40 ++ 1 :: Np.zeros 87.

(** An encoding that agrees with it on the first 72 entries and holds a
    1 at index 100. *)
Definition tail_encoding : encoding :=
  Np.zeros 40 ++ 1 :: Np.zeros 59 ++ 1 :: Np.zeros 27.

(** The entries of a dictionary before the key [k] (all of them when [k]
    is absent), and those after it. *)
Fixpoint before {V} (k : string) (d : dict V) : dict V :=
  match d with
  | [] => []
  | (k', v) :: rest => if String.eqb k' k then [] else (k', v) :: before k rest
  end.

Fixpoint after {V} (k : string) (d : dict V) : dict V :=
  match d with
  | [] => []
  | (k', v) :: rest => if String.eqb k' k then rest else after k rest
  end.

(** What the OpenCV calls promise about shapes: a region resized to
    (64, 64), converted to gray and equalised is an image of 64 * 64
    pixels, each an unsigned 8-bit value. *)
Definition cv2_contract {image : Type} (cv2 : Cv2 image) : Prop :=
  forall roi resized g gray,
    resize cv2 roi (64%nat, 64%nat) = Returned resized ->
    cvtColor_BGR2GRAY cv2 resized = Returned g ->
    equalizeHist cv2 g = Returned gray ->
    List.length gray = 4096%nat /\ Forall (fun p => (0 <= p < 256)%Z) gray.

(** A stand-in for OpenCV on images given as pixel lists: every region is
    resized to a uniform mid-gray image, whose gradients vanish. *)
Definition cv2_uniform : Cv2 (list Z) :=
  {| size := fun img => List.length img;
     crop := fun frame _ => frame;
     resize := fun _ _ => Returned (repeat 128%Z 4096);
     cvtColor_BGR2GRAY := fun img => Returned img;
     equalizeHist := fun img => Returned img;
     Sobel := fun img _ _ => Returned (map (fun _ => 0) img);
     arctan2 := fun _ _ => 0 |}.

End FacialRecognition.

(* ------------------------------------------------------------------ *)
(** * api/threat_detection.py *)

Module ThreatDetection.

Import Py.
Local Open Scope string_scope.
Local Open Scope Z_scope.
Local Open Scope list_scope.

(** [class ThreatLevel(Enum)]. *)
Inductive ThreatLevel : Type := LOW | MEDIUM | HIGH | CRITICAL.

Definition ThreatLevel_value (l : ThreatLevel) : Z :=
  match l with LOW => 1 | MEDIUM => 2 | HIGH => 3 | CRITICAL => 4 end.

Definition ThreatLevel_name (l : ThreatLevel) : string :=
  match l with
  | LOW => "LOW" | MEDIUM => "MEDIUM" | HIGH => "HIGH" | CRITICAL => "CRITICAL"
  end.

(** The fields of [ThreatDetector].  [failed_attempts] holds
    [(timestamp, person_id)], [access_log] holds
    [(timestamp, person_id, status)]; both in order of logging. *)
Record ThreatDetector : Type := {
  failed_attempt_threshold : Z;
  failed_attempt_window_minutes : Z;
  inactivity_threshold_hours : Z;
  failed_attempts : list (datetime * string);
  access_log : list (datetime * string * string)
}.

(** [__init__]. *)
Definition init (threshold window_minutes inactivity_hours : Z) : ThreatDetector :=
  {| failed_attempt_threshold := threshold;
     failed_attempt_window_minutes := window_minutes;
     inactivity_threshold_hours := inactivity_hours;
     failed_attempts := [];
     access_log := [] |}.

(** [ThreatDetector()] with the default arguments. *)
Definition default : ThreatDetector := init 3 10 24.

(** [timedelta(minutes=m)], in microseconds. *)
Definition timedelta_minutes (m : Z) : Z := m * 60000000.

(** The count the rule is specified by: the entries of a failed-attempt
    history that belong to [person_id] and whose time lies in the trailing
    window, after [window_start] and not after [now]. *)
Fixpoint failed_count_in_window (history : list (datetime * string))
    (person_id : string) (window_start now : datetime) : Z :=
  match history with
  | [] => 0
  | (t, p) :: rest =>
      (if (window_start <? t) && (t <=? now) && String.eqb p person_id then 1 else 0)
      + failed_count_in_window rest person_id window_start now
  end.

(** The list [recent_failures] of [check_failed_access_attempts]. *)
Definition recent_failures (self : ThreatDetector) (person_id : string)
    (now : datetime) : list (datetime * string) :=
  let window_start := now - timedelta_minutes (failed_attempt_window_minutes self) in
  filter (fun attempt =>
            (window_start <? fst attempt) && String.eqb (snd attempt) person_id)
         (failed_attempts self).

(** [check_failed_access_attempts]: an alert or [None]. *)
Definition check_failed_access_attempts (self : ThreatDetector)
    (person_id : string) (now : datetime) : option (dict value) :=
  let recent := recent_failures self person_id now in
  let n := Z.of_nat (List.length recent) in
  if failed_attempt_threshold self <=? n then
    Some [("threat_type", VStr "REPEATED_FAILED_ACCESS");
          ("severity", VStr (ThreatLevel_name HIGH));
          ("person_id", VStr person_id);
          ("failed_count", VInt n);
          ("timestamp", VIso now);
          ("message",
           VStr ("Multiple failed access attempts (" ++ str_of_Z n ++ ") detected")%string)]
  else None.

(** The list [recent_accesses] of [check_frequency_spike]. *)
Definition recent_accesses (self : ThreatDetector) (person_id : string)
    (window_minutes : Z) (now : datetime) : list (datetime * string * string) :=
  let window_start := now - timedelta_minutes window_minutes in
  filter (fun access =>
            (window_start <? fst (fst access)) &&
            String.eqb (snd (fst access)) person_id &&
            String.eqb (snd access) "success")
         (access_log self).

(** [check_frequency_spike]; the defaults are [window_minutes = 60] and
    [spike_threshold = 10]. *)
Definition check_frequency_spike (self : ThreatDetector) (person_id : string)
    (window_minutes spike_threshold : Z) (now : datetime) : option (dict value) :=
  let recent := recent_accesses self person_id window_minutes now in
  let n := Z.of_nat (List.length recent) in
  if spike_threshold <? n then
    Some [("threat_type", VStr "ACCESS_FREQUENCY_SPIKE");
          ("severity", VStr (ThreatLevel_name MEDIUM));
          ("person_id", VStr person_id);
          ("access_count", VInt n);
          ("window_minutes", VInt window_minutes);
          ("timestamp", VIso now);
          ("message",
           VStr ("High access frequency: " ++ str_of_Z n ++ " accesses in "
                 ++ str_of_Z window_minutes ++ " minutes")%string)]
  else None.

(** [log_access_attempt].  The body reads the clock twice: [now1] for the
    access log, [now2] for the failed-attempt list. *)
Definition log_access_attempt (self : ThreatDetector) (person_id : string)
    (success : bool) (now1 now2 : datetime) : ThreatDetector :=
  let status := if success then "success" else "failed" in
  {| failed_attempt_threshold := failed_attempt_threshold self;
     failed_attempt_window_minutes := failed_attempt_window_minutes self;
     inactivity_threshold_hours := inactivity_threshold_hours self;
     failed_attempts :=
       if negb success then failed_attempts self ++ [(now2, person_id)]
       else failed_attempts self;
     access_log := access_log self ++ [(now1, person_id, status)] |}.

(** [get_threat_stats]. *)
Definition get_threat_stats (self : ThreatDetector) : dict value :=
  [("total_failed_attempts", VInt (Z.of_nat (List.length (failed_attempts self))));
   ("total_logged_accesses", VInt (Z.of_nat (List.length (access_log self))));
   ("active_threats", VStr "N/A")].

(** The methods that touch the two histories, as calls on a detector. *)
Inductive call : Type :=
| LogAccessAttempt (person_id : string) (success : bool) (now1 now2 : datetime)
| CheckFailedAccessAttempts (person_id : string) (now : datetime)
| CheckFrequencySpike (person_id : string) (window_minutes spike_threshold : Z)
                      (now : datetime)
| GetThreatStats.

(** What a call returns. *)
Inductive response : Type :=
| NoValue
| Alert (a : option (dict value))
| Stats (s : dict value).

(** One call: the detector afterwards and the value returned.  Only
    [log_access_attempt] assigns to a field. *)
Definition exec (self : ThreatDetector) (c : call) : ThreatDetector * response :=
  match c with
  | LogAccessAttempt p ok t1 t2 => (log_access_attempt self p ok t1 t2, NoValue)
  | CheckFailedAccessAttempts p now =>
      (self, Alert (check_failed_access_attempts self p now))
  | CheckFrequencySpike p w s now =>
      (self, Alert (check_frequency_spike self p w s now))
  | GetThreatStats => (self, Stats (get_threat_stats self))
  end.

(** A sequence of calls, first to last. *)
Definition run (self : ThreatDetector) (calls : list call) : ThreatDetector :=
  fold_left (fun d c => fst (exec d c)) calls self.

(** The number of [log_access_attempt] calls in a sequence, and of those
    with [success = False]. *)
Definition logged (calls : list call) : nat :=
  List.length (filter (fun c => match c with LogAccessAttempt _ _ _ _ => true | _ => false end)
                      calls).

Definition logged_failures (calls : list call) : nat :=
  List.length (filter (fun c => match c with
                                | LogAccessAttempt _ false _ _ => true
                                | _ => false
                                end) calls).

(** [n] failed attempts by one person, one second apart. *)
Fixpoint failures (n : nat) : list call :=
  match n with
  | O => []
  | S k => failures k ++ [LogAccessAttempt "intruder" false (Z.of_nat k * 1000000)
                                           (Z.of_nat k * 1000000)]
  end.

End ThreatDetection.

(* ------------------------------------------------------------------ *)
(** * doortest/models/anomaly_detection.py *)

Module AnomalyDetection.

Import Py.
Local Open Scope R_scope.
Local Open Scope string_scope.
Local Open Scope list_scope.

(** The element type that [np.array] settles on for a list of feature
    vectors.  Every vector holds a float, the time delta, so numbers
    alone make a float array; a string among them makes an array of
    strings; a value that is neither ([None], an integer that does not
    fit in 64 bits) makes an array of objects. *)
Inductive element_type : Type := float64 | unicode | object.

Definition dtype_of (v : value) : element_type :=
  match v with
  | VBool _ | VFloat _ => float64
  | VInt z => if ((- 2 ^ 63 <=? z) && (z <? 2 ^ 64))%Z then float64 else object
  | VStr _ | VIso _ => unicode
  | VNone => object
  end.

Definition promote (a b : element_type) : element_type :=
  match a, b with
  | object, _ | _, object => object
  | unicode, _ | _, unicode => unicode
  | float64, float64 => float64
  end.

(** A two-dimensional array as [np.array] builds it: its element type
    and, row by row, the Python values it was built from.  With
    [float64] an entry is stored as the double of its value, with
    [unicode] as its [str], with [object] as it is. *)
Record matrix : Type := {
  dtype : element_type;
  rows : list (list value)
}.

(** [np.array(features)]: no value is refused. *)
Definition np_array (features : list (list value)) : matrix :=
  {| dtype := fold_right promote float64 (map dtype_of (List.concat features));
     rows := features |}.

(** An [sklearn.ensemble.IsolationForest], through the two methods the
    detector calls on it. *)
Record IsolationForest : Type := {
  predict : matrix -> outcome (list Z);
  score_samples : matrix -> outcome (list R)
}.

(** The fields of [AnomalyDetector] ([feature_scaler] is never assigned
    after [__init__] and is left out).  [model = None] also stands for an
    unpickled object that has no [predict] method. *)
Record AnomalyDetector : Type := {
  model_type : string;
  contamination : R;
  model : option IsolationForest;
  is_trained : bool
}.

(** [__init__]; the defaults are ['isolation_forest'] and [0.1]. *)
Definition init (type : string) (c : R) : AnomalyDetector :=
  {| model_type := type; contamination := c; model := None; is_trained := false |}.

(** The libraries behind training and persistence. *)
Record Env : Type := {
  (* the import of sklearn, then [IsolationForest(contamination=..., ...)] *)
  new_forest : R -> outcome IsolationForest;
  (* [model.fit(training_data)]: the fitted model *)
  fit : IsolationForest -> matrix -> outcome IsolationForest;
  (* [pickle.load] of the file at a path *)
  pickle_load : string -> outcome (option IsolationForest);
  (* [pickle.dump] to the file at a path *)
  pickle_dump : option IsolationForest -> string -> outcome unit
}.

(** [datetime.fromisoformat(access['timestamp'])]. *)
Definition fromisoformat_item (access : dict value) : outcome datetime :=
  match get access "timestamp" with
  | None => Raised "KeyError"
  | Some (VIso t) => Returned t
  | Some (VStr _) => Raised "ValueError"
  | Some _ => Raised "TypeError"
  end.

(** [timestamp.hour] and [timestamp.weekday()] (Monday is 0; the first
    of January 1970 was a Thursday). *)
Definition hour (t : datetime) : Z := ((t / 3600000000) mod 24)%Z.
Definition weekday (t : datetime) : Z := ((t / 86400000000 + 3) mod 7)%Z.

(** [(a - b).total_seconds()]. *)
Definition total_seconds (a b : datetime) : R := IZR (a - b) / 1000000.

(** One turn of the loop of [extract_features]: the feature vector of
    [access], the element at index [i] of [access_sequence]. *)
Definition feature_vector (access_sequence : list (dict value)) (i : nat)
    (access : dict value) : outcome (list value) :=
  timestamp <- fromisoformat_item access ;;
  ty <- match get access "type" with
        | Some v => Returned v
        | None => Raised "KeyError"
        end ;;
  let access_type :=
    match ty with
    | VStr s => if String.eqb s "entry" then 1%Z else 0%Z
    | _ => 0%Z
    end in
  let confidence := get_default access "confidence" (VFloat (Finite 0)) in
  time_diff <- (if Nat.ltb 0 i then
                  match nth_error access_sequence (i - 1) with
                  | Some prev =>
                      prev_timestamp <- fromisoformat_item prev ;;
                      Returned (total_seconds timestamp prev_timestamp / 3600)
                  | None => Raised "IndexError"
                  end
                else Returned 0) ;;
  Returned [VInt (hour timestamp); VInt (weekday timestamp); VInt access_type;
            confidence; VFloat (Finite time_diff)].

Fixpoint extract_loop (access_sequence : list (dict value)) (i : nat)
    (rest : list (dict value)) : outcome (list (list value)) :=
  match rest with
  | [] => Returned []
  | access :: rest' =>
      v <- feature_vector access_sequence i access ;;
      vs <- extract_loop access_sequence (S i) rest' ;;
      Returned (v :: vs)
  end.

(** [extract_features]. *)
Definition extract_features (access_sequence : list (dict value)) : outcome matrix :=
  features <- extract_loop access_sequence 0 access_sequence ;;
  Returned (np_array features).

(** [xs[0]]. *)
Definition item0 {A} (xs : list A) : outcome A :=
  match xs with
  | x :: _ => Returned x
  | [] => Raised "IndexError"
  end.

(** The [try] block of [predict_anomaly]. *)
Definition predict_body (self : AnomalyDetector) (access_event : dict value)
    (now : datetime) : outcome (dict value) :=
  features <- extract_features [access_event] ;;
  m <- match model self with
       | Some m => Returned m
       | None => Raised "AttributeError"
       end ;;
  predictions <- predict m features ;;
  prediction <- item0 predictions ;;
  scores <- score_samples m features ;;
  score <- item0 scores ;;
  let normalized_score := 1 / (1 + exp score) in
  let is_anomaly := Z.eqb prediction (-1) in
  Returned [("is_anomaly", VBool is_anomaly);
            ("anomaly_score", VFloat (Finite normalized_score));
            ("confidence", VFloat (Finite (Rabs score)));
            ("timestamp", VIso now)].

(** [predict_anomaly]. *)
Definition predict_anomaly (self : AnomalyDetector) (access_event : dict value)
    (now : datetime) : dict value :=
  if negb (is_trained self) then
    [("is_anomaly", VBool false);
     ("anomaly_score", VFloat (Finite 0));
     ("confidence", VFloat (Finite 0));
     ("reason", VStr "Model not trained")]
  else
    match predict_body self access_event now with
    | Returned result => result
    | Raised e =>
        [("is_anomaly", VBool false);
         ("anomaly_score", VFloat (Finite 0));
         ("error", VStr e)]
    end.

(** [batch_predict]; each event comes with the clock reading of its call. *)
Definition batch_predict (self : AnomalyDetector)
    (access_events : list (dict value * datetime)) : list (dict value) :=
  map (fun en => predict_anomaly self (fst en) (snd en)) access_events.

Section Training.

Variable env : Env.

(** [train_isolation_forest]: the new forest is stored before it is
    fitted; [is_trained] is set only when [fit] returns. *)
Definition train_isolation_forest (self : AnomalyDetector) (training_data : matrix)
  : AnomalyDetector * bool :=
  match new_forest env (contamination self) with
  | Raised _ => (self, false)
  | Returned m =>
      match fit env m training_data with
      | Raised _ =>
          ({| model_type := model_type self; contamination := contamination self;
              model := Some m; is_trained := is_trained self |}, false)
      | Returned fitted =>
          ({| model_type := model_type self; contamination := contamination self;
              model := Some fitted; is_trained := true |}, true)
      end
  end.

(** [train_lstm_autoencoder]: not implemented, always [False]. *)
Definition train_lstm_autoencoder (self : AnomalyDetector) (training_data : matrix)
    (sequence_length : Z) : AnomalyDetector * bool :=
  (self, false).

(** [save_model]. *)
Definition save_model (self : AnomalyDetector) (filepath : string)
  : AnomalyDetector * bool :=
  match pickle_dump env (model self) filepath with
  | Returned _ => (self, true)
  | Raised _ => (self, false)
  end.

(** [load_model]: a successful load also sets [is_trained]. *)
Definition load_model (self : AnomalyDetector) (filepath : string)
  : AnomalyDetector * bool :=
  match pickle_load env filepath with
  | Returned m =>
      ({| model_type := model_type self; contamination := contamination self;
          model := m; is_trained := true |}, true)
  | Raised _ => (self, false)
  end.

(** The state-changing methods as calls, with their boolean result. *)
Inductive call : Type :=
| TrainIsolationForest (training_data : matrix)
| TrainLstmAutoencoder (training_data : matrix) (sequence_length : Z)
| SaveModel (filepath : string)
| LoadModel (filepath : string).

Definition exec (self : AnomalyDetector) (c : call) : AnomalyDetector * bool :=
  match c with
  | TrainIsolationForest d => train_isolation_forest self d
  | TrainLstmAutoencoder d n => train_lstm_autoencoder self d n
  | SaveModel p => save_model self p
  | LoadModel p => load_model self p
  end.

(** A call that is a training or a load and that returned [True]. *)
Definition succeeded_training (self : AnomalyDetector) (c : call) : bool :=
  match c with
  | TrainIsolationForest _ | LoadModel _ => snd (exec self c)
  | _ => false
  end.

(** A sequence of calls, first to last. *)
Definition run (self : AnomalyDetector) (calls : list call) : AnomalyDetector :=
  fold_left (fun d c => fst (exec d c)) calls self.

(** No call of the sequence, made in turn from [self], is a training or a
    load that returned [True]. *)
Fixpoint never_trained (self : AnomalyDetector) (calls : list call) : bool :=
  match calls with
  | [] => true
  | c :: rest =>
      negb (succeeded_training self c) && never_trained (fst (exec self c)) rest
  end.

End Training.

(** An installation without scikit-learn and without a saved model. *)
Definition env_without_sklearn : Env :=
  {| new_forest := fun _ => Raised "ImportError";
     fit := fun m _ => Returned m;
     pickle_load := fun _ => Raised "FileNotFoundError";
     pickle_dump := fun _ _ => Returned tt |}.

(** A fitted forest that flags every row, with raw score [-1/2]. *)
Definition flagging_forest : IsolationForest :=
  {| predict := fun X => Returned (map (fun _ => (-1)%Z) (rows X));
     score_samples := fun X => Returned (map (fun _ => - (1 / 2)) (rows X)) |}.

(** A forest that flags no row and scores each row by its time delta,
    the entry at index 4 (0 where that is not a number). *)
Definition time_delta_of (row : list value) : R :=
  match nth_error row 4 with
  | Some (VFloat (Finite dt)) => dt
  | _ => 0
  end.

Definition delta_forest : IsolationForest :=
  {| predict := fun X => Returned (map (fun _ => 1%Z) (rows X));
     score_samples := fun X => Returned (map time_delta_of (rows X)) |}.

(** An installation whose model file holds [flagging_forest]. *)
Definition env_with_saved_model : Env :=
  {| new_forest := fun _ => Raised "ImportError";
     fit := fun m _ => Returned m;
     pickle_load := fun _ => Returned (Some flagging_forest);
     pickle_dump := fun _ _ => Returned tt |}.

(** A model file that holds no model. *)
Definition env_with_empty_file : Env :=
  {| new_forest := fun _ => Raised "ImportError";
     fit := fun m _ => Returned m;
     pickle_load := fun _ => Returned None;
     pickle_dump := fun _ _ => Returned tt |}.

(** An access event as the pipeline builds it. *)
Definition access_event_at (person_id : string) (t : datetime) : dict value :=
  [("timestamp", VIso t); ("person_id", VStr person_id);
   ("type", VStr "entry"); ("confidence", VFloat (Finite (9 / 10)))].

End AnomalyDetection.

(* ------------------------------------------------------------------ *)
(** * api/facial_recognition.py: statistics and sequences of registrations *)

Module Registry.

Import Py FacialRecognition.
Local Open Scope string_scope.
Local Open Scope list_scope.

(** [sum(len(faces) for faces in self.known_faces.values())]. *)
Definition total_face_encodings (self : FacialRecognitionEngine) : nat :=
  list_sum (map (fun entry => List.length (snd entry)) (known_faces self)).

(** [get_recognition_stats]. *)
Definition get_recognition_stats (self : FacialRecognitionEngine) : dict value :=
  [("total_persons", VInt (Z.of_nat (List.length (known_faces self))));
   ("total_face_encodings", VInt (Z.of_nat (total_face_encodings self)));
   ("confidence_threshold", VFloat (Finite (confidence_threshold self)))].

(** One [register_face] call: person id, name, encoding. *)
Definition registration : Type := (string * string * encoding)%type.

(** A sequence of [register_face] calls, first to last. *)
Definition register_all (self : FacialRecognitionEngine)
    (calls : list registration) : FacialRecognitionEngine :=
  fold_left (fun engine call =>
               fst (register_face engine (fst (fst call)) (snd (fst call)) (snd call)))
            calls self.

(** The keys of a dictionary, in order. *)
Definition keys {V} (d : dict V) : list string := map fst d.

(** What [best_distance] can hold: infinity, or a distance. *)
Definition distance_like (x : float) : Prop :=
  x = PosInf \/ exists d, x = Finite d /\ (0 <= d)%R.

(** Two arrays whose shapes numpy cannot broadcast together. *)
Definition incompatible (a b : encoding) : Prop :=
  List.length a <> List.length b
  /\ List.length a <> 1%nat /\ List.length b <> 1%nat.

End Registry.

(* ------------------------------------------------------------------ *)
(** * api/threat_detection.py: the rules on the clock alone *)

Module ThreatRules.

Import Py ThreatDetection.
Local Open Scope string_scope.
Local Open Scope Z_scope.
Local Open Scope list_scope.

(** [timedelta(hours=h)], in microseconds. *)
Definition timedelta_hours (h : Z) : Z := h * 3600000000.

(** [now.hour] and [now.minute]. *)
Definition hour (t : datetime) : Z := (t / 3600000000) mod 24.
Definition minute (t : datetime) : Z := (t / 60000000) mod 60.

(** A field of [strftime]: two digits, zero-padded. *)
Definition two_digits (z : Z) : string :=
  if z <? 10 then ("0" ++ str_of_Z z)%string else str_of_Z z.

(** [now.strftime("%H:%M")]. *)
Definition strftime_HM (t : datetime) : string :=
  (two_digits (hour t) ++ ":" ++ two_digits (minute t))%string.

(** The default of [unusual_hours]: 10 PM to 5 AM. *)
Definition default_unusual_hours : list Z := [22; 23; 0; 1; 2; 3; 4; 5].

(** [check_unusual_access_time]; [unusual_hours = None] selects the
    default list. *)
Definition check_unusual_access_time (self : ThreatDetector) (person_id : string)
    (unusual_hours : option (list Z)) (now : datetime) : option (dict value) :=
  let unusual_hours :=
    match unusual_hours with
    | None => default_unusual_hours
    | Some hours => hours
    end in
  if existsb (Z.eqb (hour now)) unusual_hours then
    Some [("threat_type", VStr "UNUSUAL_ACCESS_TIME");
          ("severity", VStr (ThreatLevel_name MEDIUM));
          ("person_id", VStr person_id);
          ("access_hour", VInt (hour now));
          ("timestamp", VIso now);
          ("message", VStr ("Access at unusual time: " ++ strftime_HM now)%string)]
  else None.

Section Inactivity.

(** The text of a float under the format [.1f]. *)
Variable format_1f : R -> string.

(** [check_inactivity]. *)
Definition check_inactivity (self : ThreatDetector) (person_id : string)
    (last_activity now : datetime) : option (dict value) :=
  let inactivity_duration := now - last_activity in
  let threshold := timedelta_hours (inactivity_threshold_hours self) in
  if threshold <? inactivity_duration then
    let hours := (IZR inactivity_duration / 1000000 / 3600)%R in
    Some [("threat_type", VStr "PROLONGED_INACTIVITY");
          ("severity", VStr (ThreatLevel_name CRITICAL));
          ("person_id", VStr person_id);
          ("inactivity_hours", VFloat (Finite hours));
          ("last_activity", VIso last_activity);
          ("timestamp", VIso now);
          ("message", VStr ("No door activity for " ++ format_1f hours ++ " hours")%string)]
  else None.

End Inactivity.

(** The count the frequency rule is about: the successful accesses of
    [person_id] logged after [window_start]. *)
Fixpoint success_count (log : list (datetime * string * string))
    (person_id : string) (window_start : datetime) : Z :=
  match log with
  | [] => 0
  | (t, p, status) :: rest =>
      (if (window_start <? t) && String.eqb p person_id && String.eqb status "success"
       then 1 else 0)
      + success_count rest person_id window_start
  end.

(** The failed attempts of [person_id] logged after [window_start]. *)
Fixpoint failure_count (history : list (datetime * string))
    (person_id : string) (window_start : datetime) : Z :=
  match history with
  | [] => 0
  | (t, p) :: rest =>
      (if (window_start <? t) && String.eqb p person_id then 1 else 0)
      + failure_count rest person_id window_start
  end.

(** [k] consecutive failures of [person_id], logged at the times [times]. *)
Definition log_failures (self : ThreatDetector) (person_id : string)
    (times : list datetime) : ThreatDetector :=
  fold_left (fun d t => log_access_attempt d person_id false t t) times self.

(** The calls of a sequence that log a failure. *)
Definition logs_failure (c : call) : bool :=
  match c with
  | LogAccessAttempt _ false _ _ => true
  | _ => false
  end.

End ThreatRules.

(* ------------------------------------------------------------------ *)
(** * doortest/models/anomaly_detection.py: class BehavioralProfiler *)

Module Profiler.

Import Py AnomalyDetection.
Local Open Scope string_scope.
Local Open Scope list_scope.

(** The dictionary that [build_profile] builds. *)
Record profile : Type := {
  person_id : string;
  total_accesses : Z;
  avg_accesses_per_day : R;
  preferred_hours : list Z;
  preferred_days : list Z;
  inactivity_threshold : Z;
  created_at : datetime
}.

(** The field of [BehavioralProfiler]. *)
Record BehavioralProfiler : Type := {
  profiles : dict profile
}.

(** [__init__]. *)
Definition init : BehavioralProfiler := {| profiles := [] |}.

(** [Counter(values)]: each value with its number of occurrences, in the
    order in which the values are first met. *)
Fixpoint count_up (counts : list (Z * nat)) (v : Z) : list (Z * nat) :=
  match counts with
  | [] => [(v, 1%nat)]
  | (k, n) :: rest =>
      if Z.eqb k v then (k, S n) :: rest else (k, n) :: count_up rest v
  end.

Definition Counter (values : list Z) : list (Z * nat) :=
  fold_left count_up values [].

(** The sort behind [most_common]: by decreasing count, keeping the
    order of entries of equal count. *)
Fixpoint insert_by_count (x : Z * nat) (sorted : list (Z * nat)) : list (Z * nat) :=
  match sorted with
  | [] => [x]
  | y :: rest =>
      if Nat.ltb (snd x) (snd y) then y :: insert_by_count x rest else x :: sorted
  end.

Definition sort_by_count (counts : list (Z * nat)) : list (Z * nat) :=
  fold_right insert_by_count [] counts.

(** [Counter.most_common(n)]. *)
Definition most_common (counts : list (Z * nat)) (n : nat) : list (Z * nat) :=
  firstn n (sort_by_count counts).

(** [_get_most_common]; the default of [top_k] is 3. *)
Definition _get_most_common (values : list Z) (top_k : nat) : list Z :=
  map fst (most_common (Counter values) top_k).

(** [[datetime.fromisoformat(e['timestamp']) for e in access_history]]. *)
Fixpoint timestamps_of (access_history : list (dict value)) : outcome (list datetime) :=
  match access_history with
  | [] => Returned []
  | e :: rest =>
      t <- fromisoformat_item e ;;
      ts <- timestamps_of rest ;;
      Returned (t :: ts)
  end.

(** [build_profile]: the profiler afterwards and the value returned;
    [None] stands for the empty dictionary returned for an empty
    history. *)
Definition build_profile (self : BehavioralProfiler) (person : string)
    (access_history : list (dict value)) (now : datetime)
  : outcome (BehavioralProfiler * option profile) :=
  match access_history with
  | [] => Returned (self, None)
  | _ =>
      timestamps <- timestamps_of access_history ;;
      let hours := map hour timestamps in
      let days := map weekday timestamps in
      let built :=
        {| person_id := person;
           total_accesses := Z.of_nat (List.length access_history);
           avg_accesses_per_day := (INR (List.length access_history) / 30)%R;
           preferred_hours := _get_most_common hours 3;
           preferred_days := _get_most_common days 3;
           inactivity_threshold := 24;
           created_at := now |} in
      Returned ({| profiles := set (profiles self) person built |}, Some built)
  end.

(** The alert of [detect_behavioral_anomaly]. *)
Record hour_alert : Type := {
  alert_type : string;
  alert_person_id : string;
  alert_hour : Z;
  alert_preferred_hours : list Z;
  alert_severity : string
}.

(** [detect_behavioral_anomaly]. *)
Definition detect_behavioral_anomaly (self : BehavioralProfiler) (person : string)
    (access_event : dict value) : outcome (option hour_alert) :=
  match get (profiles self) person with
  | None => Returned None
  | Some p =>
      event_time <- fromisoformat_item access_event ;;
      if negb (existsb (Z.eqb (hour event_time)) (preferred_hours p)) then
        Returned (Some {| alert_type := "UNUSUAL_HOUR";
                          alert_person_id := person;
                          alert_hour := hour event_time;
                          alert_preferred_hours := preferred_hours p;
                          alert_severity := "LOW" |})
      else Returned None
  end.

(** Occurrences of a value. *)
Definition occurrences (values : list Z) (v : Z) : nat :=
  count_occ Z.eq_dec values v.

(** The counts so far are those of the values seen so far. *)
Definition counted (counts : list (Z * nat)) (seen : list Z) : Prop :=
  NoDup (map fst counts)
  /\ (forall k, In k (map fst counts) <-> In k seen)
  /\ (forall k n, In (k, n) counts -> n = occurrences seen k).

End Profiler.

Unset Implicit Arguments.

(* ------------------------------------------------------------------ *)
(** * Properties of the threat detector *)

Section ThreatDetectorProperties.

Import Py ThreatDetection.
Local Open Scope string_scope.
Local Open Scope Z_scope.
Local Open Scope list_scope.

(** The comprehension of the code counts what the rule specifies, as long
    as no entry of the history lies in the future of [now]. *)
Lemma recent_failures_count (history : list (datetime * string))
    (person_id : string) (window_start now : datetime) :
  Forall (fun attempt => fst attempt <= now) history ->
  Z.of_nat (List.length
              (filter (fun attempt =>
                         (window_start <? fst attempt) &&
                         String.eqb (snd attempt) person_id) history))
  = failed_count_in_window history person_id window_start now.
Proof.
  induction 1 as [| [t p] rest Hle _ IH]; [reflexivity |].
  cbn [filter failed_count_in_window fst snd] in *.
  apply Z.leb_le in Hle. rewrite Hle, andb_true_r.
  destruct ((window_start <? t) && String.eqb p person_id).
  - cbn [List.length]. rewrite Nat2Z.inj_succ, IH. lia.
  - rewrite IH. lia.
Qed.

Lemma log_access_attempt_lengths (self : ThreatDetector) (p : string)
    (ok : bool) (t1 t2 : datetime) :
  access_log (log_access_attempt self p ok t1 t2)
    = access_log self ++ [(t1, p, if ok then "success" else "failed")]
  /\ failed_attempts (log_access_attempt self p ok t1 t2)
    = failed_attempts self ++ (if ok then [] else [(t2, p)]).
Proof.
  destruct ok; cbn; rewrite ?app_nil_r; auto.
Qed.

(** C5. [check_failed_access_attempts] returns an alert exactly when the
    number of the person's failed attempts inside the trailing window is
    at least the configured threshold; the alert has severity HIGH and
    carries that number as [failed_count].  A count equal to the threshold
    triggers, a count one below it does not.  The history is any list of
    attempts logged up to [now]. *)
Theorem check_failed_access_attempts_iff (self : ThreatDetector)
    (person_id : string) (now : datetime) :
  Forall (fun attempt => fst attempt <= now) (failed_attempts self) ->
  let count :=
    failed_count_in_window
      (failed_attempts self) person_id
      (now - timedelta_minutes (failed_attempt_window_minutes self)) now in
  (check_failed_access_attempts self person_id now <> None
     <-> failed_attempt_threshold self <= count)
  /\ (forall alert,
        check_failed_access_attempts self person_id now = Some alert ->
        get alert "severity" = Some (VStr "HIGH")
        /\ get alert "failed_count" = Some (VInt count)
        /\ get alert "person_id" = Some (VStr person_id))
  /\ (count = failed_attempt_threshold self ->
        check_failed_access_attempts self person_id now <> None)
  /\ (count = failed_attempt_threshold self - 1 ->
        check_failed_access_attempts self person_id now = None).
Proof.
  intros Hpast count.
  unfold check_failed_access_attempts, recent_failures.
  rewrite (recent_failures_count _ _ _ _ Hpast). fold count.
  destruct (failed_attempt_threshold self <=? count) eqn:E.
  - apply Z.leb_le in E.
    split; [split; [intros _; exact E | discriminate] |].
    split; [intros alert H; injection H as <-; repeat split |].
    split; [discriminate | lia].
  - apply Z.leb_gt in E.
    split; [split; [intros H; now elim H | lia] |].
    split; [discriminate |].
    split; [lia | reflexivity].
Qed.

(** Three failures of "unknown_001" within two minutes, default detector:
    the alert fires with [failed_count = 3]; with two failures it does not. *)
Lemma check_failed_access_attempts_witness :
  let self :=
    run default [LogAccessAttempt "unknown_001" false 0 1;
                 LogAccessAttempt "unknown_001" false 60000000 60000001;
                 LogAccessAttempt "unknown_001" false 120000000 120000001] in
  let now := 120000002 in
  let count :=
    failed_count_in_window
      (failed_attempts self) "unknown_001"
      (now - timedelta_minutes (failed_attempt_window_minutes self)) now in
  Forall (fun attempt => fst attempt <= now) (failed_attempts self)
  /\ count = 3
  /\ (check_failed_access_attempts self "unknown_001" now <> None
        <-> failed_attempt_threshold self <= count).
Proof.
  assert (Hpast :
    Forall (fun attempt : datetime * string => fst attempt <= 120000002)
      (failed_attempts
         (run default [LogAccessAttempt "unknown_001" false 0 1;
                       LogAccessAttempt "unknown_001" false 60000000 60000001;
                       LogAccessAttempt "unknown_001" false 120000000 120000001]))).
  { repeat constructor; cbn; lia. }
  split; [exact Hpast |].
  split; [reflexivity |].
  exact (proj1 (check_failed_access_attempts_iff _ "unknown_001" 120000002 Hpast)).
Defined.

Example two_failures_no_alert :
  check_failed_access_attempts
    (run default [LogAccessAttempt "unknown_001" false 0 1;
                  LogAccessAttempt "unknown_001" false 60000000 60000001])
    "unknown_001" 120000002 = None.
Proof. reflexivity. Qed.

Example three_failures_alert :
  check_failed_access_attempts
    (run default [LogAccessAttempt "unknown_001" false 0 1;
                  LogAccessAttempt "unknown_001" false 60000000 60000001;
                  LogAccessAttempt "unknown_001" false 120000000 120000001])
    "unknown_001" 120000002
  = Some [("threat_type", VStr "REPEATED_FAILED_ACCESS");
          ("severity", VStr "HIGH");
          ("person_id", VStr "unknown_001");
          ("failed_count", VInt 3);
          ("timestamp", VIso 120000002);
          ("message", VStr "Multiple failed access attempts (3) detected")].
Proof. reflexivity. Qed.

(** What a sequence of calls does to the two histories. *)
Lemma run_histories (self : ThreatDetector) (calls : list call) :
  (exists added,
      access_log (run self calls) = access_log self ++ added
      /\ List.length added = logged calls)
  /\ (exists added,
      failed_attempts (run self calls) = failed_attempts self ++ added
      /\ List.length added = logged_failures calls).
Proof.
  revert self. induction calls as [| c calls IH]; intros self.
  - split; exists []; rewrite app_nil_r; auto.
  - change (run self (c :: calls)) with (run (fst (exec self c)) calls).
    destruct (IH (fst (exec self c))) as [[a1 [E1 L1]] [a2 [E2 L2]]].
    rewrite E1, E2. unfold logged, logged_failures in *.
    destruct c as [p ok t1 t2 | p now | p w s now |]; cbn [exec fst filter].
    + destruct (log_access_attempt_lengths self p ok t1 t2) as [-> ->].
      rewrite <- !app_assoc. split.
      * eexists; split; [reflexivity |]. cbn. now rewrite L1.
      * eexists; split; [reflexivity |].
        destruct ok; cbn; now rewrite L2.
    + split; eexists; split; eauto.
    + split; eexists; split; eauto.
    + split; eexists; split; eauto.
Qed.

(** C6, as the code has it.  The two histories are append-only: whatever
    the calls, every entry ever logged is still there, one more for each
    [log_access_attempt] (and one more failed attempt for each failure);
    evaluating a rule or reading the statistics removes nothing. *)
Theorem histories_only_grow (self : ThreatDetector) (calls : list call) :
  (exists added,
      access_log (run self calls) = access_log self ++ added
      /\ List.length added = logged calls)
  /\ (exists added,
      failed_attempts (run self calls) = failed_attempts self ++ added
      /\ List.length added = logged_failures calls)
  /\ (forall c, fst (exec self c) = self
                \/ exists p ok t1 t2, c = LogAccessAttempt p ok t1 t2).
Proof.
  destruct (run_histories self calls) as [H1 H2].
  split; [exact H1 |]. split; [exact H2 |].
  intros [p ok t1 t2 | p now | p w s now |]; cbn [exec fst]; eauto 6.
Qed.

Lemma failures_logged (n : nat) :
  logged (failures n) = n /\ logged_failures (failures n) = n.
Proof.
  unfold logged, logged_failures.
  induction n as [| n [IH1 IH2]]; [auto |].
  cbn [failures]. rewrite !filter_app, !length_app, IH1, IH2. cbn. lia.
Qed.

(** C6, as stated, fails: no bound holds for the retained histories, and
    an attempt logged a day before the rule is evaluated, far outside the
    ten-minute window, is still held afterwards. *)
Lemma histories_never_pruned :
  (forall bound : nat,
      exists calls,
        (bound < List.length (failed_attempts (run default calls)))%nat
        /\ (bound < List.length (access_log (run default calls)))%nat)
  /\ (let day := 86400000000 in
      let later :=
        run default [LogAccessAttempt "intruder" false 0 0;
                     CheckFailedAccessAttempts "intruder" day;
                     CheckFrequencySpike "intruder" 60 10 day;
                     GetThreatStats] in
      failed_attempts later = [(0, "intruder")]
      /\ access_log later = [(0, "intruder", "failed")]
      /\ 0 <= day - timedelta_minutes (failed_attempt_window_minutes default)).
Proof.
  split.
  - intros bound. exists (failures (S bound)).
    destruct (run_histories default (failures (S bound)))
      as [[a1 [E1 L1]] [a2 [E2 L2]]].
    rewrite E1, E2. cbn [default init failed_attempts access_log app].
    destruct (failures_logged (S bound)) as [H1 H2]. lia.
  - cbn. repeat split; discriminate.
Qed.

End ThreatDetectorProperties.

(* ------------------------------------------------------------------ *)
(** * Properties of the anomaly detector *)

Section AnomalyDetectorProperties.

Import Py AnomalyDetection.
Local Open Scope string_scope.
Local Open Scope R_scope.
Local Open Scope list_scope.

(** The verdict of an untrained detector. *)
Lemma predict_anomaly_untrained (self : AnomalyDetector)
    (access_event : dict value) (now : datetime) :
  is_trained self = false ->
  predict_anomaly self access_event now
  = [("is_anomaly", VBool false);
     ("anomaly_score", VFloat (Finite 0));
     ("confidence", VFloat (Finite 0));
     ("reason", VStr "Model not trained")].
Proof.
  intros H. unfold predict_anomaly. now rewrite H.
Qed.

(** A call that is not a successful training or load keeps [is_trained]. *)
Lemma exec_keeps_untrained (env : Env) (self : AnomalyDetector) (c : call) :
  succeeded_training env self c = false ->
  is_trained (fst (exec env self c)) = is_trained self.
Proof.
  destruct c as [d | d n | p | p]; cbn.
  - unfold train_isolation_forest.
    destruct (new_forest env (contamination self)) as [m |]; [| reflexivity].
    destruct (fit env m d); cbn; [discriminate | reflexivity].
  - reflexivity.
  - intros _. unfold save_model. now destruct (pickle_dump env (model self) p).
  - unfold load_model. destruct (pickle_load env p); cbn; [discriminate | reflexivity].
Qed.

Lemma never_trained_is_untrained (env : Env) (calls : list call) :
  forall self,
    never_trained env self calls = true ->
    is_trained (run env self calls) = is_trained self.
Proof.
  induction calls as [| c calls IH]; intros self H; [reflexivity |].
  cbn [never_trained] in H. apply andb_true_iff in H as [Hc Hrest].
  apply negb_true_iff in Hc.
  change (run env self (c :: calls)) with (run env (fst (exec env self c)) calls).
  rewrite (IH _ Hrest). now apply exec_keeps_untrained.
Qed.

(** C7, as the code has it.  On a detector on which no training and no
    [load_model] has succeeded since it was created, [predict_anomaly]
    returns, for every event, the neutral verdict: [is_anomaly] false,
    score 0 and the reason "Model not trained". *)
Theorem predict_anomaly_before_training (env : Env) (type : string) (c : R)
    (calls : list call) (access_event : dict value) (now : datetime) :
  never_trained env (init type c) calls = true ->
  predict_anomaly (run env (init type c) calls) access_event now
  = [("is_anomaly", VBool false);
     ("anomaly_score", VFloat (Finite 0));
     ("confidence", VFloat (Finite 0));
     ("reason", VStr "Model not trained")].
Proof.
  intros H. apply predict_anomaly_untrained.
  now rewrite (never_trained_is_untrained env calls _ H).
Qed.

Lemma predict_anomaly_before_training_witness :
  let calls := [TrainIsolationForest (np_array []); TrainLstmAutoencoder (np_array []) 10;
                SaveModel "model.pkl"; LoadModel "model.pkl"] in
  never_trained env_without_sklearn (init "isolation_forest" (1 / 10)) calls = true
  /\ predict_anomaly (run env_without_sklearn (init "isolation_forest" (1 / 10)) calls)
       (access_event_at "resident_001" 0%Z) 0%Z
     = [("is_anomaly", VBool false);
        ("anomaly_score", VFloat (Finite 0));
        ("confidence", VFloat (Finite 0));
        ("reason", VStr "Model not trained")].
Proof.
  split; [reflexivity |].
  apply (predict_anomaly_before_training env_without_sklearn). reflexivity.
Defined.

(** C7, as stated, fails: a detector that has loaded a saved model, and
    on which no training was ever called, scores the event. *)
Lemma predict_anomaly_after_load_scores :
  let self := run env_with_saved_model (init "isolation_forest" (1 / 10))
                  [LoadModel "model.pkl"] in
  let verdict := predict_anomaly self (access_event_at "resident_001" 0%Z) 0%Z in
  get verdict "is_anomaly" = Some (VBool true)
  /\ get verdict "anomaly_score" = Some (VFloat (Finite (1 / (1 + exp (- (1 / 2))))))
  /\ 1 / (1 + exp (- (1 / 2))) <> 0
  /\ get verdict "reason" = None.
Proof.
  cbv zeta. repeat split.
  pose proof (exp_pos (- (1 / 2))) as Hpos.
  intros H. apply (Rmult_eq_compat_r (1 + exp (- (1 / 2)))) in H.
  unfold Rdiv in H. rewrite Rmult_assoc, Rinv_l in H; lra.
Qed.

(** ** The time-delta feature *)

Lemma bind_returned {A B} (m : outcome A) (k : A -> outcome B) (b : B) :
  (x <- m ;; k x) = Returned b ->
  exists a, m = Returned a /\ k a = Returned b.
Proof.
  destruct m as [a | e]; cbn; [eauto | discriminate].
Qed.

(** At index 0 the time delta is the constant of the [else] branch. *)
Lemma feature_vector_first (access_sequence : list (dict value))
    (access : dict value) (row : list value) :
  feature_vector access_sequence 0 access = Returned row ->
  exists h d a c, row = [h; d; a; c; VFloat (Finite 0)].
Proof.
  unfold feature_vector. intros H.
  apply bind_returned in H as [t [_ H]].
  apply bind_returned in H as [ty [_ H]].
  cbn [Nat.ltb Nat.leb bind] in H.
  injection H as <-. eauto.
Qed.

(** At a later index it is the distance in hours to the element just
    before, whatever the two elements are. *)
Lemma feature_vector_next (access_sequence : list (dict value)) (i : nat)
    (prev access : dict value) (t t' : datetime) (row : list value) :
  nth_error access_sequence i = Some prev ->
  fromisoformat_item prev = Returned t' ->
  fromisoformat_item access = Returned t ->
  feature_vector access_sequence (S i) access = Returned row ->
  exists h d a c, row = [h; d; a; c; VFloat (Finite (total_seconds t t' / 3600))].
Proof.
  unfold feature_vector. intros Hprev Ht' Ht H.
  rewrite Ht in H. cbn [bind] in H.
  apply bind_returned in H as [ty [_ H]].
  replace (S i - 1)%nat with i in H by lia.
  rewrite Hprev, Ht' in H. cbn [Nat.ltb Nat.leb bind] in H.
  injection H as <-. eauto.
Qed.

Lemma extract_loop_rows (access_sequence rest : list (dict value)) :
  forall (i : nat) (m : list (list value)),
    extract_loop access_sequence i rest = Returned m ->
    List.length m = List.length rest
    /\ forall k access,
        nth_error rest k = Some access ->
        exists row,
          nth_error m k = Some row
          /\ feature_vector access_sequence (i + k) access = Returned row.
Proof.
  induction rest as [| x rest IH]; intros i m H.
  - injection H as <-. split; [reflexivity |]. intros [| k] access E; discriminate.
  - cbn [extract_loop] in H.
    apply bind_returned in H as [v [Hv H]].
    apply bind_returned in H as [vs [Hvs H]].
    injection H as <-. destruct (IH _ _ Hvs) as [Hlen Hrows].
    split; [cbn; now rewrite Hlen |].
    intros [| k] access E; cbn in E.
    + injection E as <-. exists v. rewrite Nat.add_0_r. auto.
    + destruct (Hrows k access E) as [row [E1 E2]].
      exists row. split; [exact E1 |].
      now replace (i + S k)%nat with (S i + k)%nat by lia.
Qed.

(** The array returned is [np.array] of the vectors of the loop. *)
Lemma extract_features_returned (access_sequence : list (dict value))
    (features : matrix) :
  extract_features access_sequence = Returned features ->
  extract_loop access_sequence 0 access_sequence = Returned (rows features)
  /\ features = np_array (rows features).
Proof.
  unfold extract_features. intros H.
  apply bind_returned in H as (fs & Hfs & H). injection H as <-.
  split; [exact Hfs | reflexivity].
Qed.

(** The array that [predict_anomaly] scores has one row, of time delta 0. *)
Lemma single_event_features (access_event : dict value) (features : matrix) :
  extract_features [access_event] = Returned features ->
  exists h d a c, rows features = [[h; d; a; c; VFloat (Finite 0)]].
Proof.
  intros H. apply extract_features_returned in H as [H _].
  cbn [extract_loop] in H.
  apply bind_returned in H as [v [Hv H]]. cbn in H. injection H as H.
  destruct (feature_vector_first _ _ _ Hv) as (h & d & a & c & ->).
  rewrite <- H. eauto.
Qed.

(** C8, as the code has it.  Whenever [predict_anomaly] scores an event,
    the array it hands to the model's [predict] and [score_samples] is
    [extract_features [access_event]]: one row, whose time delta is 0
    whatever happened before, and the verdict is made of the model's
    answers on that array.  Over a longer sequence, the time delta that
    [extract_features] gives an element is the distance in hours to the
    element just before it in the sequence, whoever that element belongs
    to, and 0 for the first. *)
Theorem time_delta_feature :
  (forall (self : AnomalyDetector) (m : IsolationForest)
          (access_event : dict value) (now : datetime) (result : dict value),
      model self = Some m ->
      predict_body self access_event now = Returned result ->
      exists features h d a c prediction score,
        extract_features [access_event] = Returned features
        /\ rows features = [[h; d; a; c; VFloat (Finite 0)]]
        /\ (exists others, predict m features = Returned (prediction :: others))
        /\ (exists others, score_samples m features = Returned (score :: others))
        /\ result = [("is_anomaly", VBool (Z.eqb prediction (-1)));
                     ("anomaly_score", VFloat (Finite (1 / (1 + exp score))));
                     ("confidence", VFloat (Finite (Rabs score)));
                     ("timestamp", VIso now)]
        /\ (is_trained self = true ->
            predict_anomaly self access_event now = result))
  /\ (forall (access_sequence : list (dict value)) (features : matrix),
        extract_features access_sequence = Returned features ->
        (forall row, nth_error (rows features) 0 = Some row ->
                     nth_error row 4 = Some (VFloat (Finite 0)))
        /\ (forall i prev access t t',
              nth_error access_sequence i = Some prev ->
              nth_error access_sequence (S i) = Some access ->
              fromisoformat_item prev = Returned t' ->
              fromisoformat_item access = Returned t ->
              exists row,
                nth_error (rows features) (S i) = Some row
                /\ nth_error row 4
                   = Some (VFloat (Finite (total_seconds t t' / 3600))))).
Proof.
  split.
  - intros self m ev now result Hm B.
    assert (predict_body self ev now = Returned result) as B' by exact B.
    unfold predict_body in B. rewrite Hm in B.
    apply bind_returned in B as (features & F & B). cbn [bind] in B.
    apply bind_returned in B as (predictions & P & B).
    apply bind_returned in B as (prediction & P0 & B).
    apply bind_returned in B as (scores & S & B).
    apply bind_returned in B as (score & S0 & B).
    destruct predictions as [| p others]; [discriminate |]. injection P0 as ->.
    destruct scores as [| sc others']; [discriminate |]. injection S0 as ->.
    injection B as <-.
    destruct (single_event_features ev features F) as (h & d & a & c & E).
    exists features, h, d, a, c, prediction, score.
    split; [exact F |]. split; [exact E |].
    split; [now exists others |]. split; [now exists others' |].
    split; [reflexivity |].
    intros T. unfold predict_anomaly. rewrite T, B'. reflexivity.
  - intros access_sequence features H.
    apply extract_features_returned in H as [H _].
    destruct (extract_loop_rows _ _ _ _ H) as [Hlen Hrows]. split.
    + intros row Hrow. destruct access_sequence as [| x rest].
      * cbn in H. injection H as H. rewrite <- H in Hrow. discriminate.
      * destruct (Hrows 0%nat x eq_refl) as [row' [E1 E2]].
        rewrite Hrow in E1. injection E1 as <-.
        destruct (feature_vector_first _ _ _ E2) as (h & d & a & c & ->).
        reflexivity.
    + intros i prev access t t' Hprev Hacc Ht' Ht.
      destruct (Hrows (S i) access Hacc) as [row [E1 E2]].
      exists row. split; [exact E1 |]. cbn [Nat.add] in E2.
      destruct (feature_vector_next _ _ _ _ _ _ _ Hprev Ht' Ht E2)
        as (h & d & a & c & ->).
      reflexivity.
Qed.

Lemma time_delta_feature_witness :
  let self := {| model_type := "isolation_forest"; contamination := 1 / 10;
                 model := Some delta_forest; is_trained := true |} in
  let first := access_event_at "resident_001" 0%Z in
  let second := access_event_at "caregiver_001" 7200000000%Z in
  (exists result features h d a c,
      predict_anomaly self second 7200000000%Z = result
      /\ extract_features [second] = Returned features
      /\ rows features = [[h; d; a; c; VFloat (Finite 0)]])
  /\ (exists features row,
        extract_features [first; second] = Returned features
        /\ nth_error (rows features) 1 = Some row
        /\ nth_error row 4
           = Some (VFloat (Finite (total_seconds 7200000000%Z 0%Z / 3600)))).
Proof.
  cbv zeta. split.
  - destruct (proj1 time_delta_feature
                {| model_type := "isolation_forest"; contamination := 1 / 10;
                   model := Some delta_forest; is_trained := true |}
                delta_forest
                (access_event_at "caregiver_001" 7200000000%Z) 7200000000%Z
                _ eq_refl eq_refl)
      as (features & h & d & a & c & p & sc & F & E & _ & _ & _ & T).
    eexists. exists features, h, d, a, c.
    split; [exact (T eq_refl) |]. split; [exact F | exact E].
  - eexists.
    destruct (proj2 (proj2 time_delta_feature
                [access_event_at "resident_001" 0%Z;
                 access_event_at "caregiver_001" 7200000000%Z]
                _ eq_refl)
              0%nat _ _ _ _ eq_refl eq_refl eq_refl eq_refl) as [row [E1 E2]].
    exists row. split; [reflexivity |]. split; [exact E1 | exact E2].
Defined.

(** C8, as stated, fails.  "resident_001" is scored twice, one hour
    apart, by a detector whose model reports the time delta it is given
    as its score: the second verdict carries the score 0, not the hour
    elapsed since that person's preceding event, because the row scored
    has time delta 0. *)
Lemma predict_ignores_preceding_event :
  let self := {| model_type := "isolation_forest"; contamination := 1 / 10;
                 model := Some delta_forest; is_trained := true |} in
  let first := access_event_at "resident_001" 0%Z in
  let second := access_event_at "resident_001" 3600000000%Z in
  total_seconds 3600000000%Z 0%Z / 3600 = 1
  /\ extract_features [second]
     = Returned (np_array [[VInt 1; VInt 3; VInt 1; VFloat (Finite (9 / 10));
                            VFloat (Finite 0)]])
  /\ nth_error (batch_predict self [(first, 0%Z); (second, 3600000000%Z)]) 1
     = Some [("is_anomaly", VBool false);
             ("anomaly_score", VFloat (Finite (1 / (1 + exp 0))));
             ("confidence", VFloat (Finite (Rabs 0)));
             ("timestamp", VIso 3600000000%Z)]
  /\ score_samples delta_forest
       (np_array [[VInt 1; VInt 3; VInt 1; VFloat (Finite (9 / 10));
                   VFloat (Finite 1)]])
     = Returned [1]
  /\ Rabs 0 <> Rabs 1.
Proof.
  cbv zeta. split; [| split; [| split; [| split]]].
  - unfold total_seconds. cbn. lra.
  - reflexivity.
  - reflexivity.
  - reflexivity.
  - rewrite Rabs_R0, Rabs_R1. lra.
Qed.

End AnomalyDetectorProperties.

(* ------------------------------------------------------------------ *)
(** * Properties of the face matcher *)

Section MatcherProperties.

Import Py FacialRecognition.
Local Open Scope string_scope.
Local Open Scope R_scope.
Local Open Scope list_scope.

(** ** Floats *)

Lemma float_ltb_finite (a b : R) :
  float_ltb (Finite a) (Finite b) = true <-> a < b.
Proof.
  cbn. destruct (Rlt_dec a b); split; auto; discriminate.
Qed.

Lemma float_div_one (d : R) : float_div (Finite d) (Finite 1) = Finite (d / 1).
Proof.
  unfold float_div. destruct (Req_dec_T 1 0); [lra | reflexivity].
Qed.

(** The confidence computed from a finite best distance. *)
Lemma confidence_of_distance (d : R) :
  max (Finite 0) (float_sub (Finite 1) (float_div (Finite d) (Finite 1)))
  = Finite (Rmax 0 (1 - d)).
Proof.
  rewrite float_div_one. cbn [float_sub]. unfold max.
  destruct (float_ltb (Finite 0) (Finite (1 - d / 1))) eqn:E.
  - apply float_ltb_finite in E. f_equal. rewrite Rmax_right; lra.
  - f_equal. rewrite Rmax_left; [reflexivity |].
    destruct (Rle_dec (1 - d) 0) as [H | H]; [exact H |].
    assert (0 < 1 - d / 1) as H' by lra.
    apply float_ltb_finite in H'. congruence.
Qed.

(** The confidence computed when the loops never ran. *)
Lemma confidence_of_infinity :
  max (Finite 0) (float_sub (Finite 1) (float_div PosInf (Finite 1))) = Finite 0.
Proof.
  unfold float_div. destruct (Req_dec_T 1 0); [lra |].
  destruct (Rlt_dec 0 1); [reflexivity | lra].
Qed.

(** C2. Against an empty registry, [recognize_face] returns a null
    [person_id], the name "Unknown" and confidence exactly 0, for every
    descriptor (also for a failed extraction), every frame and every face
    location. *)
Theorem recognize_face_empty_registry (threshold : R) (names : dict string) :
  let self := {| confidence_threshold := threshold;
                 known_faces := [];
                 person_names := names |} in
  (forall (test_encoding : option encoding) (now : datetime),
      recognize_encoding self test_encoding now
      = Returned [("person_id", VNone); ("name", VStr "Unknown");
                  ("confidence", VFloat (Finite 0)); ("timestamp", VIso now)])
  /\ (forall (image : Type) (cv2 : Cv2 image) (frame : image)
             (face_location : Z * Z * Z * Z) (now : datetime),
        recognize_face cv2 self frame face_location now
        = Returned [("person_id", VNone); ("name", VStr "Unknown");
                    ("confidence", VFloat (Finite 0)); ("timestamp", VIso now)]).
Proof.
  intros self.
  assert (H : forall test_encoding now,
             recognize_encoding self test_encoding now
             = Returned [("person_id", VNone); ("name", VStr "Unknown");
                         ("confidence", VFloat (Finite 0)); ("timestamp", VIso now)]).
  { intros [test |] now; [| reflexivity].
    unfold recognize_encoding, nearest. cbn [self known_faces compare_persons bind fst snd].
    rewrite confidence_of_infinity. reflexivity. }
  split; [exact H |].
  intros image cv2 frame face_location now. unfold recognize_face. apply H.
Qed.

(** ** The two loops as one pass over the enrolled encodings *)

Lemma sub_same_shape (a b : encoding) :
  List.length a = List.length b ->
  Np.sub a b = Returned (Np.map2 Rminus a b).
Proof.
  intros H. unfold Np.sub. now rewrite H, Nat.eqb_refl.
Qed.

Lemma norm_difference (a b : encoding) :
  Np.norm (Np.map2 Rminus a b) = euclidean a b.
Proof.
  unfold Np.norm, euclidean. f_equal. revert b.
  induction a as [| x a IH]; intros [| y b]; cbn; try reflexivity.
  now rewrite IH.
Qed.

Lemma compare_encodings_fold (test : encoding) (person_id : string)
    (encodings : list encoding) :
  Forall (fun e => List.length e = List.length test) encodings ->
  forall b,
    compare_encodings test person_id encodings b
    = Returned (fold_left closer
                  (map (fun e => (person_id, euclidean test e)) encodings) b).
Proof.
  induction 1 as [| e rest He _ IH]; intros b; [reflexivity |].
  cbn [compare_encodings map fold_left].
  rewrite sub_same_shape by (symmetry; exact He). cbn [bind].
  rewrite norm_difference. apply IH.
Qed.

Lemma enrolled_cons (person_id : string) (encodings : list encoding)
    (rest : dict (list encoding)) :
  enrolled ((person_id, encodings) :: rest)
  = map (pair person_id) encodings ++ enrolled rest.
Proof. reflexivity. Qed.

Lemma enrolled_app (xs ys : dict (list encoding)) :
  enrolled (xs ++ ys) = enrolled xs ++ enrolled ys.
Proof. unfold enrolled. apply flat_map_app. Qed.

Lemma candidates_app (test : encoding) (xs ys : dict (list encoding)) :
  candidates test (xs ++ ys) = candidates test xs ++ candidates test ys.
Proof. unfold candidates. now rewrite enrolled_app, map_app. Qed.

Lemma compare_persons_fold (test : encoding) (items : dict (list encoding)) :
  Forall (fun entry => List.length (snd entry) = List.length test) (enrolled items) ->
  forall b,
    compare_persons test items b
    = Returned (fold_left closer (candidates test items) b).
Proof.
  unfold candidates.
  induction items as [| [p encs] rest IH]; intros Hshape b; [reflexivity |].
  rewrite enrolled_cons in *. apply Forall_app in Hshape as [H1 H2].
  cbn [compare_persons]. rewrite compare_encodings_fold.
  - cbn [bind]. rewrite IH by exact H2.
    now rewrite map_app, fold_left_app, map_map.
  - apply Forall_forall. intros e He.
    rewrite Forall_forall in H1. apply (H1 (p, e)). now apply in_map.
Qed.

(** ** The pass selects the first global minimum *)

Lemma closer_from_finite (l : list (string * R)) :
  forall (m0 : option string) (d0 : R),
    (fold_left closer l (m0, Finite d0) = (m0, Finite d0)
     /\ forall c, In c l -> d0 <= snd c)
    \/ (exists p d,
          fold_left closer l (m0, Finite d0) = (Some p, Finite d)
          /\ first_minimum l p d /\ d < d0).
Proof.
  induction l as [| [p d] l IH]; intros m0 d0.
  - left. split; [reflexivity | intros c []].
  - cbn [fold_left].
    change (closer (m0, Finite d0) (p, d))
      with (if float_ltb (Finite d) (Finite d0)
            then (Some p, Finite d) else (m0, Finite d0)).
    destruct (float_ltb (Finite d) (Finite d0)) eqn:E.
    + apply float_ltb_finite in E. right.
      destruct (IH (Some p) d) as [[Heq Hall] | (p' & d' & Heq & Hmin & Hlt)].
      * exists p, d. split; [exact Heq |]. split; [| exact E].
        exists [], l. split; [reflexivity |]. split; [intros c [] | exact Hall].
      * exists p', d'. split; [exact Heq |]. split; [| lra].
        destruct Hmin as (l1 & l2 & -> & H1 & H2).
        exists ((p, d) :: l1), l2. split; [reflexivity |]. split; [| exact H2].
        intros c [<- | Hc]; [exact Hlt | now apply H1].
    + assert (d0 <= d) as Hle.
      { destruct (Rle_dec d0 d) as [H | H]; [exact H |].
        assert (d < d0) as H' by lra. apply float_ltb_finite in H'. congruence. }
      destruct (IH m0 d0) as [[Heq Hall] | (p' & d' & Heq & Hmin & Hlt)].
      * left. split; [exact Heq |]. intros c [<- | Hc]; [exact Hle | now apply Hall].
      * right. exists p', d'. split; [exact Heq |]. split; [| exact Hlt].
        destruct Hmin as (l1 & l2 & -> & H1 & H2).
        exists ((p, d) :: l1), l2. split; [reflexivity |]. split; [| exact H2].
        intros c [<- | Hc]; [cbn; lra | now apply H1].
Qed.

Lemma closer_from_infinity (l : list (string * R)) :
  l <> [] ->
  exists p d,
    fold_left closer l (None, PosInf) = (Some p, Finite d)
    /\ first_minimum l p d.
Proof.
  destruct l as [| [p d] l]; [congruence | intros _].
  cbn [fold_left].
  change (closer (None, PosInf) (p, d)) with (Some p, Finite d).
  destruct (closer_from_finite l (Some p) d)
    as [[Heq Hall] | (p' & d' & Heq & Hmin & Hlt)].
  - exists p, d. split; [exact Heq |].
    exists [], l. split; [reflexivity |]. split; [intros c [] | exact Hall].
  - exists p', d'. split; [exact Heq |].
    destruct Hmin as (l1 & l2 & -> & H1 & H2).
    exists ((p, d) :: l1), l2. split; [reflexivity |]. split; [| exact H2].
    intros c [<- | Hc]; [exact Hlt | now apply H1].
Qed.

(** ** Distances *)

Lemma squared_differences_nonneg (a b : encoding) : 0 <= squared_differences a b.
Proof.
  revert b. induction a as [| x a IH]; intros [| y b]; cbn; try lra.
  specialize (IH b). pose proof (Rle_0_sqr (x - y)) as H. unfold Rsqr in H. lra.
Qed.

Lemma euclidean_nonneg (a b : encoding) : 0 <= euclidean a b.
Proof. apply sqrt_pos. Qed.

Lemma euclidean_same (v : encoding) : euclidean v v = 0.
Proof.
  unfold euclidean. replace (squared_differences v v) with 0; [apply sqrt_0 |].
  induction v as [| x v IH]; cbn; [reflexivity |]. rewrite <- IH. ring.
Qed.

Lemma euclidean_zero (a b : encoding) :
  List.length a = List.length b -> euclidean a b = 0 -> a = b.
Proof.
  unfold euclidean. intros Hlen H.
  apply sqrt_eq_0 in H; [| apply squared_differences_nonneg].
  revert b Hlen H. induction a as [| x a IH]; intros [| y b] Hlen H;
    try discriminate; [reflexivity |].
  cbn in H. pose proof (squared_differences_nonneg a b) as Hpos.
  pose proof (Rle_0_sqr (x - y)) as Hsq. unfold Rsqr in Hsq.
  assert (x - y = 0) as Hx by (apply Rsqr_0_uniq; unfold Rsqr; lra).
  assert (squared_differences a b = 0) as Hrest by lra.
  f_equal; [lra |]. apply IH; [now injection Hlen | exact Hrest].
Qed.

Lemma in_candidates (test : encoding) (items : dict (list encoding))
    (p : string) (d : R) :
  In (p, d) (candidates test items) ->
  exists known, In (p, known) (enrolled items) /\ d = euclidean test known.
Proof.
  unfold candidates. intros H. apply in_map_iff in H as [[q known] [E Hin]].
  cbn in E. injection E as <- <-. eauto.
Qed.

(** ** The decision of [recognize_face] *)

(** C1, for registries whose person ids are not the empty string.  With at
    least one encoding enrolled, the two loops end on the first enrolled
    encoding of least Euclidean distance to the query, over all encodings
    of all persons; the match is declared exactly when that least distance
    is below 0.7, and then names that encoding's person; otherwise the
    result is the null identity "Unknown".  Both results carry the
    confidence [max(0, 1 - distance)]. *)
Theorem recognize_face_nearest (self : FacialRecognitionEngine)
    (test : encoding) (now : datetime) :
  enrolled (known_faces self) <> [] ->
  Forall (fun entry => List.length (snd entry) = List.length test)
         (enrolled (known_faces self)) ->
  Forall (fun entry => fst entry <> "") (enrolled (known_faces self)) ->
  exists p known d result,
    In (p, known) (enrolled (known_faces self))
    /\ d = euclidean test known
    /\ (forall q e, In (q, e) (enrolled (known_faces self)) -> d <= euclidean test e)
    /\ first_minimum (candidates test (known_faces self)) p d
    /\ nearest self test = Returned (Some p, Finite d)
    /\ recognize_encoding self (Some test) now = Returned result
    /\ get result "confidence" = Some (VFloat (Finite (Rmax 0 (1 - d))))
    /\ (get result "person_id" <> Some VNone <-> d < 7 / 10)
    /\ (d < 7 / 10 ->
        result = [("person_id", VStr p);
                  ("name", VStr (get_default (person_names self) p "Unknown"));
                  ("confidence", VFloat (Finite (Rmax 0 (1 - d))));
                  ("timestamp", VIso now)])
    /\ (~ d < 7 / 10 ->
        result = [("person_id", VNone); ("name", VStr "Unknown");
                  ("confidence", VFloat (Finite (Rmax 0 (1 - d))));
                  ("timestamp", VIso now)]).
Proof.
  intros Hne Hshape Hids.
  assert (candidates test (known_faces self) <> []) as Hc.
  { unfold candidates. intros E. apply map_eq_nil in E. contradiction. }
  destruct (closer_from_infinity _ Hc) as (p & d & Hfold & Hmin).
  assert (In (p, d) (candidates test (known_faces self))) as Hin.
  { destruct Hmin as (l1 & l2 & -> & _). apply in_or_app. right. now left. }
  destruct (in_candidates _ _ _ _ Hin) as (known & Hknown & Hd).
  assert (forall q e, In (q, e) (enrolled (known_faces self)) -> d <= euclidean test e)
    as Hleast.
  { intros q e Hqe.
    assert (In (q, euclidean test e) (candidates test (known_faces self))) as Hq.
    { unfold candidates. apply in_map_iff. exists (q, e). auto. }
    destruct Hmin as (l1 & l2 & E & H1 & H2). rewrite E in Hq.
    apply in_app_or in Hq as [Hq | [Hq | Hq]].
    - apply H1 in Hq. cbn in Hq. lra.
    - injection Hq as _ <-. lra.
    - apply H2 in Hq. exact Hq. }
  assert (nearest self test = Returned (Some p, Finite d)) as Hnearest.
  { unfold nearest. rewrite compare_persons_fold by exact Hshape. now rewrite Hfold. }
  assert (truthy_id (Some p) = true) as Htruthy.
  { cbn. apply negb_true_iff, String.eqb_neq.
    rewrite Forall_forall in Hids. exact (Hids _ Hknown). }
  unfold recognize_encoding. rewrite Hnearest. cbn [bind fst snd].
  rewrite confidence_of_distance, Htruthy, andb_true_r.
  destruct (float_ltb (Finite d) (Finite (7 / 10))) eqn:E.
  - apply float_ltb_finite in E.
    exists p, known, d. eexists.
    split; [exact Hknown |]. split; [exact Hd |]. split; [exact Hleast |].
    split; [exact Hmin |]. split; [reflexivity |]. split; [reflexivity |].
    split; [reflexivity |].
    split; [split; [intros _; exact E | discriminate] |].
    split; [reflexivity | intros H; contradiction].
  - assert (~ d < 7 / 10) as Hnot.
    { intros H. apply float_ltb_finite in H. congruence. }
    exists p, known, d. eexists.
    split; [exact Hknown |]. split; [exact Hd |]. split; [exact Hleast |].
    split; [exact Hmin |]. split; [reflexivity |]. split; [reflexivity |].
    split; [reflexivity |].
    split; [split; [intros H; now elim H | intros H; contradiction] |].
    split; [intros H; contradiction | reflexivity].
Qed.

Lemma recognize_face_nearest_witness :
  let self := fst (register_face (init (6 / 10)) "resident_001" "John Doe"
                                 unit_encoding) in
  enrolled (known_faces self) <> []
  /\ Forall (fun entry => List.length (snd entry) = List.length unit_encoding)
            (enrolled (known_faces self))
  /\ Forall (fun entry => fst entry <> "") (enrolled (known_faces self))
  /\ exists p d result,
      nearest self unit_encoding = Returned (Some p, Finite d)
      /\ recognize_encoding self (Some unit_encoding) 0%Z = Returned result
      /\ (get result "person_id" <> Some VNone <-> d < 7 / 10).
Proof.
  cbv zeta.
  assert (H1 : enrolled (known_faces
                 (fst (register_face (init (6 / 10)) "resident_001" "John Doe"
                                     unit_encoding))) <> []).
  { cbn. discriminate. }
  assert (H2 : Forall (fun entry : string * encoding =>
                         List.length (snd entry) = List.length unit_encoding)
                 (enrolled (known_faces
                    (fst (register_face (init (6 / 10)) "resident_001" "John Doe"
                                        unit_encoding))))).
  { cbn. repeat constructor. }
  assert (H3 : Forall (fun entry : string * encoding => fst entry <> "")
                 (enrolled (known_faces
                    (fst (register_face (init (6 / 10)) "resident_001" "John Doe"
                                        unit_encoding))))).
  { cbn. repeat constructor. cbn. discriminate. }
  split; [exact H1 |]. split; [exact H2 |]. split; [exact H3 |].
  destruct (recognize_face_nearest _ unit_encoding 0%Z H1 H2 H3)
    as (p & known & d & result & _ & _ & _ & _ & Hn & Hr & _ & Hiff & _).
  exists p, d, result. auto.
Defined.

(** C1, as stated, fails when the nearest person was registered under the
    empty string: the least distance is 0, below 0.7, and the result is
    the null identity. *)
Lemma recognize_face_empty_id :
  let self := fst (register_face (init (6 / 10)) "" "Visitor" unit_encoding) in
  enrolled (known_faces self) = [("", unit_encoding)]
  /\ nearest self unit_encoding = Returned (Some "", Finite 0)
  /\ 0 < 7 / 10
  /\ recognize_encoding self (Some unit_encoding) 0%Z
     = Returned [("person_id", VNone); ("name", VStr "Unknown");
                 ("confidence", VFloat (Finite 1)); ("timestamp", VIso 0%Z)].
Proof.
  cbv zeta.
  assert (Hn : nearest (fst (register_face (init (6 / 10)) "" "Visitor" unit_encoding))
                 unit_encoding = Returned (Some "", Finite 0)).
  { unfold nearest. rewrite compare_persons_fold by (cbn; repeat constructor).
    cbn [register_face init fst known_faces mem get set get_default String.eqb app
         candidates enrolled flat_map map snd].
    rewrite euclidean_same. reflexivity. }
  split; [reflexivity |]. split; [exact Hn |]. split; [lra |].
  unfold recognize_encoding. rewrite Hn. cbn [bind fst snd].
  rewrite confidence_of_distance. cbn [truthy_id String.eqb negb].
  rewrite andb_false_r, Rmax_right by lra.
  replace (1 - 0) with 1 by ring. reflexivity.
Qed.

(** ** Registering, then matching the registered encoding *)

Lemma get_set_same {V} (d : dict V) (k : string) (v dflt : V) :
  get_default (set d k v) k dflt = v.
Proof.
  unfold get_default. induction d as [| [k' v'] d IH]; cbn.
  - now rewrite String.eqb_refl.
  - destruct (String.eqb k' k) eqn:E; cbn; now rewrite E.
Qed.

(** The registry after [register_face]: the person's entry, extended by
    the new encoding, stays where it was, or is added last. *)
Lemma register_face_known (self : FacialRecognitionEngine)
    (person_id name : string) (v : encoding) :
  known_faces (fst (register_face self person_id name v))
  = before person_id (known_faces self)
    ++ (person_id, get_default (known_faces self) person_id [] ++ [v])
    :: after person_id (known_faces self).
Proof.
  unfold register_face. cbn [fst known_faces].
  induction (known_faces self) as [| [q es] rest IH].
  - unfold mem, get_default. cbn. rewrite String.eqb_refl. reflexivity.
  - unfold mem, get_default in *. cbn [get before after].
    destruct (String.eqb q person_id) eqn:E.
    + cbn [set get]. rewrite E. cbn [app].
      apply String.eqb_eq in E. now subst q.
    + destruct (get rest person_id) as [es' |] eqn:G.
      * rewrite G in IH. cbn [set get]. rewrite E, G. cbn [app]. f_equal. exact IH.
      * cbn [set get]. rewrite E. cbn [set get]. rewrite E. cbn [app] in *.
        f_equal. exact IH.
Qed.

Lemma enrolled_split (items : dict (list encoding)) (person_id : string) :
  enrolled items
  = enrolled (before person_id items)
    ++ map (pair person_id) (get_default items person_id [])
    ++ enrolled (after person_id items).
Proof.
  unfold get_default. induction items as [| [q es] rest IH]; [reflexivity |].
  cbn [before after get]. destruct (String.eqb q person_id) eqn:E.
  - apply String.eqb_eq in E. subst q. reflexivity.
  - rewrite !enrolled_cons, IH, <- app_assoc. reflexivity.
Qed.

Lemma closer_undecided (l : list (string * R)) :
  Forall (fun c => 0 < snd c) l ->
  forall b, undecided b -> undecided (fold_left closer l b).
Proof.
  induction 1 as [| [q d] l Hd _ IH]; intros b Hb; [exact Hb |].
  cbn [fold_left]. apply IH. unfold closer. cbn [fst snd] in *.
  destruct (float_ltb (Finite d) (snd b)); [| exact Hb].
  right. exists d. auto.
Qed.

Lemma closer_settled (p : string) (l : list (string * R)) :
  Forall (fun c => 0 <= snd c) l ->
  fold_left closer l (Some p, Finite 0) = (Some p, Finite 0).
Proof.
  induction 1 as [| [q d] l Hd _ IH]; [reflexivity |].
  cbn [fold_left]. cbn [snd] in Hd.
  replace (closer (Some p, Finite 0) (q, d)) with (Some p, Finite 0); [exact IH |].
  unfold closer. cbn [fst snd]. destruct (float_ltb (Finite d) (Finite 0)) eqn:E.
  - apply float_ltb_finite in E. lra.
  - reflexivity.
Qed.

Lemma closer_step (p : string) (d : R) (b : best) :
  0 <= d ->
  undecided b \/ b = (Some p, Finite 0) ->
  (undecided (closer b (p, d)) \/ closer b (p, d) = (Some p, Finite 0))
  /\ (d = 0 -> closer b (p, d) = (Some p, Finite 0)).
Proof.
  intros Hd [[Hinf | (d0 & Hfin & Hpos)] | ->].
  - destruct b as [m x]. cbn in Hinf. subst x.
    change (closer (m, PosInf) (p, d)) with (Some p, Finite d). split.
    + destruct (Req_dec_T d 0) as [-> | Hne]; [now right |].
      left. right. exists d. split; [reflexivity | lra].
    + now intros ->.
  - destruct b as [m x]. cbn in Hfin. subst x.
    unfold closer. cbn [fst snd].
    destruct (float_ltb (Finite d) (Finite d0)) eqn:E.
    + split.
      * destruct (Req_dec_T d 0) as [-> | Hne]; [now right |].
        left. right. exists d. split; [reflexivity | lra].
      * now intros ->.
    + split.
      * left. right. exists d0. auto.
      * intros ->. assert (0 < d0) as H by exact Hpos.
        apply float_ltb_finite in H. congruence.
  - unfold closer. cbn [fst snd].
    destruct (float_ltb (Finite d) (Finite 0)) eqn:E.
    + apply float_ltb_finite in E. lra.
    + auto.
Qed.

Lemma closer_finds (p : string) (l : list (string * R)) :
  Forall (fun c => fst c = p /\ 0 <= snd c) l ->
  In (p, 0) l ->
  forall b,
    undecided b \/ b = (Some p, Finite 0) ->
    fold_left closer l b = (Some p, Finite 0).
Proof.
  induction 1 as [| [q d] l [Hq Hd] Hall IH]; intros Hin b Hb; [destruct Hin |].
  cbn [fst snd] in Hq, Hd. subst q. cbn [fold_left].
  destruct (closer_step p d b Hd Hb) as [Hinv Hzero].
  destruct Hin as [E | Hin].
  - injection E as ->. rewrite (Hzero eq_refl). apply closer_settled.
    apply Forall_forall. intros c Hc. rewrite Forall_forall in Hall.
    now apply Hall.
  - now apply IH.
Qed.

(** C9, as the code has it.  After [register_face(p, name, v)] with a
    non-empty [p], matching [v] itself ends on distance 0, with confidence
    1, the greatest value [max(0, 1 - distance)] takes, at the fixed
    threshold 0.7; the match is [p] under the name just registered,
    provided that no person who precedes [p] in the registry holds an
    encoding equal to [v] (the first encoding at the least distance
    wins). *)
Theorem register_then_recognize (self : FacialRecognitionEngine)
    (p name : string) (v : encoding) (now : datetime) :
  p <> "" ->
  Forall (fun entry => List.length (snd entry) = List.length v)
         (enrolled (known_faces self)) ->
  (forall q e, In (q, e) (enrolled (before p (known_faces self))) -> e <> v) ->
  let registered := fst (register_face self p name v) in
  nearest registered v = Returned (Some p, Finite 0)
  /\ recognize_encoding registered (Some v) now
     = Returned [("person_id", VStr p); ("name", VStr name);
                 ("confidence", VFloat (Finite 1)); ("timestamp", VIso now)]
  /\ forall d, 0 <= d -> Rmax 0 (1 - d) <= 1.
Proof.
  intros Hp Hshape Hfirst registered.
  pose proof (register_face_known self p name v) as Hknown. fold registered in Hknown.
  rewrite (enrolled_split (known_faces self) p) in Hshape.
  apply Forall_app in Hshape as [Sb Hshape]. apply Forall_app in Hshape as [So Sa].
  assert (Hn : nearest registered v = Returned (Some p, Finite 0)).
  { unfold nearest. rewrite Hknown. rewrite compare_persons_fold.
    - f_equal.
      change (before p (known_faces self)
              ++ (p, get_default (known_faces self) p [] ++ [v])
              :: after p (known_faces self))
        with (before p (known_faces self)
              ++ [(p, get_default (known_faces self) p [] ++ [v])]
              ++ after p (known_faces self)).
      rewrite !candidates_app, !fold_left_app.
      rewrite (closer_finds p (candidates v [(p, get_default (known_faces self) p [] ++ [v])])).
      + apply closer_settled. apply Forall_forall. intros [q d] Hin.
        apply in_candidates in Hin as (known & _ & ->). apply euclidean_nonneg.
      + apply Forall_forall. intros [q d] Hin.
        apply in_candidates in Hin as (known & Hin & ->).
        cbn in Hin. rewrite app_nil_r in Hin.
        apply in_map_iff in Hin as (e & E & _). injection E as <- _.
        split; [reflexivity | apply euclidean_nonneg].
      + unfold candidates. apply in_map_iff. exists (p, v).
        cbn [fst snd]. rewrite euclidean_same. split; [reflexivity |].
        cbn. rewrite app_nil_r. apply in_map, in_or_app. right. now left.
      + left. apply closer_undecided; [| now left].
        apply Forall_forall. intros [q d] Hin.
        apply in_candidates in Hin as (known & Hin & ->). cbn [snd].
        pose proof (euclidean_nonneg v known) as Hpos.
        destruct (Req_dec_T (euclidean v known) 0) as [Hz | Hnz]; [| lra].
        exfalso. apply (Hfirst q known Hin). symmetry.
        apply euclidean_zero; [| exact Hz].
        rewrite Forall_forall in Sb. symmetry. exact (Sb _ Hin).
    - change (before p (known_faces self)
              ++ (p, get_default (known_faces self) p [] ++ [v])
              :: after p (known_faces self))
        with (before p (known_faces self)
              ++ [(p, get_default (known_faces self) p [] ++ [v])]
              ++ after p (known_faces self)).
      rewrite !enrolled_app. apply Forall_app. split; [exact Sb |].
      apply Forall_app. split; [| exact Sa].
      cbn. rewrite app_nil_r, map_app. apply Forall_app. split; [exact So |].
      repeat constructor. }
  split; [exact Hn |]. split.
  - unfold recognize_encoding. rewrite Hn. cbn [bind fst snd].
    rewrite confidence_of_distance.
    assert (truthy_id (Some p) = true) as ->.
    { cbn. now apply negb_true_iff, String.eqb_neq. }
    assert (float_ltb (Finite 0) (Finite (7 / 10)) = true) as ->.
    { apply float_ltb_finite. lra. }
    cbn [andb id_value]. unfold registered, register_face. cbn [fst person_names].
    rewrite get_set_same, Rmax_right by lra.
    replace (1 - 0) with 1 by ring. reflexivity.
  - intros d Hd. apply Rmax_lub; lra.
Qed.

Lemma register_then_recognize_witness :
  let self := fst (register_face (init (6 / 10)) "caregiver_001" "Alice Johnson"
                                 other_encoding) in
  let registered := fst (register_face self "resident_001" "John Doe" unit_encoding) in
  "resident_001" <> ""
  /\ Forall (fun entry => List.length (snd entry) = List.length unit_encoding)
            (enrolled (known_faces self))
  /\ (forall q e,
        In (q, e) (enrolled (before "resident_001" (known_faces self))) ->
        e <> unit_encoding)
  /\ recognize_encoding registered (Some unit_encoding) 0%Z
     = Returned [("person_id", VStr "resident_001"); ("name", VStr "John Doe");
                 ("confidence", VFloat (Finite 1)); ("timestamp", VIso 0%Z)].
Proof.
  cbv zeta.
  assert (H1 : "resident_001" <> "") by discriminate.
  assert (H2 : Forall (fun entry : string * encoding =>
                         List.length (snd entry) = List.length unit_encoding)
                 (enrolled (known_faces
                    (fst (register_face (init (6 / 10)) "caregiver_001"
                                        "Alice Johnson" other_encoding))))).
  { cbn. repeat constructor. }
  assert (H3 : forall q e,
             In (q, e) (enrolled (before "resident_001" (known_faces
                    (fst (register_face (init (6 / 10)) "caregiver_001"
                                        "Alice Johnson" other_encoding))))) ->
             e <> unit_encoding).
  { intros q e Hin. cbn in Hin. destruct Hin as [E | []].
    injection E as _ <-. unfold unit_encoding, other_encoding.
    intros E. injection E as E _. lra. }
  split; [exact H1 |]. split; [exact H2 |]. split; [exact H3 |].
  exact (proj1 (proj2 (register_then_recognize _ "resident_001" "John Doe"
                         unit_encoding 0%Z H1 H2 H3))).
Defined.

(** The result of [recognize_face] once the loops end on distance 0. *)
Lemma recognize_encoding_at_zero (self : FacialRecognitionEngine)
    (v : encoding) (p : string) (now : datetime) :
  nearest self v = Returned (Some p, Finite 0) ->
  p <> "" ->
  recognize_encoding self (Some v) now
  = Returned [("person_id", VStr p);
              ("name", VStr (get_default (person_names self) p "Unknown"));
              ("confidence", VFloat (Finite 1)); ("timestamp", VIso now)].
Proof.
  intros Hn Hp. unfold recognize_encoding. rewrite Hn. cbn [bind fst snd].
  rewrite confidence_of_distance.
  assert (truthy_id (Some p) = true) as ->.
  { cbn. now apply negb_true_iff, String.eqb_neq. }
  assert (float_ltb (Finite 0) (Finite (7 / 10)) = true) as ->.
  { apply float_ltb_finite. lra. }
  cbn [andb id_value]. rewrite Rmax_right by lra.
  replace (1 - 0) with 1 by ring. reflexivity.
Qed.

(** C9, as stated, fails: "resident_002" is registered with an encoding
    that "resident_001", registered before, already holds; matching that
    encoding names "resident_001". *)
Lemma register_then_recognize_other_person :
  let self := fst (register_face (init (6 / 10)) "resident_001" "John Doe"
                                 unit_encoding) in
  let registered := fst (register_face self "resident_002" "Jane Smith"
                                       unit_encoding) in
  recognize_encoding registered (Some unit_encoding) 0%Z
  = Returned [("person_id", VStr "resident_001"); ("name", VStr "John Doe");
              ("confidence", VFloat (Finite 1)); ("timestamp", VIso 0%Z)]
  /\ VStr "resident_001" <> VStr "resident_002".
Proof.
  cbv zeta. split; [| discriminate].
  rewrite (recognize_encoding_at_zero _ _ "resident_001"); [reflexivity | | discriminate].
  unfold nearest. rewrite compare_persons_fold by (cbn; repeat constructor).
  cbn [register_face init fst known_faces mem get set get_default String.eqb
       Ascii.eqb Bool.eqb app candidates enrolled flat_map map snd fold_left].
  rewrite !euclidean_same.
  change (closer (None, PosInf) ("resident_001", 0)) with (Some "resident_001", Finite 0).
  f_equal. apply (closer_settled "resident_001" [("resident_002", 0)]).
  constructor; [cbn; lra | constructor].
Qed.

End MatcherProperties.

(* ------------------------------------------------------------------ *)
(** * Properties of the feature extractor *)

Section ExtractorProperties.

Import Py FacialRecognition.
Local Open Scope string_scope.
Local Open Scope R_scope.
Local Open Scope list_scope.

(** ** Lengths *)

Lemma histogram_length (a edges w : Np.ndarray) :
  List.length (Np.histogram a edges w) = (List.length edges - 1)%nat.
Proof. unfold Np.histogram. now rewrite length_map, length_seq. Qed.

Lemma linspace_length (start stop : R) (num : nat) :
  List.length (Np.linspace start stop num) = num.
Proof. unfold Np.linspace. now rewrite length_map, length_seq. Qed.

Lemma calcHist_length (img : gray_image) (histSize : nat) (lo hi : Z) :
  List.length (calcHist img histSize lo hi) = histSize.
Proof. unfold calcHist. now rewrite length_map, length_seq. Qed.

(** Eight orientation bins and sixty-four intensity bins. *)
Lemma combined_histograms_length {image : Type} (cv2 : Cv2 image)
    (gray : gray_image) (sobelx sobely : Np.ndarray) :
  List.length (combined_histograms cv2 gray sobelx sobely) = 72%nat.
Proof.
  unfold combined_histograms.
  now rewrite length_app, histogram_length, linspace_length, calcHist_length.
Qed.

(** With 72 entries the padding branch is the one taken. *)
Lemma ensure_128_pads (combined : Np.ndarray) :
  List.length combined = 72%nat ->
  ensure_128 combined = combined ++ Np.zeros 56.
Proof.
  intros H. unfold ensure_128. rewrite H. reflexivity.
Qed.

Lemma normalize_length (v : Np.ndarray) :
  List.length (normalize v) = List.length v.
Proof.
  unfold normalize. destruct (Rlt_dec 0 (Np.norm v)); [| reflexivity].
  unfold Np.div_scalar. apply length_map.
Qed.

(** ** Norms *)

Lemma sum_cons (x : R) (v : Np.ndarray) : Np.sum (x :: v) = x + Np.sum v.
Proof. reflexivity. Qed.

Lemma sum_squares_nonneg (v : Np.ndarray) :
  0 <= Np.sum (map (fun x => x * x) v).
Proof.
  induction v as [| x v IH]; cbn [map]; [cbn; lra |]. rewrite sum_cons.
  pose proof (Rle_0_sqr x) as H. unfold Rsqr in H. lra.
Qed.

Lemma sum_squares_member (v : Np.ndarray) (x : R) :
  In x v -> x * x <= Np.sum (map (fun x => x * x) v).
Proof.
  induction v as [| y v IH]; intros Hin; [destruct Hin |].
  cbn [map]. rewrite sum_cons. pose proof (sum_squares_nonneg v) as Hv.
  pose proof (Rle_0_sqr y) as Hy. unfold Rsqr in Hy.
  destruct Hin as [-> | Hin]; [lra |]. specialize (IH Hin). lra.
Qed.

Lemma sum_squares_zero (v : Np.ndarray) :
  Np.sum (map (fun x => x * x) v) = 0 -> Forall (fun x => x = 0) v.
Proof.
  induction v as [| x v IH]; intros H; constructor;
    cbn [map] in H; rewrite sum_cons in H;
    pose proof (sum_squares_nonneg v) as Hv;
    pose proof (Rle_0_sqr x) as Hx; unfold Rsqr in Hx.
  - apply Rsqr_0_uniq. unfold Rsqr. lra.
  - apply IH. lra.
Qed.

Lemma norm_nonneg (v : Np.ndarray) : 0 <= Np.norm v.
Proof. apply sqrt_pos. Qed.

Lemma norm_zero (v : Np.ndarray) :
  Np.norm v = 0 -> Forall (fun x => x = 0) v.
Proof.
  unfold Np.norm. intros H. apply sum_squares_zero.
  apply sqrt_eq_0; [apply sum_squares_nonneg | exact H].
Qed.

Lemma sum_squares_zeros (n : nat) :
  Np.sum (map (fun x => x * x) (Np.zeros n)) = 0.
Proof.
  unfold Np.zeros. induction n as [| n IH]; [reflexivity |].
  cbn [repeat map]. rewrite sum_cons, IH. ring.
Qed.

Lemma norm_zeros (n : nat) : Np.norm (Np.zeros n) = 0.
Proof.
  unfold Np.norm. rewrite sum_squares_zeros. apply sqrt_0.
Qed.

Lemma sum_squares_div (v : Np.ndarray) (s : R) :
  s <> 0 ->
  Np.sum (map (fun x => x * x) (Np.div_scalar v s))
  = Np.sum (map (fun x => x * x) v) / (s * s).
Proof.
  intros Hs. unfold Np.div_scalar. induction v as [| x v IH].
  - cbn. unfold Rdiv. ring.
  - cbn [map]. rewrite !sum_cons, IH. field. exact Hs.
Qed.

Lemma norm_div_scalar (v : Np.ndarray) (s : R) :
  0 < s -> Np.norm (Np.div_scalar v s) = Np.norm v / s.
Proof.
  intros Hs. unfold Np.norm. rewrite sum_squares_div by lra.
  rewrite sqrt_div_alt by nra. now rewrite sqrt_square by lra.
Qed.

(** Dividing by a positive norm gives norm 1. *)
Lemma normalize_unit (v : Np.ndarray) :
  0 < Np.norm v -> Np.norm (normalize v) = 1.
Proof.
  intros H. unfold normalize. destruct (Rlt_dec 0 (Np.norm v)); [| contradiction].
  rewrite norm_div_scalar by exact H. field. lra.
Qed.

(** ** The intensity histogram of a real image is not zero *)

(** A pixel in range is counted in its bin. *)
Lemma calcHist_counts (gray : gray_image) (p : Z) :
  In p gray -> (0 <= p < 256)%Z ->
  exists c, In c (calcHist gray 64 0 256) /\ 1 <= c.
Proof.
  intros Hin Hp.
  set (i := Z.to_nat ((p - 0) * Z.of_nat 64 / (256 - 0))).
  set (inside := fun q : Z =>
         (0 <=? q)%Z && (q <? 256)%Z &&
         ((q - 0) * Z.of_nat 64 / (256 - 0) =? Z.of_nat i)%Z).
  exists (INR (List.length (filter inside gray))). split.
  - unfold calcHist. apply in_map_iff. exists i. split; [reflexivity |].
    apply in_seq. split; [lia |]. unfold i. cbn [Nat.add].
    apply Nat2Z.inj_lt. rewrite Z2Nat.id.
    + apply Z.div_lt_upper_bound; lia.
    + apply Z.div_pos; lia.
  - assert (In p (filter inside gray)) as Hp'.
    { apply filter_In. split; [exact Hin |]. unfold inside, i.
      rewrite Z2Nat.id by (apply Z.div_pos; lia).
      rewrite Z.eqb_refl, andb_true_r.
      apply andb_true_iff. split; [apply Z.leb_le | apply Z.ltb_lt]; lia. }
    destruct (filter inside gray) as [| q rest]; [destruct Hp' |].
    cbn [List.length]. rewrite S_INR. pose proof (pos_INR (List.length rest)). lra.
Qed.

Lemma in_ensure_128 (combined : Np.ndarray) (x : R) :
  List.length combined = 72%nat -> In x combined -> In x (ensure_128 combined).
Proof.
  intros Hlen Hin. rewrite ensure_128_pads by exact Hlen.
  apply in_or_app. now left.
Qed.

(** Under the OpenCV contract the vector to normalise has a positive
    norm. *)
Lemma combined_norm_positive {image : Type} (cv2 : Cv2 image)
    (gray : gray_image) (sobelx sobely : Np.ndarray) :
  List.length gray = 4096%nat ->
  Forall (fun p => (0 <= p < 256)%Z) gray ->
  0 < Np.norm (ensure_128 (combined_histograms cv2 gray sobelx sobely)).
Proof.
  intros Hlen Hrange. destruct gray as [| p gray]; [discriminate |].
  destruct (calcHist_counts (p :: gray) p) as (c & Hc & Hone).
  { now left. }
  { now inversion Hrange. }
  unfold Np.norm. apply sqrt_lt_R0.
  apply Rlt_le_trans with (c * c); [nra |].
  apply sum_squares_member, in_ensure_128.
  - apply combined_histograms_length.
  - unfold combined_histograms. apply in_or_app. now right.
Qed.

(** ** What [_extract_face_features] returns *)

Lemma extract_inversion {image : Type} (cv2 : Cv2 image) (roi : image)
    (v : encoding) :
  _extract_face_features cv2 (Some roi) = Some v ->
  exists resized g gray sobelx sobely,
    resize cv2 roi (64%nat, 64%nat) = Returned resized
    /\ cvtColor_BGR2GRAY cv2 resized = Returned g
    /\ equalizeHist cv2 g = Returned gray
    /\ Sobel cv2 gray 1 0 = Returned sobelx
    /\ Sobel cv2 gray 0 1 = Returned sobely
    /\ v = normalize (ensure_128 (combined_histograms cv2 gray sobelx sobely)).
Proof.
  unfold _extract_face_features, extract_body.
  destruct (Nat.eqb (size cv2 roi) 0); [discriminate |].
  destruct (resize cv2 roi (64%nat, 64%nat)) as [resized |] eqn:E1; [| discriminate].
  cbn [bind].
  destruct (cvtColor_BGR2GRAY cv2 resized) as [g |] eqn:E2; [| discriminate].
  cbn [bind]. destruct (equalizeHist cv2 g) as [gray |] eqn:E3; [| discriminate].
  cbn [bind]. destruct (Sobel cv2 gray 1 0) as [sobelx |] eqn:E4; [| discriminate].
  cbn [bind]. destruct (Sobel cv2 gray 0 1) as [sobely |] eqn:E5; [| discriminate].
  cbn [bind]. unfold normalize_and_return. intros H. injection H as <-.
  exists resized, g, gray, sobelx, sobely. auto 10.
Qed.

Lemma ensure_128_length_72 (combined : Np.ndarray) :
  List.length combined = 72%nat -> List.length (ensure_128 combined) = 128%nat.
Proof.
  intros H. rewrite ensure_128_pads by exact H.
  rewrite length_app, H. unfold Np.zeros. now rewrite repeat_length.
Qed.

(** C3. When OpenCV keeps its contract on shapes, every descriptor that
    [_extract_face_features] returns for a face region has exactly 128
    entries and Euclidean norm 1, hence within any epsilon of 1. *)
Theorem extract_face_features_unit {image : Type} (cv2 : Cv2 image)
    (roi : image) (v : encoding) :
  cv2_contract cv2 ->
  _extract_face_features cv2 (Some roi) = Some v ->
  List.length v = 128%nat
  /\ Np.norm v = 1
  /\ forall eps, 0 < eps -> Rabs (Np.norm v - 1) < eps.
Proof.
  intros Hcv H.
  destruct (extract_inversion cv2 roi v H)
    as (resized & g & gray & sx & sy & H1 & H2 & H3 & _ & _ & ->).
  destruct (Hcv roi resized g gray H1 H2 H3) as [Hlen Hrange].
  assert (Np.norm (normalize (ensure_128 (combined_histograms cv2 gray sx sy))) = 1)
    as Hunit.
  { apply normalize_unit, combined_norm_positive; assumption. }
  split; [| split].
  - rewrite normalize_length. apply ensure_128_length_72, combined_histograms_length.
  - exact Hunit.
  - intros eps Heps. rewrite Hunit.
    replace (1 - 1) with 0 by ring. now rewrite Rabs_R0.
Qed.

Lemma cv2_uniform_contract : cv2_contract cv2_uniform.
Proof.
  intros roi resized g gray H1 H2 H3.
  cbn [cv2_uniform resize cvtColor_BGR2GRAY equalizeHist] in H1, H2, H3.
  assert (gray = repeat 128%Z 4096) as -> by congruence.
  split; [apply repeat_length |].
  apply Forall_forall. intros p Hp. apply repeat_spec in Hp. subst p. lia.
Qed.

Lemma extract_face_features_unit_witness :
  exists v,
    _extract_face_features cv2_uniform (Some [0%Z]) = Some v
    /\ List.length v = 128%nat
    /\ Np.norm v = 1.
Proof.
  eexists. split; [reflexivity |].
  destruct (extract_face_features_unit cv2_uniform [0%Z] _ cv2_uniform_contract eq_refl)
    as (Hlen & Hnorm & _).
  split; [exact Hlen | exact Hnorm].
Defined.

(** ** A vector of norm zero *)



Lemma norm_unit_encoding : Np.norm unit_encoding = 1.
Proof.
  unfold Np.norm, unit_encoding. cbn [map]. rewrite sum_cons, sum_squares_zeros.
  replace (1 * 1 + 0) with 1 by ring. apply sqrt_1.
Qed.



(** ** The tail of a descriptor *)

Lemma sum_app (a b : Np.ndarray) : Np.sum (a ++ b) = Np.sum a + Np.sum b.
Proof.
  induction a as [| x a IH]; cbn [app].
  - cbn. ring.
  - rewrite !sum_cons, IH. ring.
Qed.

Lemma map2_app (f : R -> R -> R) (a a' b b' : Np.ndarray) :
  List.length a = List.length a' ->
  Np.map2 f (a ++ b) (a' ++ b') = Np.map2 f a a' ++ Np.map2 f b b'.
Proof.
  revert a'. induction a as [| x a IH]; intros [| y a'] H; try discriminate.
  - reflexivity.
  - cbn. f_equal. apply IH. now injection H.
Qed.

Lemma zeros_difference (n : nat) :
  Np.sum (map (fun x => x * x) (Np.map2 Rminus (Np.zeros n) (Np.zeros n))) = 0.
Proof.
  unfold Np.zeros. induction n as [| n IH]; [reflexivity |].
  cbn [repeat Np.map2 map]. rewrite sum_cons, IH. ring.
Qed.

(** A returned descriptor is 72 entries followed by 56 zeros. *)
Lemma extracted_shape {image : Type} (cv2 : Cv2 image) (roi : image)
    (v : encoding) :
  _extract_face_features cv2 (Some roi) = Some v ->
  exists combined head,
    List.length combined = 72%nat
    /\ ensure_128 combined = combined ++ Np.zeros 56
    /\ v = normalize (combined ++ Np.zeros 56)
    /\ List.length head = 72%nat
    /\ v = head ++ Np.zeros 56.
Proof.
  intros H.
  destruct (extract_inversion cv2 roi v H)
    as (resized & g & gray & sx & sy & _ & _ & _ & _ & _ & ->).
  pose proof (combined_histograms_length cv2 gray sx sy) as Hlen.
  set (combined := combined_histograms cv2 gray sx sy) in *.
  rewrite (ensure_128_pads combined Hlen).
  assert (exists head,
             List.length head = 72%nat
             /\ normalize (combined ++ Np.zeros 56) = head ++ Np.zeros 56)
    as (head & Hh & E).
  { unfold normalize. destruct (Rlt_dec 0 (Np.norm (combined ++ Np.zeros 56))).
    - exists (Np.div_scalar combined (Np.norm (combined ++ Np.zeros 56))).
      unfold Np.div_scalar, Np.zeros. split; [now rewrite length_map |].
      rewrite map_app, map_repeat. do 2 f_equal. unfold Rdiv. ring.
    - exists combined. auto. }
  exists combined, head.
  split; [exact Hlen |]. split; [now apply ensure_128_pads |].
  split; [reflexivity |]. split; [exact Hh | exact E].
Qed.

(** The difference with a padded tail is the other vector's tail. *)
Lemma zeros_minus_squares (t : Np.ndarray) :
  Np.sum (map (fun x => x * x) (Np.map2 Rminus (Np.zeros (List.length t)) t))
  = Np.sum (map (fun x => x * x) t).
Proof.
  unfold Np.zeros. induction t as [| x t IH]; [reflexivity |].
  cbn [List.length repeat Np.map2 map]. rewrite !sum_cons, IH. ring.
Qed.

Lemma firstn_head {A} (head tail : list A) :
  firstn (List.length head) (head ++ tail) = head.
Proof.
  rewrite firstn_app, Nat.sub_diag, firstn_all. cbn [firstn]. apply app_nil_r.
Qed.

(** C10, as the code has it.  In every descriptor that
    [_extract_face_features] returns, the entries 72 to 127 are zero:
    the vector before normalisation is the 8 orientation bins followed
    by the 64 intensity bins of the equalised image, 72 features, padded
    with 56 zeros and never truncated.  The distance between two
    extracted descriptors is that between their first 72 entries; the
    distance to any other encoding of 128 entries also counts that
    encoding's entries 72 to 127, in full. *)
Theorem descriptor_tail_is_zero {image : Type} (cv2 : Cv2 image)
    (roi : image) (v : encoding) :
  _extract_face_features cv2 (Some roi) = Some v ->
  (exists resized g gray sobelx sobely,
      resize cv2 roi (64%nat, 64%nat) = Returned resized
      /\ cvtColor_BGR2GRAY cv2 resized = Returned g
      /\ equalizeHist cv2 g = Returned gray
      /\ Sobel cv2 gray 1 0 = Returned sobelx
      /\ Sobel cv2 gray 0 1 = Returned sobely
      /\ List.length (firstn 8 (combined_histograms cv2 gray sobelx sobely)) = 8%nat
      /\ skipn 8 (combined_histograms cv2 gray sobelx sobely) = calcHist gray 64 0 256
      /\ List.length (calcHist gray 64 0 256) = 64%nat
      /\ ensure_128 (combined_histograms cv2 gray sobelx sobely)
         = combined_histograms cv2 gray sobelx sobely ++ Np.zeros 56
      /\ v = normalize (combined_histograms cv2 gray sobelx sobely ++ Np.zeros 56))
  /\ List.length v = 128%nat
  /\ (forall i, (72 <= i < 128)%nat -> nth i v 0 = 0)
  /\ (forall roi' u,
        _extract_face_features cv2 (Some roi') = Some u ->
        exists diff,
          Np.sub v u = Returned diff
          /\ Np.norm diff = Np.norm (Np.map2 Rminus (firstn 72 v) (firstn 72 u)))
  /\ (forall u,
        List.length u = 128%nat ->
        exists diff,
          Np.sub v u = Returned diff
          /\ Np.norm diff
             = sqrt (Np.sum (map (fun x => x * x)
                               (Np.map2 Rminus (firstn 72 v) (firstn 72 u)))
                     + Np.sum (map (fun x => x * x) (skipn 72 u)))).
Proof.
  intros H.
  destruct (extracted_shape cv2 roi v H) as (combined & head & Hc & Hpad & Hv & Hh & E).
  assert (List.length v = 128%nat) as Hlen.
  { rewrite E, length_app, Hh. unfold Np.zeros. now rewrite repeat_length. }
  assert (firstn 72 v = head) as Hfirst.
  { rewrite E, <- Hh. apply firstn_head. }
  split; [| split; [exact Hlen | split; [| split]]].
  - destruct (extract_inversion cv2 roi v H)
      as (resized & g & gray & sx & sy & H1 & H2 & H3 & H4 & H5 & Hn).
    exists resized, g, gray, sx, sy.
    pose proof (combined_histograms_length cv2 gray sx sy) as Hl.
    assert (List.length (Np.histogram (Np.map2 (arctan2 cv2) sy sx)
                           (Np.linspace (- PI) PI 9)
                           (Np.map2 (fun gx gy => sqrt (gx * gx + gy * gy)) sx sy))
            = 8%nat) as Hgrad.
    { rewrite histogram_length, linspace_length. reflexivity. }
    split; [exact H1 |]. split; [exact H2 |]. split; [exact H3 |].
    split; [exact H4 |]. split; [exact H5 |].
    split; [rewrite length_firstn, Hl; reflexivity |].
    split.
    { unfold combined_histograms. rewrite <- Hgrad at 1.
      rewrite skipn_app, Nat.sub_diag, skipn_all. reflexivity. }
    split; [apply calcHist_length |].
    split; [now apply ensure_128_pads |].
    rewrite Hn. now rewrite ensure_128_pads.
  - intros i [Hlo Hhi]. rewrite E, app_nth2 by lia.
    unfold Np.zeros. apply nth_repeat.
  - intros roi' u Hu.
    destruct (extracted_shape cv2 roi' u Hu) as (_ & head' & _ & _ & _ & Hh' & E').
    exists (Np.map2 Rminus v u). split.
    + apply sub_same_shape. rewrite Hlen, E', length_app, Hh'.
      unfold Np.zeros. now rewrite repeat_length.
    + rewrite Hfirst.
      assert (firstn 72 u = head') as -> by (rewrite E', <- Hh'; apply firstn_head).
      rewrite E, E'. unfold Np.norm. f_equal.
      rewrite map2_app by congruence.
      rewrite map_app, sum_app, zeros_difference. ring.
  - intros u Hu. exists (Np.map2 Rminus v u). split.
    + apply sub_same_shape. congruence.
    + rewrite Hfirst. unfold Np.norm. f_equal.
      assert (List.length (firstn 72 u) = 72%nat) as Hu1
        by (rewrite length_firstn, Hu; reflexivity).
      assert (List.length (skipn 72 u) = 56%nat) as Hu2
        by (rewrite length_skipn, Hu; reflexivity).
      assert (u = firstn 72 u ++ skipn 72 u) as Hsplit
        by (symmetry; apply firstn_skipn).
      set (u1 := firstn 72 u) in *. set (u2 := skipn 72 u) in *.
      clearbody u1 u2. subst u. rewrite E.
      rewrite map2_app by congruence.
      rewrite map_app, sum_app. f_equal.
      rewrite <- Hu2. apply zeros_minus_squares.
Qed.

Lemma descriptor_tail_is_zero_witness :
  exists v,
    _extract_face_features cv2_uniform (Some [0%Z]) = Some v
    /\ List.length v = 128%nat
    /\ (forall i, (72 <= i < 128)%nat -> nth i v 0 = 0).
Proof.
  eexists. split; [reflexivity |].
  destruct (descriptor_tail_is_zero cv2_uniform [0%Z] _ eq_refl)
    as (_ & Hlen & Htail & _).
  split; [exact Hlen | exact Htail].
Defined.

(** ** The descriptor of a uniform region, and an encoding with a tail *)

Lemma sum_all_zero (l : Np.ndarray) : Forall (fun x => x = 0) l -> Np.sum l = 0.
Proof.
  induction 1 as [| x l Hx _ IH]; [reflexivity |]. rewrite sum_cons, Hx, IH. ring.
Qed.

Lemma histogram_zero_weights (a edges w : Np.ndarray) :
  Forall (fun x => x = 0) w ->
  Np.histogram a edges w = Np.zeros (List.length edges - 1).
Proof.
  intros Hw. unfold Np.histogram, Np.zeros.
  transitivity (map (fun _ : nat => 0) (seq 0 (List.length edges - 1)));
    [| now rewrite map_const, length_seq].
  apply map_ext. intros i. apply sum_all_zero.
  apply Forall_forall. intros y Hy.
  apply in_map_iff in Hy as ([x' w'] & <- & Hin).
  apply filter_In in Hin as [Hin _]. apply in_combine_r in Hin.
  rewrite Forall_forall in Hw. now apply Hw.
Qed.

Lemma magnitude_of_flat (gray : gray_image) :
  Forall (fun x => x = 0)
         (Np.map2 (fun gx gy => sqrt (gx * gx + gy * gy))
                  (map (fun _ => 0) gray) (map (fun _ => 0) gray)).
Proof.
  induction gray as [| p gray IH]; cbn [map Np.map2]; constructor; [| exact IH].
  replace (0 * 0 + 0 * 0) with 0 by ring. apply sqrt_0.
Qed.

Lemma filter_repeat {A} (f : A -> bool) (x : A) (n : nat) :
  filter f (repeat x n) = if f x then repeat x n else [].
Proof.
  induction n as [| n IH]; cbn [repeat filter]; [now destruct (f x) |].
  rewrite IH. now destruct (f x).
Qed.

(** All the pixels of the uniform image fall in bin 32. *)
Lemma calcHist_uniform :
  calcHist (repeat 128%Z 4096) 64 0 256 = Np.zeros 32 ++ 4096 :: Np.zeros 31.
Proof.
  unfold calcHist.
  transitivity (map (fun i => if Nat.eqb i 32 then 4096 else 0) (seq 0 64));
    [| reflexivity].
  apply map_ext. intros i. rewrite filter_repeat.
  change ((0 <=? 128)%Z && (128 <? 256)%Z) with true. cbn [andb].
  change ((128 - 0) * Z.of_nat 64 / (256 - 0))%Z with (Z.of_nat 32).
  destruct (Nat.eqb_spec i 32) as [-> | Hi].
  - rewrite Z.eqb_refl, repeat_length, INR_IZR_INZ. reflexivity.
  - assert ((Z.of_nat 32 =? Z.of_nat i)%Z = false) as ->
      by (apply Z.eqb_neq; lia).
    reflexivity.
Qed.

Lemma div_scalar_zeros (n : nat) (s : R) : Np.div_scalar (Np.zeros n) s = Np.zeros n.
Proof.
  unfold Np.div_scalar, Np.zeros. rewrite map_repeat. f_equal. unfold Rdiv. ring.
Qed.

(** What the stand-in OpenCV makes of any region that is not empty. *)
Lemma uniform_descriptor_extracted :
  _extract_face_features cv2_uniform (Some [0%Z]) = Some uniform_descriptor.
Proof.
  unfold _extract_face_features, extract_body.
  cbn [cv2_uniform size resize cvtColor_BGR2GRAY equalizeHist Sobel List.length
       Nat.eqb bind].
  unfold normalize_and_return. f_equal.
  assert (combined_histograms cv2_uniform (repeat 128%Z 4096)
            (map (fun _ => 0) (repeat 128%Z 4096))
            (map (fun _ => 0) (repeat 128%Z 4096))
          = Np.zeros 8 ++ Np.zeros 32 ++ 4096 :: Np.zeros 31) as Hc.
  { unfold combined_histograms.
    rewrite histogram_zero_weights by apply magnitude_of_flat.
    rewrite linspace_length, calcHist_uniform. reflexivity. }
  rewrite Hc. rewrite ensure_128_pads
    by (unfold Np.zeros; rewrite !length_app; cbn [List.length];
        rewrite !repeat_length; reflexivity).
  assert (Np.norm ((Np.zeros 8 ++ Np.zeros 32 ++ 4096 :: Np.zeros 31) ++ Np.zeros 56)
          = 4096) as Hn.
  { unfold Np.norm. rewrite !map_app, !sum_app. cbn [map]. rewrite sum_cons.
    rewrite !sum_squares_zeros.
    replace (0 + (0 + (4096 * 4096 + 0)) + 0) with (4096 * 4096) by ring.
    apply sqrt_square. lra. }
  unfold normalize. rewrite Hn.
  destruct (Rlt_dec 0 4096) as [_ | Hbad]; [| exfalso; apply Hbad; lra].
  unfold Np.div_scalar. rewrite !map_app. cbn [map].
  fold (Np.div_scalar (Np.zeros 8) 4096). fold (Np.div_scalar (Np.zeros 32) 4096).
  fold (Np.div_scalar (Np.zeros 31) 4096). fold (Np.div_scalar (Np.zeros 56) 4096).
  rewrite !div_scalar_zeros.
  replace (4096 / 4096) with 1 by (field; lra).
  reflexivity.
Qed.

Lemma tail_encoding_distance :
  Np.sub uniform_descriptor tail_encoding
  = Returned (Np.map2 Rminus uniform_descriptor tail_encoding)
  /\ euclidean uniform_descriptor tail_encoding = 1.
Proof.
  split; [reflexivity |].
  unfold euclidean.
  replace (squared_differences uniform_descriptor tail_encoding) with 1;
    [apply sqrt_1 |].
  unfold uniform_descriptor, tail_encoding, Np.zeros.
  cbn [repeat app squared_differences]. ring.
Qed.

(** C10, as stated, fails: a person is registered with an encoding that
    equals the descriptor of a region on the first 72 entries and holds
    a 1 at index 100.  That entry alone puts the two at distance 1, so
    [recognize_face] does not match the person, where the first 72
    entries alone would give distance 0. *)
Lemma registered_tail_contributes :
  let self := fst (register_face (init (6 / 10)) "resident_001" "John Doe"
                                 tail_encoding) in
  _extract_face_features cv2_uniform (Some [0%Z]) = Some uniform_descriptor
  /\ firstn 72 uniform_descriptor = firstn 72 tail_encoding
  /\ (exists diff,
        Np.sub uniform_descriptor tail_encoding = Returned diff
        /\ Np.norm diff = 1)
  /\ recognize_face cv2_uniform self [0%Z] (0, 0, 1, 1)%Z 0%Z
     = Returned [("person_id", VNone); ("name", VStr "Unknown");
                 ("confidence", VFloat (Finite 0)); ("timestamp", VIso 0%Z)].
Proof.
  cbv zeta. destruct tail_encoding_distance as [Hsub Hd].
  split; [exact uniform_descriptor_extracted |].
  split; [reflexivity |].
  split.
  { exists (Np.map2 Rminus uniform_descriptor tail_encoding).
    split; [exact Hsub |]. rewrite norm_difference. exact Hd. }
  unfold recognize_face. cbn [crop cv2_uniform].
  rewrite uniform_descriptor_extracted.
  unfold recognize_encoding, nearest.
  rewrite compare_persons_fold by (cbn; repeat constructor).
  cbn [register_face init fst snd known_faces mem get set get_default
       String.eqb Ascii.eqb Bool.eqb app candidates enrolled flat_map map
       fold_left bind].
  rewrite Hd.
  change (closer (None, PosInf) ("resident_001", 1))
    with (Some "resident_001", Finite 1).
  cbn [fst snd]. rewrite confidence_of_distance.
  assert (float_ltb (Finite 1) (Finite (7 / 10)) = false) as ->.
  { destruct (float_ltb (Finite 1) (Finite (7 / 10))) eqn:E; [| reflexivity].
    apply float_ltb_finite in E. lra. }
  cbn [andb]. rewrite Rmax_left by lra. reflexivity.
Qed.

End ExtractorProperties.

(* ------------------------------------------------------------------ *)
(** * Further properties of the face registry and matcher *)

Section RegistryProperties.

Import Py FacialRecognition Registry.
Local Open Scope string_scope.
Local Open Scope R_scope.
Local Open Scope list_scope.

(** ** Dictionaries *)

Lemma get_set_eq {V} (d : dict V) (k : string) (v : V) :
  get (set d k v) k = Some v.
Proof.
  induction d as [| [k' v'] d IH]; cbn.
  - now rewrite String.eqb_refl.
  - destruct (String.eqb k' k) eqn:E; cbn; now rewrite E.
Qed.

Lemma get_set_other {V} (d : dict V) (k q : string) (v : V) :
  q <> k -> get (set d k v) q = get d q.
Proof.
  intros Hq. induction d as [| [k' v'] d IH]; cbn.
  - destruct (String.eqb k q) eqn:E; [| reflexivity].
    apply String.eqb_eq in E. congruence.
  - destruct (String.eqb k' k) eqn:E; cbn.
    + apply String.eqb_eq in E. subst k'.
      destruct (String.eqb k q) eqn:E'; [| reflexivity].
      apply String.eqb_eq in E'. congruence.
    + now rewrite IH.
Qed.

Lemma keys_set {V} (d : dict V) (k : string) (v : V) :
  keys (set d k v) = if mem d k then keys d else keys d ++ [k].
Proof.
  unfold keys, mem. induction d as [| [k' v'] d IH]; [reflexivity |].
  cbn [set get map fst]. destruct (String.eqb k' k) eqn:E; [reflexivity |].
  cbn [map fst]. rewrite IH. now destruct (get d k).
Qed.

Lemma mem_keys {V} (d : dict V) (k : string) :
  mem d k = true <-> In k (keys d).
Proof.
  unfold mem, keys. induction d as [| [k' v'] d IH]; cbn.
  - split; [discriminate | intros []].
  - destruct (String.eqb k' k) eqn:E.
    + apply String.eqb_eq in E. split; auto.
    + apply String.eqb_neq in E. rewrite IH. split; [auto | intros [H | H]; congruence].
Qed.

Lemma mem_false_keys {V} (d : dict V) (k : string) :
  mem d k = false <-> ~ In k (keys d).
Proof.
  rewrite <- mem_keys. destruct (mem d k); split; congruence.
Qed.

(** The registry after one registration, key by key. *)
Lemma register_face_get (self : FacialRecognitionEngine)
    (p name : string) (v : encoding) :
  get (known_faces (fst (register_face self p name v))) p
    = Some (get_default (known_faces self) p [] ++ [v])
  /\ forall q, q <> p ->
       get (known_faces (fst (register_face self p name v))) q
       = get (known_faces self) q.
Proof.
  unfold register_face. cbn [fst known_faces]. split.
  - rewrite get_set_eq. f_equal. f_equal.
    unfold mem, get_default. destruct (get (known_faces self) p) eqn:G.
    + now rewrite G.
    + now rewrite get_set_eq.
  - intros q Hq. rewrite get_set_other by exact Hq.
    destruct (mem (known_faces self) p); [reflexivity |].
    now apply get_set_other.
Qed.

(** X1. [register_face] appends: the person's list of encodings grows by
    the new one at its end, an encoding already there is stored again,
    the name given replaces the person's name, every other person keeps
    encodings and name, and the call returns [True]. *)
Theorem register_face_appends (self : FacialRecognitionEngine)
    (p name : string) (v : encoding) :
  let registered := fst (register_face self p name v) in
  get (known_faces registered) p
    = Some (get_default (known_faces self) p [] ++ [v])
  /\ get (known_faces (fst (register_face registered p name v))) p
    = Some (get_default (known_faces self) p [] ++ [v; v])
  /\ get (person_names registered) p = Some name
  /\ (forall q, q <> p ->
        get (known_faces registered) q = get (known_faces self) q
        /\ get (person_names registered) q = get (person_names self) q)
  /\ snd (register_face self p name v) = true.
Proof.
  intros registered.
  destruct (register_face_get self p name v) as [Hp Hq].
  fold registered in Hp, Hq.
  split; [exact Hp |]. split.
  - destruct (register_face_get registered p name v) as [Hp' _].
    rewrite Hp'. unfold get_default at 1. rewrite Hp.
    now rewrite <- app_assoc.
  - split; [apply get_set_eq |]. split; [| reflexivity].
    intros q Hne. split; [now apply Hq |].
    unfold registered, register_face. cbn [fst person_names].
    now apply get_set_other.
Qed.

Lemma register_face_appends_witness :
  let self := fst (register_face (init (6 / 10)) "resident_001" "John Doe"
                                 unit_encoding) in
  let registered := fst (register_face self "resident_002" "Jane Smith"
                                       other_encoding) in
  "resident_001" <> "resident_002"
  /\ get (known_faces registered) "resident_001" = Some [unit_encoding]
  /\ get (person_names registered) "resident_001" = Some "John Doe".
Proof.
  cbv zeta. split; [discriminate |].
  destruct (register_face_appends
              (fst (register_face (init (6 / 10)) "resident_001" "John Doe"
                                  unit_encoding))
              "resident_002" "Jane Smith" other_encoding)
    as (_ & _ & _ & Hq & _).
  destruct (Hq "resident_001") as [H1 H2]; [discriminate |].
  split; [rewrite H1 | rewrite H2]; reflexivity.
Defined.

(** ** Sequences of registrations *)

Lemma in_before {V} (k : string) (d : dict V) (x : string * V) :
  In x (before k d) -> In x d.
Proof.
  induction d as [| [k' v'] d IH]; cbn; [auto |].
  destruct (String.eqb k' k); cbn; [intros [] | intros [H | H]; auto].
Qed.

Lemma in_after {V} (k : string) (d : dict V) (x : string * V) :
  In x (after k d) -> In x d.
Proof.
  induction d as [| [k' v'] d IH]; cbn; [auto |].
  destruct (String.eqb k' k); auto.
Qed.

Lemma register_face_keys (self : FacialRecognitionEngine)
    (p name : string) (v : encoding) :
  keys (known_faces (fst (register_face self p name v)))
    = (if mem (known_faces self) p then keys (known_faces self)
       else keys (known_faces self) ++ [p])
  /\ keys (person_names (fst (register_face self p name v)))
    = (if mem (person_names self) p then keys (person_names self)
       else keys (person_names self) ++ [p]).
Proof.
  unfold register_face. cbn [fst known_faces person_names].
  split; [| apply keys_set].
  rewrite keys_set. destruct (mem (known_faces self) p) eqn:M.
  - now rewrite M.
  - unfold mem at 1. rewrite get_set_eq. rewrite keys_set. now rewrite M.
Qed.

(** What one registration keeps. *)
Lemma register_face_keeps (self : FacialRecognitionEngine)
    (p name : string) (v : encoding) :
  keys (known_faces self) = keys (person_names self) ->
  NoDup (keys (known_faces self)) ->
  (forall q encs, In (q, encs) (known_faces self) -> encs <> []) ->
  let registered := fst (register_face self p name v) in
  keys (known_faces registered) = keys (person_names registered)
  /\ NoDup (keys (known_faces registered))
  /\ (forall q encs, In (q, encs) (known_faces registered) -> encs <> [])
  /\ (forall q, In q (keys (known_faces registered))
                <-> In q (keys (known_faces self)) \/ q = p).
Proof.
  intros Hkeys Hnodup Hfull registered.
  destruct (register_face_keys self p name v) as [K1 K2].
  fold registered in K1, K2.
  assert (mem (person_names self) p = mem (known_faces self) p) as Hmem.
  { destruct (mem (known_faces self) p) eqn:M.
    - apply mem_keys. rewrite <- Hkeys. now apply mem_keys.
    - apply mem_false_keys. rewrite <- Hkeys. now apply mem_false_keys. }
  rewrite Hmem in K2.
  split; [| split; [| split]].
  - rewrite K1, K2, Hkeys. reflexivity.
  - rewrite K1. destruct (mem (known_faces self) p) eqn:M; [exact Hnodup |].
    apply mem_false_keys in M.
    apply NoDup_app; [exact Hnodup | repeat constructor; intros [] |].
    intros q Hq [<- | []]. contradiction.
  - intros q encs Hin. unfold registered in Hin.
    rewrite register_face_known in Hin.
    apply in_app_or in Hin as [Hin | [Hin | Hin]].
    + apply in_before in Hin. eapply Hfull, Hin.
    + injection Hin as _ <-. now destruct (get_default (known_faces self) p []).
    + apply in_after in Hin. eapply Hfull, Hin.
  - intros q. rewrite K1. destruct (mem (known_faces self) p) eqn:M.
    + apply mem_keys in M. split; [auto | intros [H | ->]; auto].
    + rewrite in_app_iff. cbn. split; [intros [H | [H | []]]; auto | intros [H | H]; auto].
Qed.

(** What a sequence of registrations keeps. *)
Lemma register_all_keeps (calls : list registration) :
  forall self,
    keys (known_faces self) = keys (person_names self) ->
    NoDup (keys (known_faces self)) ->
    (forall q encs, In (q, encs) (known_faces self) -> encs <> []) ->
    let final := register_all self calls in
    keys (known_faces final) = keys (person_names final)
    /\ NoDup (keys (known_faces final))
    /\ (forall q encs, In (q, encs) (known_faces final) -> encs <> [])
    /\ (forall q, In q (keys (known_faces final))
                  <-> In q (keys (known_faces self))
                      \/ In q (map (fun c => fst (fst c)) calls))
    /\ confidence_threshold final = confidence_threshold self.
Proof.
  induction calls as [| [[p name] v] calls IH]; intros self H1 H2 H3.
  - cbn. repeat split; auto. intros [H | []]. exact H.
  - cbv zeta. change (register_all self ((p, name, v) :: calls))
      with (register_all (fst (register_face self p name v)) calls).
    destruct (register_face_keeps self p name v H1 H2 H3) as (K1 & K2 & K3 & K4).
    destruct (IH _ K1 K2 K3) as (J1 & J2 & J3 & J4 & J5).
    split; [exact J1 |]. split; [exact J2 |]. split; [exact J3 |].
    split; [| exact J5].
    intros q. rewrite J4, K4. cbn [map fst In]. intuition.
Qed.

Lemma register_all_from_init (threshold : R) (calls : list registration) :
  let self := register_all (init threshold) calls in
  keys (known_faces self) = keys (person_names self)
  /\ NoDup (keys (known_faces self))
  /\ (forall p encs, In (p, encs) (known_faces self) -> encs <> [])
  /\ (forall p, In p (keys (known_faces self))
                <-> In p (map (fun c => fst (fst c)) calls))
  /\ confidence_threshold self = threshold.
Proof.
  cbv zeta.
  destruct (register_all_keeps calls (init threshold)) as (J1 & J2 & J3 & J4 & J5).
  - reflexivity.
  - constructor.
  - intros q encs [].
  - split; [exact J1 |]. split; [exact J2 |]. split; [exact J3 |].
    split; [| exact J5].
    intros p. rewrite J4. cbn. intuition.
Qed.

(** X2. Whatever the registrations made on a new engine: the two
    dictionaries hold the same person ids in the same order, each once;
    these are the ids registered; every person holds at least one
    encoding; and the configured threshold is untouched. *)
Theorem registry_invariants (threshold : R) (calls : list registration) :
  let self := register_all (init threshold) calls in
  keys (known_faces self) = keys (person_names self)
  /\ NoDup (keys (known_faces self))
  /\ (forall p encs, In (p, encs) (known_faces self) -> encs <> [])
  /\ (forall p, In p (keys (known_faces self))
                <-> In p (map (fun c => fst (fst c)) calls))
  /\ confidence_threshold self = threshold.
Proof. exact (register_all_from_init threshold calls). Qed.

Lemma total_face_encodings_enrolled (self : FacialRecognitionEngine) :
  total_face_encodings self = List.length (enrolled (known_faces self)).
Proof.
  unfold total_face_encodings, enrolled.
  induction (known_faces self) as [| [p encs] rest IH]; [reflexivity |].
  cbn [map flat_map snd fst]. rewrite length_app, length_map, <- IH. reflexivity.
Qed.

Lemma register_face_total (self : FacialRecognitionEngine)
    (p name : string) (v : encoding) :
  total_face_encodings (fst (register_face self p name v))
  = S (total_face_encodings self).
Proof.
  rewrite !total_face_encodings_enrolled, register_face_known.
  rewrite (enrolled_split (known_faces self) p).
  change (before p (known_faces self)
          ++ (p, get_default (known_faces self) p [] ++ [v])
          :: after p (known_faces self))
    with (before p (known_faces self)
          ++ [(p, get_default (known_faces self) p [] ++ [v])]
          ++ after p (known_faces self)).
  rewrite !enrolled_app, !length_app. cbn [enrolled flat_map fst snd].
  rewrite app_nil_r, !length_map, length_app. cbn. lia.
Qed.

(** X3. [get_recognition_stats] after any registrations on a new
    engine: [total_face_encodings] is the number of [register_face]
    calls made, duplicates included, and [total_persons], the number of
    distinct ids, never exceeds it. *)
Theorem recognition_stats_count (threshold : R) (calls : list registration) :
  let stats := get_recognition_stats (register_all (init threshold) calls) in
  get stats "total_face_encodings" = Some (VInt (Z.of_nat (List.length calls)))
  /\ exists persons,
      get stats "total_persons" = Some (VInt (Z.of_nat persons))
      /\ (persons <= List.length calls)%nat
      /\ (calls <> [] -> (1 <= persons)%nat).
Proof.
  cbv zeta.
  assert (G : forall calls self,
             total_face_encodings (register_all self calls)
             = (total_face_encodings self + List.length calls)%nat).
  { clear calls. induction calls as [| [[p name] v] calls IH]; intros self.
    - cbn. lia.
    - change (register_all self ((p, name, v) :: calls))
        with (register_all (fst (register_face self p name v)) calls).
      rewrite IH, register_face_total. cbn. lia. }
  assert (Htotal : total_face_encodings (register_all (init threshold) calls)
                   = List.length calls) by (rewrite G; reflexivity).
  assert (L : forall items : dict (list encoding),
             (forall q encs, In (q, encs) items -> encs <> []) ->
             (List.length items <= List.length (enrolled items))%nat).
  { induction items as [| [q encs] rest IH]; intros Hfull; [cbn; lia |].
    rewrite enrolled_cons, length_app, length_map.
    assert (encs <> []) as Hne by (eapply Hfull; now left).
    assert (List.length rest <= List.length (enrolled rest))%nat as Hrest.
    { apply IH. intros q' e He. eapply Hfull. right. exact He. }
    destruct encs; [congruence | cbn [List.length]; lia]. }
  destruct (register_all_from_init threshold calls) as (_ & _ & Hfull & Hids & _).
  split.
  - cbn. now rewrite Htotal.
  - exists (List.length (known_faces (register_all (init threshold) calls))).
    split; [reflexivity |]. split.
    + rewrite <- Htotal, total_face_encodings_enrolled. apply L, Hfull.
    + intros Hne. destruct calls as [| [[p name] v] calls]; [congruence |].
      assert (In p (keys (known_faces
                 (register_all (init threshold) ((p, name, v) :: calls))))) as Hp.
      { apply Hids. now left. }
      unfold keys in Hp.
      unfold registration in *.
      remember (known_faces
                  (register_all (init threshold) ((p, name, v) :: calls)))
        as items eqn:E.
      destruct items; [destruct Hp | cbn [List.length]; lia].
Qed.

(** ** What the search can return *)

Lemma compare_encodings_result (test : encoding) (p : string)
    (encs : list encoding) :
  forall b b',
    distance_like (snd b) ->
    compare_encodings test p encs b = Returned b' ->
    distance_like (snd b') /\ (fst b' = fst b \/ fst b' = Some p).
Proof.
  induction encs as [| e encs IH]; intros b b' Hb H.
  - injection H as <-. auto.
  - cbn [compare_encodings] in H.
    destruct (Np.sub test e) as [diff |]; [| discriminate].
    cbn [bind] in H. apply IH in H.
    + destruct H as [H1 [H2 | H2]]; split; auto.
      destruct (float_ltb (Finite (Np.norm diff)) (snd b)); auto.
    + destruct (float_ltb (Finite (Np.norm diff)) (snd b)); [| exact Hb].
      right. exists (Np.norm diff). split; [reflexivity | apply sqrt_pos].
Qed.

Lemma compare_persons_result (test : encoding) (items : dict (list encoding)) :
  forall b b',
    distance_like (snd b) ->
    compare_persons test items b = Returned b' ->
    distance_like (snd b')
    /\ (fst b' = fst b \/ exists q, fst b' = Some q /\ In q (keys items)).
Proof.
  induction items as [| [p encs] items IH]; intros b b' Hb H.
  - injection H as <-. auto.
  - cbn [compare_persons] in H.
    destruct (compare_encodings test p encs b) as [b1 |] eqn:E; [| discriminate].
    cbn [bind] in H.
    destruct (compare_encodings_result test p encs b b1 Hb E) as [S1 F1].
    destruct (IH b1 b' S1 H) as [S2 F2]. split; [exact S2 |].
    destruct F2 as [F2 | (q & F2 & Hq)].
    + destruct F1 as [F1 | F1].
      * left. congruence.
      * right. exists p. split; [congruence | now left].
    + right. exists q. split; [exact F2 | now right].
Qed.

(** X4. Whatever the registry and the query, a result of
    [recognize_face] carries a confidence between 0 and 1; a positive
    match has confidence above 0.3, whatever [confidence_threshold] was
    configured, and a null identity always has the name "Unknown". *)
Theorem recognize_confidence_range (self : FacialRecognitionEngine)
    (test_encoding : option encoding) (now : datetime) (result : dict value) :
  recognize_encoding self test_encoding now = Returned result ->
  exists c,
    get result "confidence" = Some (VFloat (Finite c))
    /\ 0 <= c <= 1
    /\ (get result "person_id" <> Some VNone -> 3 / 10 < c)
    /\ (get result "person_id" = Some VNone ->
        get result "name" = Some (VStr "Unknown")).
Proof.
  destruct test_encoding as [test |]; cbn [recognize_encoding].
  - destruct (nearest self test) as [[m x] |] eqn:E; [| discriminate].
    cbn [bind fst snd]. unfold nearest in E.
    pose proof (compare_persons_result test (known_faces self) (None, PosInf) (m, x)
                  (or_introl eq_refl) E) as [Hx _].
    cbn [snd] in Hx. destruct Hx as [-> | (d & -> & Hd)].
    + rewrite confidence_of_infinity. cbn [float_ltb andb].
      intros H. injection H as <-. exists 0. cbn.
      split; [reflexivity |]. split; [lra |]. split; [congruence | reflexivity].
    + rewrite confidence_of_distance.
      destruct (float_ltb (Finite d) (Finite (7 / 10))) eqn:L;
        [destruct (truthy_id m) eqn:T |]; cbn [andb];
        intros H; injection H as <-; exists (Rmax 0 (1 - d)); cbn;
        (split; [reflexivity |]);
        (split; [split; [apply Rmax_l | apply Rmax_lub; lra] |]).
      * apply float_ltb_finite in L. split.
        -- intros _. apply Rlt_le_trans with (1 - d); [lra | apply Rmax_r].
        -- destruct m; cbn in *; [discriminate | discriminate].
      * split; [congruence | reflexivity].
      * split; [congruence | reflexivity].
  - intros H. injection H as <-. exists 0. cbn.
    split; [reflexivity |]. split; [lra |]. split; [congruence | reflexivity].
Qed.

(** One person registered with [unit_encoding], matched with it. *)
Lemma recognize_single_registration :
  recognize_encoding
    (register_all (init (6 / 10)) [("resident_001", "John Doe", unit_encoding)])
    (Some unit_encoding) 0%Z
  = Returned [("person_id", VStr "resident_001"); ("name", VStr "John Doe");
              ("confidence", VFloat (Finite 1)); ("timestamp", VIso 0%Z)].
Proof.
  rewrite (recognize_encoding_at_zero _ _ "resident_001"); [reflexivity | | discriminate].
  unfold nearest. rewrite compare_persons_fold by (cbn; repeat constructor).
  cbn [register_all fold_left register_face init fst snd known_faces mem get set
       get_default String.eqb Ascii.eqb Bool.eqb app candidates enrolled flat_map map].
  rewrite euclidean_same. reflexivity.
Qed.

Lemma recognize_confidence_range_witness :
  exists c,
    get [("person_id", VStr "resident_001"); ("name", VStr "John Doe");
         ("confidence", VFloat (Finite 1)); ("timestamp", VIso 0%Z)] "confidence"
    = Some (VFloat (Finite c))
    /\ 0 <= c <= 1.
Proof.
  destruct (recognize_confidence_range _ _ _ _ recognize_single_registration)
    as (c & H1 & H2 & _).
  exists c. split; [exact H1 | exact H2].
Defined.

(** ** Shapes that do not fit *)

Lemma sub_raises_value_error (a b : encoding) (e : string) :
  Np.sub a b = Raised e -> e = "ValueError".
Proof.
  unfold Np.sub. destruct (Nat.eqb (List.length a) (List.length b)); [discriminate |].
  destruct a as [| x [| x' a]], b as [| y [| y' b]]; try discriminate;
    intros H; now injection H.
Qed.

Lemma sub_incompatible (a b : encoding) :
  incompatible a b -> Np.sub a b = Raised "ValueError".
Proof.
  intros (H1 & H2 & H3). unfold Np.sub.
  apply Nat.eqb_neq in H1. rewrite H1.
  destruct a as [| x [| x' a]], b as [| y [| y' b]]; cbn in *; congruence.
Qed.

Lemma compare_encodings_raises_value_error (test : encoding) (p : string)
    (encs : list encoding) :
  forall b e, compare_encodings test p encs b = Raised e -> e = "ValueError".
Proof.
  induction encs as [| k encs IH]; intros b e H; [discriminate |].
  cbn [compare_encodings] in H.
  destruct (Np.sub test k) as [diff |] eqn:E; cbn [bind] in H.
  - eapply IH, H.
  - injection H as <-. eapply sub_raises_value_error, E.
Qed.

Lemma compare_encodings_incompatible (test : encoding) (p : string)
    (encs : list encoding) (k : encoding) :
  In k encs -> incompatible test k ->
  forall b, compare_encodings test p encs b = Raised "ValueError".
Proof.
  intros Hin Hk. induction encs as [| k' encs IH]; intros b; [destruct Hin |].
  cbn [compare_encodings]. destruct Hin as [-> | Hin].
  - now rewrite sub_incompatible.
  - destruct (Np.sub test k') as [diff |] eqn:E; cbn [bind].
    + now apply IH.
    + f_equal. eapply sub_raises_value_error, E.
Qed.

(** X5. One enrolled encoding whose shape cannot be broadcast against
    the query makes [recognize_face] raise the [ValueError] of the
    subtraction, whatever else is enrolled: no result is returned. *)
Theorem recognize_shape_mismatch_raises (self : FacialRecognitionEngine)
    (test : encoding) (p : string) (known : encoding) (now : datetime) :
  In (p, known) (enrolled (known_faces self)) ->
  incompatible test known ->
  recognize_encoding self (Some test) now = Raised "ValueError".
Proof.
  intros Hin Hk. unfold recognize_encoding, nearest.
  assert (forall b, compare_persons test (known_faces self) b = Raised "ValueError")
    as ->; [| reflexivity].
  induction (known_faces self) as [| [q encs] items IH]; intros b; [destruct Hin |].
  rewrite enrolled_cons in Hin. cbn [compare_persons].
  apply in_app_or in Hin as [Hin | Hin].
  - apply in_map_iff in Hin as (k & E & Hk'). injection E as _ ->.
    now rewrite (compare_encodings_incompatible test q encs known Hk' Hk).
  - destruct (compare_encodings test q encs b) as [b1 |] eqn:E; cbn [bind].
    + now apply IH.
    + f_equal. eapply compare_encodings_raises_value_error, E.
Qed.

Lemma recognize_shape_mismatch_raises_witness :
  let self := fst (register_face (init (6 / 10)) "resident_001" "John Doe"
                                 [1; 0; 0]) in
  In ("resident_001", [1; 0; 0]) (enrolled (known_faces self))
  /\ incompatible unit_encoding [1; 0; 0]
  /\ recognize_encoding self (Some unit_encoding) 0%Z = Raised "ValueError".
Proof.
  cbv zeta.
  assert (H1 : In ("resident_001", [1; 0; 0])
                 (enrolled (known_faces
                    (fst (register_face (init (6 / 10)) "resident_001" "John Doe"
                                        [1; 0; 0]))))) by (cbn; auto).
  assert (H2 : incompatible unit_encoding [1; 0; 0]).
  { unfold incompatible, unit_encoding, Np.zeros. rewrite length_cons, repeat_length.
    cbn. repeat split; discriminate. }
  split; [exact H1 |]. split; [exact H2 |].
  exact (recognize_shape_mismatch_raises _ _ _ _ 0%Z H1 H2).
Defined.

(** X6. On an engine built by registrations, a positive match always
    names a person that was registered and carries the name that the
    registry holds for it. *)
Theorem recognize_names_registered_person (threshold : R)
    (calls : list registration) (test : encoding) (now : datetime)
    (result : dict value) :
  let self := register_all (init threshold) calls in
  recognize_encoding self (Some test) now = Returned result ->
  get result "person_id" <> Some VNone ->
  exists p name,
    get result "person_id" = Some (VStr p)
    /\ In p (map (fun c => fst (fst c)) calls)
    /\ get (person_names self) p = Some name
    /\ get result "name" = Some (VStr name).
Proof.
  cbv zeta. intros H Hmatch.
  destruct (register_all_from_init threshold calls) as (Hkeys & _ & _ & Hids & _).
  cbn [recognize_encoding] in H.
  destruct (nearest (register_all (init threshold) calls) test) as [[m x] |] eqn:E;
    [| discriminate].
  cbn [bind fst snd] in H. unfold nearest in E.
  pose proof (compare_persons_result test _ (None, PosInf) (m, x)
                (or_introl eq_refl) E) as [_ Hm].
  cbn [fst] in Hm.
  destruct (float_ltb x (Finite (7 / 10)) && truthy_id m) eqn:B.
  - injection H as <-. destruct Hm as [-> | (p & -> & Hp)].
    + cbn in B. now rewrite andb_false_r in B.
    + assert (In p (keys (person_names (register_all (init threshold) calls)))) as Hn
        by (rewrite <- Hkeys; exact Hp).
      apply mem_keys in Hn. unfold mem in Hn.
      destruct (get (person_names (register_all (init threshold) calls)) p)
        as [name |] eqn:G; [| discriminate].
      exists p, name. split; [reflexivity |].
      split; [now apply Hids |]. split; [exact G |].
      cbn. unfold get_default. now rewrite G.
  - injection H as <-. cbn in Hmatch. congruence.
Qed.

Lemma recognize_names_registered_person_witness :
  exists p name,
    get [("person_id", VStr "resident_001"); ("name", VStr "John Doe");
         ("confidence", VFloat (Finite 1)); ("timestamp", VIso 0%Z)] "person_id"
    = Some (VStr p)
    /\ In p ["resident_001"]
    /\ get [("person_id", VStr "resident_001"); ("name", VStr "John Doe");
            ("confidence", VFloat (Finite 1)); ("timestamp", VIso 0%Z)] "name"
       = Some (VStr name).
Proof.
  assert (Hm : get [("person_id", VStr "resident_001"); ("name", VStr "John Doe");
                    ("confidence", VFloat (Finite 1)); ("timestamp", VIso 0%Z)]
                   "person_id" <> Some VNone) by (cbn; discriminate).
  destruct (recognize_names_registered_person (6 / 10)
              [("resident_001", "John Doe", unit_encoding)] unit_encoding 0%Z _
              recognize_single_registration Hm)
    as (p & name & H1 & H2 & _ & H3).
  exists p, name. split; [exact H1 |]. split; [exact H2 | exact H3].
Defined.

End RegistryProperties.

(* ------------------------------------------------------------------ *)
(** * Further properties of the feature extractor *)

Section DescriptorProperties.

Import Py FacialRecognition.
Local Open Scope string_scope.
Local Open Scope R_scope.
Local Open Scope list_scope.

Lemma sum_nonneg (v : Np.ndarray) :
  Forall (fun x => 0 <= x) v -> 0 <= Np.sum v.
Proof.
  induction 1 as [| x v Hx _ IH]; [cbn; lra |]. rewrite sum_cons. lra.
Qed.

Lemma magnitude_nonneg (sobelx sobely : Np.ndarray) :
  Forall (fun x => 0 <= x)
         (Np.map2 (fun gx gy => sqrt (gx * gx + gy * gy)) sobelx sobely).
Proof.
  revert sobely. induction sobelx as [| x sx IH]; intros [| y sy]; cbn;
    constructor; [apply sqrt_pos | apply IH].
Qed.

Lemma histogram_nonneg (a edges w : Np.ndarray) :
  Forall (fun x => 0 <= x) w ->
  Forall (fun x => 0 <= x) (Np.histogram a edges w).
Proof.
  intros Hw. unfold Np.histogram. apply Forall_forall. intros x Hx.
  apply in_map_iff in Hx as (i & <- & _). apply sum_nonneg.
  apply Forall_forall. intros y Hy. apply in_map_iff in Hy as ([x' w'] & <- & Hin).
  apply filter_In in Hin as [Hin _]. apply in_combine_r in Hin.
  rewrite Forall_forall in Hw. now apply Hw.
Qed.

Lemma calcHist_nonneg (img : gray_image) (n : nat) (lo hi : Z) :
  Forall (fun x => 0 <= x) (calcHist img n lo hi).
Proof.
  unfold calcHist. apply Forall_forall. intros x Hx.
  apply in_map_iff in Hx as (i & <- & _). apply pos_INR.
Qed.

Lemma combined_nonneg {image : Type} (cv2 : Cv2 image) (gray : gray_image)
    (sobelx sobely : Np.ndarray) :
  Forall (fun x => 0 <= x) (ensure_128 (combined_histograms cv2 gray sobelx sobely)).
Proof.
  rewrite (ensure_128_pads _ (combined_histograms_length cv2 gray sobelx sobely)).
  apply Forall_app. split.
  - unfold combined_histograms. apply Forall_app. split.
    + apply histogram_nonneg, magnitude_nonneg.
    + apply calcHist_nonneg.
  - unfold Np.zeros. apply Forall_forall. intros x Hx.
    apply repeat_spec in Hx. lra.
Qed.

(** A non-negative vector divided by its norm has entries in [0, 1]. *)
Lemma normalize_entries (v : Np.ndarray) :
  Forall (fun x => 0 <= x) v ->
  Forall (fun x => 0 <= x <= 1) (normalize v).
Proof.
  intros Hv. unfold normalize. destruct (Rlt_dec 0 (Np.norm v)) as [Hn | Hn].
  - unfold Np.div_scalar. apply Forall_forall. intros y Hy.
    apply in_map_iff in Hy as (x & <- & Hx).
    rewrite Forall_forall in Hv. specialize (Hv x Hx).
    assert (x <= Np.norm v) as Hle.
    { rewrite <- (sqrt_square x) by exact Hv. unfold Np.norm.
      apply sqrt_le_1_alt. now apply sum_squares_member. }
    split.
    + apply Rmult_le_pos; [exact Hv |]. apply Rlt_le, Rinv_0_lt_compat, Hn.
    + apply Rmult_le_reg_r with (Np.norm v); [exact Hn |].
      unfold Rdiv. rewrite Rmult_assoc, Rinv_l by lra. lra.
  - assert (Np.norm v = 0) as Hz by (pose proof (norm_nonneg v); lra).
    apply norm_zero in Hz. apply Forall_forall. intros x Hx.
    rewrite Forall_forall in Hz. rewrite (Hz x Hx). lra.
Qed.

(** X7. Every entry of a descriptor returned by
    [_extract_face_features] lies between 0 and 1: the histograms are sums
    of gradient magnitudes and pixel counts, and the division by the norm
    scales them down. *)
Theorem descriptor_entries_bounded {image : Type} (cv2 : Cv2 image)
    (roi : image) (v : encoding) :
  _extract_face_features cv2 (Some roi) = Some v ->
  Forall (fun x => 0 <= x <= 1) v.
Proof.
  intros H.
  destruct (extract_inversion cv2 roi v H)
    as (resized & g & gray & sx & sy & _ & _ & _ & _ & _ & ->).
  apply normalize_entries, combined_nonneg.
Qed.

Lemma descriptor_entries_bounded_witness :
  exists v,
    _extract_face_features cv2_uniform (Some [0%Z]) = Some v
    /\ Forall (fun x => 0 <= x <= 1) v.
Proof.
  eexists. split; [reflexivity |].
  exact (descriptor_entries_bounded cv2_uniform [0%Z] _ eq_refl).
Defined.

(** X8. A face region that is empty, or on which one of the OpenCV calls
    raises, gives no descriptor; [recognize_face] then returns the null
    identity "Unknown" with confidence 0, whatever the registry holds,
    and does not raise. *)
Theorem recognize_face_without_descriptor {image : Type} (cv2 : Cv2 image)
    (self : FacialRecognitionEngine) (frame : image)
    (face_location : Z * Z * Z * Z) (now : datetime) :
  let face_roi := crop cv2 frame face_location in
  size cv2 face_roi = 0%nat
  \/ (exists e, resize cv2 face_roi (64%nat, 64%nat) = Raised e)
  \/ (exists resized e,
        resize cv2 face_roi (64%nat, 64%nat) = Returned resized
        /\ cvtColor_BGR2GRAY cv2 resized = Raised e) ->
  _extract_face_features cv2 (Some face_roi) = None
  /\ recognize_face cv2 self frame face_location now
     = Returned [("person_id", VNone); ("name", VStr "Unknown");
                 ("confidence", VFloat (Finite 0)); ("timestamp", VIso now)].
Proof.
  cbv zeta. intros H.
  assert (_extract_face_features cv2 (Some (crop cv2 frame face_location)) = None)
    as Hnone.
  { unfold _extract_face_features, extract_body.
    destruct H as [H | [(e & H) | (resized & e & H1 & H2)]].
    - now rewrite H.
    - rewrite H. now destruct (Nat.eqb _ 0).
    - rewrite H1. cbn [bind]. rewrite H2. now destruct (Nat.eqb _ 0). }
  split; [exact Hnone |].
  unfold recognize_face. now rewrite Hnone.
Qed.

Lemma recognize_face_without_descriptor_witness :
  size cv2_uniform (crop cv2_uniform [] (0, 0, 0, 0)%Z) = 0%nat
  /\ recognize_face cv2_uniform
       (fst (register_face (init (6 / 10)) "resident_001" "John Doe" unit_encoding))
       [] (0, 0, 0, 0)%Z 0%Z
     = Returned [("person_id", VNone); ("name", VStr "Unknown");
                 ("confidence", VFloat (Finite 0)); ("timestamp", VIso 0%Z)].
Proof.
  split; [reflexivity |].
  exact (proj2 (recognize_face_without_descriptor cv2_uniform _ [] (0, 0, 0, 0)%Z 0%Z
                  (or_introl eq_refl))).
Defined.

End DescriptorProperties.

(* ------------------------------------------------------------------ *)
(** * Further properties of the threat detector *)

Section ThreatRuleProperties.

Import Py ThreatDetection ThreatRules.
Local Open Scope string_scope.
Local Open Scope Z_scope.
Local Open Scope list_scope.

Lemma recent_accesses_count (log : list (datetime * string * string))
    (person_id : string) (window_start : datetime) :
  Z.of_nat (List.length
              (filter (fun access =>
                         (window_start <? fst (fst access)) &&
                         String.eqb (snd (fst access)) person_id &&
                         String.eqb (snd access) "success") log))
  = success_count log person_id window_start.
Proof.
  induction log as [| [[t p] status] log IH]; [reflexivity |].
  cbn [filter success_count fst snd].
  destruct ((window_start <? t) && String.eqb p person_id && String.eqb status "success").
  - cbn [List.length]. rewrite Nat2Z.inj_succ, IH. lia.
  - rewrite IH. lia.
Qed.

Lemma success_count_app (xs ys : list (datetime * string * string))
    (p : string) (start : datetime) :
  success_count (xs ++ ys) p start = success_count xs p start + success_count ys p start.
Proof.
  induction xs as [| [[t q] status] xs IH]; cbn [app success_count]; [lia |].
  rewrite IH. lia.
Qed.

(** X9. [check_frequency_spike] returns an alert exactly when the
    person's successful accesses logged inside the window number strictly
    more than the threshold; the alert has severity MEDIUM and carries
    that number.  A count equal to the threshold gives no alert, and a
    failed attempt, whoever makes it, never changes the outcome. *)
Theorem check_frequency_spike_iff (self : ThreatDetector) (person_id : string)
    (window_minutes spike_threshold : Z) (now : datetime) :
  let count :=
    success_count (access_log self) person_id
                  (now - timedelta_minutes window_minutes) in
  (check_frequency_spike self person_id window_minutes spike_threshold now <> None
     <-> spike_threshold < count)
  /\ (forall alert,
        check_frequency_spike self person_id window_minutes spike_threshold now
        = Some alert ->
        get alert "severity" = Some (VStr "MEDIUM")
        /\ get alert "access_count" = Some (VInt count))
  /\ (count = spike_threshold ->
        check_frequency_spike self person_id window_minutes spike_threshold now = None)
  /\ (forall q t1 t2,
        check_frequency_spike (log_access_attempt self q false t1 t2)
                              person_id window_minutes spike_threshold now
        = check_frequency_spike self person_id window_minutes spike_threshold now).
Proof.
  intros count.
  assert (E : forall d,
             success_count (access_log d) person_id
                           (now - timedelta_minutes window_minutes) = count ->
             check_frequency_spike d person_id window_minutes spike_threshold now
             = if spike_threshold <? count then
                 Some [("threat_type", VStr "ACCESS_FREQUENCY_SPIKE");
                       ("severity", VStr "MEDIUM");
                       ("person_id", VStr person_id);
                       ("access_count", VInt count);
                       ("window_minutes", VInt window_minutes);
                       ("timestamp", VIso now);
                       ("message",
                        VStr ("High access frequency: " ++ str_of_Z count
                              ++ " accesses in " ++ str_of_Z window_minutes
                              ++ " minutes")%string)]
               else None).
  { intros d Hd. unfold check_frequency_spike, recent_accesses.
    rewrite recent_accesses_count, Hd. reflexivity. }
  rewrite (E self eq_refl).
  split; [| split; [| split]].
  - destruct (spike_threshold <? count) eqn:L.
    + apply Z.ltb_lt in L. split; [auto | discriminate].
    + apply Z.ltb_ge in L. split; [intros H; now elim H | lia].
  - intros alert H. destruct (spike_threshold <? count); [| discriminate].
    injection H as <-. split; reflexivity.
  - intros ->. now rewrite Z.ltb_irrefl.
  - intros q t1 t2. apply E.
    destruct (log_access_attempt_lengths self q false t1 t2) as [-> _].
    rewrite success_count_app. cbn [success_count snd].
    replace (String.eqb "failed" "success") with false by reflexivity.
    rewrite andb_false_r. fold count. lia.
Qed.

Lemma check_frequency_spike_iff_witness :
  let self := run default [LogAccessAttempt "resident_001" true 0 0;
                           LogAccessAttempt "resident_001" true 1000000 1000000] in
  success_count (access_log self) "resident_001"
                (2000000 - timedelta_minutes 60) = 2
  /\ check_frequency_spike self "resident_001" 60 2 2000000 = None
  /\ check_frequency_spike self "resident_001" 60 1 2000000 <> None.
Proof.
  cbv zeta. split; [reflexivity |].
  destruct (check_frequency_spike_iff
              (run default [LogAccessAttempt "resident_001" true 0 0;
                            LogAccessAttempt "resident_001" true 1000000 1000000])
              "resident_001" 60 2 2000000) as (_ & _ & H & _).
  split; [exact (H eq_refl) |].
  destruct (check_frequency_spike_iff
              (run default [LogAccessAttempt "resident_001" true 0 0;
                            LogAccessAttempt "resident_001" true 1000000 1000000])
              "resident_001" 60 1 2000000) as (H' & _).
  apply H'. reflexivity.
Defined.

Lemma hour_range (t : datetime) : 0 <= hour t < 24.
Proof. unfold hour. apply Z.mod_pos_bound. lia. Qed.

(** X10. With the default hours, [check_unusual_access_time] returns an
    alert exactly when the clock's hour is before 6 or from 22 on; the
    alert has severity MEDIUM and carries the hour.  With an explicitly
    empty list it never does.  Neither the person nor anything the
    detector has logged plays a part. *)
Theorem check_unusual_access_time_iff (self : ThreatDetector)
    (person_id : string) (now : datetime) :
  (check_unusual_access_time self person_id None now <> None
     <-> hour now < 6 \/ 22 <= hour now)
  /\ (forall alert,
        check_unusual_access_time self person_id None now = Some alert ->
        get alert "severity" = Some (VStr "MEDIUM")
        /\ get alert "access_hour" = Some (VInt (hour now)))
  /\ check_unusual_access_time self person_id (Some []) now = None
  /\ (forall other hours,
        check_unusual_access_time other person_id hours now
        = check_unusual_access_time self person_id hours now).
Proof.
  pose proof (hour_range now) as Hr.
  unfold check_unusual_access_time.
  split; [| split; [| split]].
  - destruct (existsb (Z.eqb (hour now)) default_unusual_hours) eqn:E.
    + split; [| discriminate]. intros _.
      apply existsb_exists in E as (h & Hin & Heq). apply Z.eqb_eq in Heq.
      unfold default_unusual_hours in Hin. cbn in Hin. lia.
    + split; [intros H; now elim H |]. intros H. exfalso.
      assert (existsb (Z.eqb (hour now)) default_unusual_hours = true) as E';
        [| congruence].
      apply existsb_exists. exists (hour now). split; [| apply Z.eqb_refl].
      unfold default_unusual_hours. cbn. lia.
  - intros alert H.
    destruct (existsb (Z.eqb (hour now)) default_unusual_hours); [| discriminate].
    injection H as <-. split; reflexivity.
  - reflexivity.
  - reflexivity.
Qed.

Lemma check_unusual_access_time_iff_witness :
  (* 02:05 on the first of January 1970 *)
  hour 7500000000 = 2
  /\ check_unusual_access_time default "resident_001" None 7500000000 <> None.
Proof.
  split; [reflexivity |].
  apply (proj1 (check_unusual_access_time_iff default "resident_001" 7500000000)).
  left. reflexivity.
Defined.

(** X11. [check_inactivity] returns an alert exactly when more than the
    configured number of hours, strictly, lie between the last activity
    and now: at exactly that many hours there is none.  The alert has
    severity CRITICAL and reports a number of hours above the threshold. *)
Theorem check_inactivity_iff (format_1f : R -> string) (self : ThreatDetector)
    (person_id : string) (last_activity now : datetime) :
  (check_inactivity format_1f self person_id last_activity now <> None
     <-> timedelta_hours (inactivity_threshold_hours self) < now - last_activity)
  /\ (forall alert,
        check_inactivity format_1f self person_id last_activity now = Some alert ->
        get alert "severity" = Some (VStr "CRITICAL")
        /\ exists hours,
            get alert "inactivity_hours" = Some (VFloat (Finite hours))
            /\ (IZR (inactivity_threshold_hours self) < hours)%R)
  /\ check_inactivity format_1f self person_id last_activity
       (last_activity + timedelta_hours (inactivity_threshold_hours self)) = None.
Proof.
  unfold check_inactivity. split; [| split].
  - destruct (timedelta_hours (inactivity_threshold_hours self) <? now - last_activity)
      eqn:L.
    + apply Z.ltb_lt in L. split; [auto | discriminate].
    + apply Z.ltb_ge in L. split; [intros H; now elim H | lia].
  - intros alert H.
    destruct (timedelta_hours (inactivity_threshold_hours self) <? now - last_activity)
      eqn:L; [| discriminate].
    apply Z.ltb_lt in L. injection H as <-. split; [reflexivity |].
    eexists. split; [reflexivity |].
    unfold timedelta_hours in L. apply IZR_lt in L. rewrite mult_IZR in L.
    apply Rmult_lt_reg_r with 3600%R; [lra |].
    apply Rmult_lt_reg_r with 1000000%R; [lra |].
    replace (IZR 3600000000) with (3600 * 1000000)%R in L by lra.
    unfold Rdiv. lra.
  - replace (last_activity + timedelta_hours (inactivity_threshold_hours self)
             - last_activity)
      with (timedelta_hours (inactivity_threshold_hours self)) by lia.
    now rewrite Z.ltb_irrefl.
Qed.

Lemma check_inactivity_iff_witness :
  (* last seen at 00:00, now 24 hours and one second later *)
  timedelta_hours (inactivity_threshold_hours default) < 86401000000 - 0
  /\ check_inactivity (fun _ => "24.0") default "resident_001" 0 86401000000 <> None.
Proof.
  assert (H : timedelta_hours (inactivity_threshold_hours default) < 86401000000 - 0)
    by reflexivity.
  split; [exact H |].
  exact (proj2 (proj1 (check_inactivity_iff (fun _ => "24.0") default "resident_001"
                         0 86401000000)) H).
Defined.

Lemma failed_check_depends_on_recent (d d' : ThreatDetector) (p : string)
    (now : datetime) :
  failed_attempt_threshold d' = failed_attempt_threshold d ->
  recent_failures d' p now = recent_failures d p now ->
  check_failed_access_attempts d' p now = check_failed_access_attempts d p now.
Proof.
  intros H1 H2. unfold check_failed_access_attempts. now rewrite H1, H2.
Qed.

(** X12. Logging a successful attempt, or a failed attempt of another
    person, leaves the outcome of [check_failed_access_attempts] for a
    person as it was. *)
Theorem log_access_attempt_frame (self : ThreatDetector) (q p : string)
    (success : bool) (t1 t2 now : datetime) :
  success = true \/ q <> p ->
  check_failed_access_attempts (log_access_attempt self q success t1 t2) p now
  = check_failed_access_attempts self p now.
Proof.
  intros H. apply failed_check_depends_on_recent; [reflexivity |].
  unfold recent_failures. cbn [log_access_attempt failed_attempts
                               failed_attempt_window_minutes].
  destruct success; cbn [negb]; [reflexivity |].
  destruct H as [H | H]; [discriminate |].
  rewrite filter_app. cbn [filter fst snd].
  apply String.eqb_neq in H. rewrite H, andb_false_r. apply app_nil_r.
Qed.

Lemma log_access_attempt_frame_witness :
  "caregiver_001" <> "resident_001"
  /\ check_failed_access_attempts
       (log_access_attempt default "caregiver_001" false 0 0) "resident_001" 1
     = check_failed_access_attempts default "resident_001" 1.
Proof.
  assert (H : "caregiver_001" <> "resident_001") by discriminate.
  split; [exact H |].
  exact (log_access_attempt_frame default "caregiver_001" "resident_001" false 0 0 1
           (or_intror H)).
Defined.

(** The configuration is never written after [__init__]. *)
Lemma run_configuration (calls : list call) :
  forall self,
    failed_attempt_threshold (run self calls) = failed_attempt_threshold self
    /\ failed_attempt_window_minutes (run self calls)
       = failed_attempt_window_minutes self
    /\ inactivity_threshold_hours (run self calls) = inactivity_threshold_hours self.
Proof.
  induction calls as [| c calls IH]; intros self; [auto |].
  change (run self (c :: calls)) with (run (fst (exec self c)) calls).
  destruct (IH (fst (exec self c))) as (-> & -> & ->).
  destruct c; auto.
Qed.

Lemma no_failure_logged (calls : list call) :
  forallb (fun c => negb (logs_failure c)) calls = true ->
  logged_failures calls = 0%nat.
Proof.
  unfold logged_failures. induction calls as [| c calls IH]; intros H; [reflexivity |].
  cbn [forallb] in H. apply andb_true_iff in H as [Hc Hrest].
  cbn [filter]. destruct c as [q [|] t1 t2 | | |]; cbn in Hc;
    try discriminate; now apply IH.
Qed.

(** X13. On a detector created with a positive threshold, as long as
    every logged attempt was a success (the integration flow logs nothing
    else), [check_failed_access_attempts] returns no alert, for any
    person at any time. *)
Theorem successes_never_alert (threshold window_minutes inactivity_hours : Z)
    (calls : list call) (person_id : string) (now : datetime) :
  0 < threshold ->
  forallb (fun c => negb (logs_failure c)) calls = true ->
  check_failed_access_attempts
    (run (init threshold window_minutes inactivity_hours) calls) person_id now = None.
Proof.
  intros Hthr Hcalls.
  destruct (run_histories (init threshold window_minutes inactivity_hours) calls)
    as [_ (added & E & L)].
  rewrite (no_failure_logged calls Hcalls) in L.
  destruct added; [| discriminate].
  destruct (run_configuration calls (init threshold window_minutes inactivity_hours))
    as (Ht & _).
  unfold check_failed_access_attempts, recent_failures. rewrite E, Ht.
  cbn. destruct (threshold <=? 0) eqn:T; [apply Z.leb_le in T; lia | reflexivity].
Qed.

Lemma successes_never_alert_witness :
  let calls := [LogAccessAttempt "resident_001" true 0 0;
                CheckFailedAccessAttempts "resident_001" 1;
                LogAccessAttempt "caregiver_001" true 2 2] in
  0 < 3
  /\ forallb (fun c => negb (logs_failure c)) calls = true
  /\ check_failed_access_attempts (run (init 3 10 24) calls) "resident_001" 3 = None.
Proof.
  cbv zeta.
  assert (H1 : 0 < 3) by reflexivity.
  split; [exact H1 |]. split; [reflexivity |].
  exact (successes_never_alert 3 10 24
           [LogAccessAttempt "resident_001" true 0 0;
            CheckFailedAccessAttempts "resident_001" 1;
            LogAccessAttempt "caregiver_001" true 2 2] "resident_001" 3 H1 eq_refl).
Defined.

(** The persons of the log entries with status "failed", in order. *)
Lemma failed_entries_app (xs ys : list (datetime * string * string)) :
  map (fun a => snd (fst a)) (filter (fun a => String.eqb (snd a) "failed") (xs ++ ys))
  = map (fun a => snd (fst a)) (filter (fun a => String.eqb (snd a) "failed") xs)
    ++ map (fun a => snd (fst a)) (filter (fun a => String.eqb (snd a) "failed") ys).
Proof. now rewrite filter_app, map_app. Qed.

Lemma run_failed_entries (calls : list call) :
  forall self,
    map snd (failed_attempts self)
    = map (fun a => snd (fst a))
          (filter (fun a => String.eqb (snd a) "failed") (access_log self)) ->
    map snd (failed_attempts (run self calls))
    = map (fun a => snd (fst a))
          (filter (fun a => String.eqb (snd a) "failed") (access_log (run self calls))).
Proof.
  induction calls as [| c calls IH]; intros self H; [exact H |].
  change (run self (c :: calls)) with (run (fst (exec self c)) calls).
  apply IH. destruct c as [p ok t1 t2 | | |]; cbn [exec fst]; try exact H.
  destruct (log_access_attempt_lengths self p ok t1 t2) as [-> ->].
  rewrite failed_entries_app, map_app, H. f_equal.
  now destruct ok.
Qed.

(** X14. On a detector used from its creation, the failed attempts held
    are, person by person and in order, the entries of the access log
    with status "failed"; so [get_threat_stats] never reports more failed
    attempts than logged accesses. *)
Theorem failed_attempts_mirror_log (threshold window_minutes inactivity_hours : Z)
    (calls : list call) :
  let self := run (init threshold window_minutes inactivity_hours) calls in
  map snd (failed_attempts self)
  = map (fun a => snd (fst a))
        (filter (fun a => String.eqb (snd a) "failed") (access_log self))
  /\ exists failed total,
      get (get_threat_stats self) "total_failed_attempts" = Some (VInt failed)
      /\ get (get_threat_stats self) "total_logged_accesses" = Some (VInt total)
      /\ 0 <= failed <= total.
Proof.
  cbv zeta.
  pose proof (run_failed_entries calls
                (init threshold window_minutes inactivity_hours) eq_refl) as H.
  split; [exact H |].
  eexists. eexists. split; [reflexivity |]. split; [reflexivity |].
  split; [lia |]. apply Nat2Z.inj_le.
  apply (f_equal (@List.length string)) in H. rewrite !length_map in H.
  rewrite H. apply filter_length_le.
Qed.

Lemma recent_failures_log_failures (times : list datetime) :
  forall (self : ThreatDetector) (p : string) (now : datetime),
    Forall (fun t => now - timedelta_minutes (failed_attempt_window_minutes self) < t)
           times ->
    failed_attempt_threshold (log_failures self p times) = failed_attempt_threshold self
    /\ (List.length (recent_failures (log_failures self p times) p now)
        = List.length (recent_failures self p now) + List.length times)%nat.
Proof.
  induction times as [| t times IH]; intros self p now Hall.
  - cbn. split; [reflexivity | lia].
  - inversion Hall as [| ? ? Ht Hrest]; subst.
    change (log_failures self p (t :: times))
      with (log_failures (log_access_attempt self p false t t) p times).
    destruct (IH (log_access_attempt self p false t t) p now) as [H1 H2];
      [exact Hrest |].
    rewrite H1, H2. split; [reflexivity |].
    assert (List.length (recent_failures (log_access_attempt self p false t t) p now)
            = S (List.length (recent_failures self p now))) as ->.
    { unfold recent_failures.
      cbn [log_access_attempt failed_attempts failed_attempt_window_minutes negb].
      rewrite filter_app, length_app. cbn [filter fst snd].
      apply Z.ltb_lt in Ht. rewrite Ht, String.eqb_refl. cbn. apply Nat.add_1_r. }
    cbn [List.length]. lia.
Qed.

(** X15. Whatever was logged before, once a person's failures logged
    inside the window are at least as many as the threshold,
    [check_failed_access_attempts] returns an alert for that person, and
    its [failed_count] is at least their number. *)
Theorem enough_failures_alert (self : ThreatDetector) (person_id : string)
    (times : list datetime) (now : datetime) :
  Forall (fun t => now - timedelta_minutes (failed_attempt_window_minutes self) < t)
         times ->
  failed_attempt_threshold self <= Z.of_nat (List.length times) ->
  exists alert count,
    check_failed_access_attempts (log_failures self person_id times) person_id now
    = Some alert
    /\ get alert "failed_count" = Some (VInt count)
    /\ Z.of_nat (List.length times) <= count.
Proof.
  intros Hall Hthr.
  destruct (recent_failures_log_failures times self person_id now Hall) as [H1 H2].
  unfold check_failed_access_attempts. rewrite H1, H2.
  destruct (failed_attempt_threshold self
            <=? Z.of_nat (List.length (recent_failures self person_id now)
                          + List.length times)) eqn:L.
  - eexists. eexists. split; [reflexivity |]. split; [reflexivity | lia].
  - apply Z.leb_gt in L. lia.
Qed.

Lemma enough_failures_alert_witness :
  let times := [0; 60000000; 120000000] in
  Forall (fun t => 120000001 - timedelta_minutes
                                 (failed_attempt_window_minutes default) < t) times
  /\ failed_attempt_threshold default <= Z.of_nat (List.length times)
  /\ exists alert,
      check_failed_access_attempts (log_failures default "unknown_001" times)
                                   "unknown_001" 120000001 = Some alert.
Proof.
  cbv zeta.
  assert (H1 : Forall (fun t => 120000001 - timedelta_minutes
                                  (failed_attempt_window_minutes default) < t)
                 [0; 60000000; 120000000]) by (repeat constructor).
  assert (H2 : failed_attempt_threshold default
               <= Z.of_nat (List.length [0; 60000000; 120000000])) by (cbn; lia).
  split; [exact H1 |]. split; [exact H2 |].
  destruct (enough_failures_alert default "unknown_001" _ 120000001 H1 H2)
    as (alert & count & H & _).
  exists alert. exact H.
Defined.

(** X16. An alert lapses: when each failed attempt of a person is at
    least a full window old, [check_failed_access_attempts] returns no
    alert for that person (for a positive threshold), though the attempts
    are still held. *)
Theorem old_failures_no_alert (self : ThreatDetector) (person_id : string)
    (now : datetime) :
  0 < failed_attempt_threshold self ->
  Forall (fun attempt =>
            snd attempt = person_id ->
            fst attempt + timedelta_minutes (failed_attempt_window_minutes self) <= now)
         (failed_attempts self) ->
  check_failed_access_attempts self person_id now = None.
Proof.
  intros Hthr Hold. unfold check_failed_access_attempts, recent_failures.
  replace (filter _ (failed_attempts self)) with (@nil (datetime * string)).
  - cbn. destruct (failed_attempt_threshold self <=? 0) eqn:L; [| reflexivity].
    apply Z.leb_le in L. lia.
  - symmetry. induction Hold as [| [t q] rest Ht _ IH]; [reflexivity |].
    cbn [filter fst snd] in *. rewrite <- IH.
    destruct (String.eqb q person_id) eqn:E; [| now rewrite andb_false_r].
    apply String.eqb_eq in E. specialize (Ht E).
    replace (now - timedelta_minutes (failed_attempt_window_minutes self) <? t)
      with false; [reflexivity |].
    symmetry. apply Z.ltb_ge. lia.
Qed.

Lemma old_failures_no_alert_witness :
  let self := log_failures default "unknown_001" [0; 1000000; 2000000] in
  let now := 602000000 in
  0 < failed_attempt_threshold self
  /\ check_failed_access_attempts self "unknown_001" 2000001 <> None
  /\ check_failed_access_attempts self "unknown_001" now = None
  /\ List.length (failed_attempts self) = 3%nat.
Proof.
  cbv zeta.
  assert (H1 : 0 < failed_attempt_threshold
                     (log_failures default "unknown_001" [0; 1000000; 2000000]))
    by reflexivity.
  assert (H2 : Forall (fun attempt : datetime * string =>
                         snd attempt = "unknown_001" ->
                         fst attempt + timedelta_minutes
                           (failed_attempt_window_minutes
                              (log_failures default "unknown_001"
                                            [0; 1000000; 2000000])) <= 602000000)
                 (failed_attempts
                    (log_failures default "unknown_001" [0; 1000000; 2000000]))).
  { cbn. repeat constructor; cbn; intros _; lia. }
  split; [exact H1 |]. split; [cbn; discriminate |].
  split; [| reflexivity].
  exact (old_failures_no_alert _ "unknown_001" 602000000 H1 H2).
Defined.

End ThreatRuleProperties.

(* ------------------------------------------------------------------ *)
(** * Further properties of the anomaly detector *)

Section AnomalyVerdictProperties.

Import Py AnomalyDetection.
Local Open Scope string_scope.
Local Open Scope R_scope.
Local Open Scope list_scope.

Lemma sigmoid_range (score : R) : 0 < 1 / (1 + exp score) < 1.
Proof.
  pose proof (exp_pos score) as Hpos.
  assert (0 < / (1 + exp score)) as Hinv by (apply Rinv_0_lt_compat; lra).
  unfold Rdiv. rewrite Rmult_1_l. split; [exact Hinv |].
  rewrite <- Rinv_1. apply Rinv_lt_contravar; lra.
Qed.

(** What the [try] block of [predict_anomaly] can return. *)
Lemma predict_body_returns (self : AnomalyDetector) (access_event : dict value)
    (now : datetime) (result : dict value) :
  predict_body self access_event now = Returned result ->
  exists m prediction score,
    model self = Some m
    /\ result = [("is_anomaly", VBool (Z.eqb prediction (-1)));
                 ("anomaly_score", VFloat (Finite (1 / (1 + exp score))));
                 ("confidence", VFloat (Finite (Rabs score)));
                 ("timestamp", VIso now)].
Proof.
  unfold predict_body. intros H.
  apply bind_returned in H as (features & _ & H).
  destruct (model self) as [m |]; [| discriminate]. cbn [bind] in H.
  apply bind_returned in H as (predictions & _ & H).
  apply bind_returned in H as (prediction & _ & H).
  apply bind_returned in H as (scores & _ & H).
  apply bind_returned in H as (score & _ & H).
  injection H as <-. exists m, prediction, score. auto.
Qed.

(** X17. [predict_anomaly] never raises and always answers with an
    [is_anomaly] flag and an [anomaly_score] in [0, 1); the score is 0
    unless it was computed, and an event is flagged only by a detector
    that is marked trained and holds a model, with a positive score. *)
Theorem predict_anomaly_verdict (self : AnomalyDetector)
    (access_event : dict value) (now : datetime) :
  exists flag score,
    get (predict_anomaly self access_event now) "is_anomaly" = Some (VBool flag)
    /\ get (predict_anomaly self access_event now) "anomaly_score"
       = Some (VFloat (Finite score))
    /\ 0 <= score < 1
    /\ (flag = true ->
        0 < score /\ is_trained self = true /\ model self <> None).
Proof.
  unfold predict_anomaly. destruct (is_trained self) eqn:T; cbn [negb].
  - destruct (predict_body self access_event now) as [result | e] eqn:B.
    + destruct (predict_body_returns _ _ _ _ B) as (m & prediction & score & Hm & ->).
      pose proof (sigmoid_range score) as Hs.
      exists (Z.eqb prediction (-1)), (1 / (1 + exp score)).
      split; [reflexivity |]. split; [reflexivity |]. split; [lra |].
      intros _. split; [lra |]. split; [reflexivity | congruence].
    + exists false, 0. split; [reflexivity |]. split; [reflexivity |].
      split; [lra | discriminate].
  - exists false, 0. split; [reflexivity |]. split; [reflexivity |].
    split; [lra | discriminate].
Qed.

(** When the [try] block must fail. *)
Lemma predict_anomaly_error_aux (self : AnomalyDetector)
    (access_event : dict value) (now : datetime) :
  is_trained self = true ->
  model self = None
  \/ get access_event "timestamp" = None
  \/ get access_event "type" = None ->
  exists e,
    predict_anomaly self access_event now
    = [("is_anomaly", VBool false);
       ("anomaly_score", VFloat (Finite 0));
       ("error", VStr e)].
Proof.
  intros T H. unfold predict_anomaly. rewrite T. cbn [negb].
  destruct (predict_body self access_event now) as [result | e] eqn:B;
    [| now exists e].
  exfalso. unfold predict_body in B.
  apply bind_returned in B as (features & F & B).
  destruct H as [H | [H | H]].
  - rewrite H in B. discriminate.
  - unfold extract_features in F. apply bind_returned in F as (fs & F & _).
    cbn [extract_loop] in F. apply bind_returned in F as (v & F & _).
    unfold feature_vector, fromisoformat_item in F. rewrite H in F. discriminate.
  - unfold extract_features in F. apply bind_returned in F as (fs & F & _).
    cbn [extract_loop] in F. apply bind_returned in F as (v & F & _).
    unfold feature_vector in F.
    apply bind_returned in F as (t & _ & F). rewrite H in F. discriminate.
Qed.

(** X18. On a detector marked trained, an event without a 'timestamp' or
    a 'type' key, or a missing model, gives the error verdict:
    [is_anomaly] false, score 0, an 'error' entry, and neither a 'reason'
    nor a 'confidence'. *)
Theorem predict_anomaly_error_verdict (self : AnomalyDetector)
    (access_event : dict value) (now : datetime) :
  is_trained self = true ->
  model self = None
  \/ get access_event "timestamp" = None
  \/ get access_event "type" = None ->
  exists e,
    predict_anomaly self access_event now
    = [("is_anomaly", VBool false);
       ("anomaly_score", VFloat (Finite 0));
       ("error", VStr e)].
Proof. exact (predict_anomaly_error_aux self access_event now). Qed.

Lemma predict_anomaly_error_verdict_witness :
  let self := {| model_type := "isolation_forest"; contamination := 1 / 10;
                 model := Some flagging_forest; is_trained := true |} in
  let access_event := [("person_id", VStr "resident_001"); ("type", VStr "entry")] in
  is_trained self = true
  /\ get access_event "timestamp" = None
  /\ exists e,
      predict_anomaly self access_event 0%Z
      = [("is_anomaly", VBool false); ("anomaly_score", VFloat (Finite 0));
         ("error", VStr e)].
Proof.
  cbv zeta. split; [reflexivity |]. split; [reflexivity |].
  exact (predict_anomaly_error_verdict
           {| model_type := "isolation_forest"; contamination := 1 / 10;
              model := Some flagging_forest; is_trained := true |}
           [("person_id", VStr "resident_001"); ("type", VStr "entry")] 0%Z
           eq_refl (or_intror (or_introl eq_refl))).
Defined.

(** X19. A [load_model] whose file holds no model (what [save_model]
    writes for a detector that never trained) still returns [True] and
    marks the detector trained; [predict_anomaly] then gives the error
    verdict, not the "Model not trained" one. *)
Theorem load_model_without_model (env : Env) (self : AnomalyDetector)
    (filepath : string) (access_event : dict value) (now : datetime) :
  pickle_load env filepath = Returned None ->
  let loaded := fst (load_model env self filepath) in
  snd (load_model env self filepath) = true
  /\ is_trained loaded = true
  /\ model loaded = None
  /\ get (predict_anomaly loaded access_event now) "reason" = None
  /\ get (predict_anomaly loaded access_event now) "error" <> None.
Proof.
  intros H. cbv zeta. unfold load_model. rewrite H. cbn [fst snd is_trained model].
  split; [reflexivity |]. split; [reflexivity |]. split; [reflexivity |].
  destruct (predict_anomaly_error_aux
              {| model_type := model_type self; contamination := contamination self;
                 model := None; is_trained := true |} access_event now eq_refl
              (or_introl eq_refl)) as (e & ->).
  split; [reflexivity | discriminate].
Qed.

Lemma load_model_without_model_witness :
  let self := init "isolation_forest" (1 / 10) in
  let loaded := fst (load_model env_with_empty_file self "anomaly_model.pkl") in
  pickle_load env_with_empty_file "anomaly_model.pkl" = Returned None
  /\ snd (load_model env_with_empty_file self "anomaly_model.pkl") = true
  /\ get (predict_anomaly loaded (access_event_at "resident_001" 0%Z) 0%Z) "reason"
     = None.
Proof.
  cbv zeta. split; [reflexivity |].
  destruct (load_model_without_model env_with_empty_file
              (init "isolation_forest" (1 / 10)) "anomaly_model.pkl"
              (access_event_at "resident_001" 0%Z) 0%Z eq_refl)
    as (H1 & _ & _ & H2 & _).
  split; [exact H1 | exact H2].
Defined.

(** ** The feature matrix *)









Lemma extract_loop_raises (access_sequence rest : list (dict value))
    (access : dict value) :
  In access rest ->
  (forall i, exists e, feature_vector access_sequence i access = Raised e) ->
  forall i, exists e, extract_loop access_sequence i rest = Raised e.
Proof.
  intros Hin Hbad. induction rest as [| x rest IH]; intros i; [destruct Hin |].
  cbn [extract_loop]. destruct Hin as [-> | Hin].
  - destruct (Hbad i) as [e ->]. now exists e.
  - destruct (feature_vector access_sequence i x) as [v | e]; [| now exists e].
    cbn [bind]. destruct (IH Hin (S i)) as [e ->]. now exists e.
Qed.

(** X21. One event without a 'timestamp' or without a 'type' key makes
    [extract_features] raise for the whole sequence: no matrix is
    returned, whatever the other events are. *)
Theorem extract_features_missing_key (access_sequence : list (dict value))
    (access : dict value) :
  In access access_sequence ->
  get access "timestamp" = None \/ get access "type" = None ->
  exists e, extract_features access_sequence = Raised e.
Proof.
  intros Hin Hkey. unfold extract_features.
  destruct (extract_loop_raises access_sequence access_sequence access Hin)
    with (i := 0%nat) as [e ->]; [| now exists e].
  intros i. unfold feature_vector, fromisoformat_item.
  destruct Hkey as [H | H].
  - rewrite H. now exists "KeyError".
  - destruct (get access "timestamp") as [[| | | | |t] |]; cbn [bind];
      try (eexists; reflexivity).
    rewrite H. now exists "KeyError".
Qed.

Lemma extract_features_missing_key_witness :
  let bad := [("person_id", VStr "resident_001"); ("type", VStr "entry")] in
  In bad [access_event_at "resident_001" 0%Z; bad]
  /\ get bad "timestamp" = None
  /\ exists e, extract_features [access_event_at "resident_001" 0%Z; bad] = Raised e.
Proof.
  cbv zeta.
  assert (H1 : In [("person_id", VStr "resident_001"); ("type", VStr "entry")]
                 [access_event_at "resident_001" 0%Z;
                  [("person_id", VStr "resident_001"); ("type", VStr "entry")]])
    by (right; left; reflexivity).
  split; [exact H1 |]. split; [reflexivity |].
  exact (extract_features_missing_key _ _ H1 (or_introl eq_refl)).
Defined.

(** X22. [extract_features] does not sort: where an event is earlier
    than the element before it in the sequence, its time delta is
    negative. *)
Theorem extract_features_unsorted (access_sequence : list (dict value))
    (features : matrix) (i : nat) (prev access : dict value) (t t' : datetime) :
  extract_features access_sequence = Returned features ->
  nth_error access_sequence i = Some prev ->
  nth_error access_sequence (S i) = Some access ->
  fromisoformat_item prev = Returned t' ->
  fromisoformat_item access = Returned t ->
  (t < t')%Z ->
  exists row dt,
    nth_error (rows features) (S i) = Some row
    /\ nth_error row 4 = Some (VFloat (Finite dt))
    /\ dt < 0.
Proof.
  intros H Hprev Hacc Ht' Ht Hlt. apply extract_features_returned in H as [H _].
  destruct (extract_loop_rows _ _ _ _ H) as [_ Hrows].
  destruct (Hrows (S i) access Hacc) as (row & E1 & E2). cbn [Nat.add] in E2.
  destruct (feature_vector_next _ _ _ _ _ _ _ Hprev Ht' Ht E2)
    as (h & d & a & c & ->).
  exists [h; d; a; c; VFloat (Finite (total_seconds t t' / 3600))],
         (total_seconds t t' / 3600).
  split; [exact E1 |]. split; [reflexivity |].
  unfold total_seconds. assert (IZR (t - t') < 0) as Hneg by (apply IZR_lt; lia).
  unfold Rdiv.
  assert (0 < / 1000000) by (apply Rinv_0_lt_compat; lra).
  assert (0 < / 3600) by (apply Rinv_0_lt_compat; lra).
  assert (IZR (t - t') * / 1000000 < 0) by nra.
  nra.
Qed.

Lemma extract_features_unsorted_witness :
  let later := access_event_at "resident_001" 3600000000%Z in
  let earlier := access_event_at "resident_001" 0%Z in
  exists features row dt,
    extract_features [later; earlier] = Returned features
    /\ nth_error (rows features) 1 = Some row
    /\ nth_error row 4 = Some (VFloat (Finite dt))
    /\ dt < 0.
Proof.
  cbv zeta.
  assert (Hlt : (0 < 3600000000)%Z) by reflexivity.
  destruct (extract_features_unsorted
              [access_event_at "resident_001" 3600000000%Z;
               access_event_at "resident_001" 0%Z] _ 0%nat _ _ _ _
              eq_refl eq_refl eq_refl eq_refl eq_refl Hlt)
    as (row & dt & H1 & H2 & H3).
  eexists. exists row, dt. split; [reflexivity |]. auto.
Defined.

End AnomalyVerdictProperties.

(* ------------------------------------------------------------------ *)
(** * Properties of the behavioural profiler *)

Section ProfilerProperties.

Import Py AnomalyDetection Profiler.
Local Open Scope string_scope.
Local Open Scope list_scope.

(** ** Counting *)

Lemma count_up_keys (counts : list (Z * nat)) (v k : Z) :
  In k (map fst (count_up counts v)) <-> In k (map fst counts) \/ k = v.
Proof.
  induction counts as [| [k0 n0] counts IH]; cbn [count_up map fst In].
  - intuition.
  - destruct (Z.eqb k0 v) eqn:E; cbn [map fst In].
    + apply Z.eqb_eq in E. subst k0. intuition.
    + rewrite IH. intuition.
Qed.

Lemma count_up_nodup (counts : list (Z * nat)) (v : Z) :
  NoDup (map fst counts) -> NoDup (map fst (count_up counts v)).
Proof.
  induction counts as [| [k0 n0] counts IH]; cbn [count_up map fst]; intros H.
  - repeat constructor. intros [].
  - inversion H as [| ? ? Hnot Hrest]; subst.
    destruct (Z.eqb k0 v) eqn:E; cbn [map fst].
    + constructor; assumption.
    + apply Z.eqb_neq in E. constructor; [| now apply IH].
      rewrite count_up_keys. intros [Hin | ->]; contradiction.
Qed.

Lemma count_up_entries (counts : list (Z * nat)) (v k : Z) (n : nat) :
  NoDup (map fst counts) ->
  In (k, n) (count_up counts v) ->
  (k <> v /\ In (k, n) counts)
  \/ (k = v /\ ((~ In v (map fst counts) /\ n = 1%nat)
                \/ exists n0, In (v, n0) counts /\ n = S n0)).
Proof.
  induction counts as [| [k0 n0] counts IH]; cbn [count_up map fst In]; intros Hnd Hin.
  - destruct Hin as [Hin | []]. injection Hin as <- <-. right. intuition.
  - inversion Hnd as [| ? ? Hnot Hrest]; subst.
    destruct (Z.eqb k0 v) eqn:E.
    + apply Z.eqb_eq in E. subst k0. destruct Hin as [Hin | Hin].
      * injection Hin as <- <-. right. split; [reflexivity |]. right.
        exists n0. auto.
      * left. split; [| now right]. intros ->. apply Hnot.
        change v with (fst (v, n)). now apply in_map.
    + apply Z.eqb_neq in E. destruct Hin as [Hin | Hin].
      * injection Hin as <- <-. left. auto.
      * destruct (IH Hrest Hin) as [[H1 H2] | [-> [[H1 H2] | (m & H1 & H2)]]].
        -- left. auto.
        -- right. split; [reflexivity |]. left. split; [| exact H2].
           intros [H | H]; [congruence | contradiction].
        -- right. split; [reflexivity |]. right. exists m. auto.
Qed.

Lemma occurrences_snoc (seen : list Z) (v k : Z) :
  occurrences (seen ++ [v]) k
  = (occurrences seen k + if Z.eq_dec v k then 1 else 0)%nat.
Proof.
  unfold occurrences. rewrite count_occ_app. cbn [count_occ].
  now destruct (Z.eq_dec v k).
Qed.

Lemma count_up_counted (counts : list (Z * nat)) (seen : list Z) (v : Z) :
  counted counts seen -> counted (count_up counts v) (seen ++ [v]).
Proof.
  intros (Hnd & Hkeys & Hocc). split; [| split].
  - now apply count_up_nodup.
  - intros k. rewrite count_up_keys, Hkeys, in_app_iff. cbn. intuition.
  - intros k n Hin. rewrite occurrences_snoc.
    destruct (count_up_entries counts v k n Hnd Hin)
      as [[H1 H2] | [-> [[H1 H2] | (m & H1 & H2)]]].
    + destruct (Z.eq_dec v k); [congruence |]. rewrite (Hocc k n H2). lia.
    + destruct (Z.eq_dec v v); [| congruence].
      assert (occurrences seen v = 0%nat) as ->; [| lia].
      unfold occurrences. apply count_occ_not_In. now rewrite <- Hkeys.
    + destruct (Z.eq_dec v v); [| congruence].
      rewrite <- (Hocc v m H1). lia.
Qed.

Lemma Counter_counted (values : list Z) : counted (Counter values) values.
Proof.
  unfold Counter.
  assert (G : forall values counts seen,
             counted counts seen ->
             counted (fold_left count_up values counts) (seen ++ values)).
  { clear. induction values as [| v values IH]; intros counts seen H.
    - now rewrite app_nil_r.
    - cbn [fold_left].
      replace (seen ++ v :: values) with ((seen ++ [v]) ++ values)
        by (now rewrite <- app_assoc).
      apply IH. now apply count_up_counted. }
  apply (G values [] []). split; [constructor |]. split.
  - intros k. reflexivity.
  - intros k n [].
Qed.

(** ** Sorting *)

Lemma insert_by_count_perm (x : Z * nat) (l : list (Z * nat)) :
  Permutation (insert_by_count x l) (x :: l).
Proof.
  induction l as [| y l IH]; cbn [insert_by_count]; [reflexivity |].
  destruct (Nat.ltb (snd x) (snd y)); [| reflexivity].
  rewrite IH. apply perm_swap.
Qed.

Lemma sort_by_count_perm (l : list (Z * nat)) : Permutation (sort_by_count l) l.
Proof.
  unfold sort_by_count. induction l as [| x l IH]; cbn [fold_right]; [reflexivity |].
  rewrite insert_by_count_perm. now constructor.
Qed.

Lemma insert_by_count_sorted (x : Z * nat) (l : list (Z * nat)) :
  StronglySorted (fun a b => (snd b <= snd a)%nat) l ->
  StronglySorted (fun a b => (snd b <= snd a)%nat) (insert_by_count x l).
Proof.
  induction 1 as [| y l Hs IH Hall]; cbn [insert_by_count].
  - repeat constructor.
  - destruct (Nat.ltb (snd x) (snd y)) eqn:E.
    + apply Nat.ltb_lt in E. constructor; [exact IH |].
      apply Forall_forall. intros c Hc.
      apply (Permutation_in _ (insert_by_count_perm x l)) in Hc as [<- | Hc]; [lia |].
      rewrite Forall_forall in Hall. now apply Hall.
    + apply Nat.ltb_ge in E. constructor; [now constructor |].
      constructor; [exact E |].
      apply Forall_forall. intros c Hc. rewrite Forall_forall in Hall.
      specialize (Hall c Hc). lia.
Qed.

Lemma sort_by_count_sorted (l : list (Z * nat)) :
  StronglySorted (fun a b => (snd b <= snd a)%nat) (sort_by_count l).
Proof.
  unfold sort_by_count. induction l as [| x l IH]; cbn [fold_right];
    [constructor | now apply insert_by_count_sorted].
Qed.

Lemma nodup_firstn {A} (n : nat) (l : list A) : NoDup l -> NoDup (firstn n l).
Proof.
  intros H. rewrite <- (firstn_skipn n l) in H. now apply NoDup_app_remove_r in H.
Qed.

Lemma in_firstn {A} (n : nat) (l : list A) (x : A) : In x (firstn n l) -> In x l.
Proof.
  intros H. rewrite <- (firstn_skipn n l). apply in_or_app. now left.
Qed.

Lemma get_most_common_aux (values : list Z) (top_k : nat) :
  (List.length (_get_most_common values top_k) <= top_k)%nat
  /\ NoDup (_get_most_common values top_k)
  /\ (forall v, In v (_get_most_common values top_k) -> In v values)
  /\ ((List.length (nodup Z.eq_dec values) <= top_k)%nat ->
      forall v, In v values -> In v (_get_most_common values top_k))
  /\ (forall first,
        hd_error (_get_most_common values top_k) = Some first ->
        forall v, (occurrences values v <= occurrences values first)%nat).
Proof.
  destruct (Counter_counted values) as (Hnd & Hkeys & Hocc).
  pose proof (sort_by_count_perm (Counter values)) as Hperm.
  pose proof (sort_by_count_sorted (Counter values)) as Hsorted.
  unfold _get_most_common, most_common.
  split; [| split; [| split; [| split]]].
  - rewrite length_map. apply firstn_le_length.
  - rewrite <- firstn_map. apply nodup_firstn.
    apply (Permutation_NoDup (l := map fst (Counter values))); [| exact Hnd].
    apply Permutation_map. now symmetry.
  - intros v Hin. apply Hkeys. rewrite <- firstn_map in Hin.
    apply in_firstn in Hin.
    apply (Permutation_in _ (Permutation_map fst Hperm)). exact Hin.
  - intros Hfew v Hin.
    assert (List.length (sort_by_count (Counter values)) <= top_k)%nat as Hlen.
    { rewrite (Permutation_length Hperm), <- (length_map fst).
      rewrite (Permutation_length (l' := nodup Z.eq_dec values)); [exact Hfew |].
      apply NoDup_Permutation; [exact Hnd | apply NoDup_nodup |].
      intros k. rewrite Hkeys, nodup_In. reflexivity. }
    rewrite firstn_all2 by exact Hlen.
    apply (Permutation_in _ (Permutation_map fst (Permutation_sym Hperm))).
    now apply Hkeys.
  - intros first Hfirst v.
    destruct (sort_by_count (Counter values)) as [| [k n] rest] eqn:E.
    + destruct top_k; discriminate.
    + destruct top_k as [| top_k]; [discriminate |].
      cbn in Hfirst. injection Hfirst as <-.
      assert (In (k, n) (Counter values)) as Hk.
      { apply (Permutation_in _ Hperm). now left. }
      rewrite <- (Hocc k n Hk).
      destruct (in_dec Z.eq_dec v values) as [Hv | Hv].
      * apply Hkeys in Hv. apply in_map_iff in Hv as ([v' m] & Ev & Hv).
        cbn in Ev. subst v'. rewrite <- (Hocc v m Hv).
        apply (Permutation_in _ (Permutation_sym Hperm)) in Hv.
        destruct Hv as [Hv | Hv]; [injection Hv as _ <-; lia |].
        inversion Hsorted as [| ? ? _ Hall]; subst.
        rewrite Forall_forall in Hall. exact (Hall _ Hv).
      * unfold occurrences. rewrite (count_occ_not_In Z.eq_dec values v) in Hv.
        rewrite Hv. lia.
Qed.

Lemma get_most_common_nonempty (values : list Z) (top_k : nat) :
  values <> [] -> _get_most_common values (S top_k) <> [].
Proof.
  intros Hne. destruct values as [| v rest]; [congruence |].
  destruct (Counter_counted (v :: rest)) as (_ & Hkeys & _).
  pose proof (sort_by_count_perm (Counter (v :: rest))) as Hperm.
  assert (In v (map fst (Counter (v :: rest)))) as Hin by (apply Hkeys; now left).
  apply in_map_iff in Hin as (entry & _ & Hin).
  apply (Permutation_in _ (Permutation_sym Hperm)) in Hin.
  unfold _get_most_common, most_common.
  destruct (sort_by_count (Counter (v :: rest))); [destruct Hin | discriminate].
Qed.

(** X23. [_get_most_common] returns at most [top_k] values, all
    different, each taken from the input; when the input holds no more
    than [top_k] different values it returns every one of them; and its
    first value occurs at least as often as any value of the input. *)
Theorem get_most_common_spec (values : list Z) (top_k : nat) :
  (List.length (_get_most_common values top_k) <= top_k)%nat
  /\ NoDup (_get_most_common values top_k)
  /\ (forall v, In v (_get_most_common values top_k) -> In v values)
  /\ ((List.length (nodup Z.eq_dec values) <= top_k)%nat ->
      forall v, In v values -> In v (_get_most_common values top_k))
  /\ (forall first,
        hd_error (_get_most_common values top_k) = Some first ->
        forall v, (occurrences values v <= occurrences values first)%nat).
Proof.
  exact (get_most_common_aux values top_k).
Qed.

Lemma get_most_common_spec_witness :
  let hours := [8; 12; 8; 18; 12; 8; 23]%Z in
  _get_most_common hours 3 = [8; 12; 18]%Z
  /\ (forall v, In v (_get_most_common hours 3) -> In v hours)
  /\ (forall v, (occurrences hours v <= occurrences hours 8)%nat).
Proof.
  cbv zeta.
  destruct (get_most_common_spec [8; 12; 8; 18; 12; 8; 23]%Z 3)
    as (_ & _ & H1 & _ & H2).
  split; [reflexivity |]. split; [exact H1 |]. exact (H2 8%Z eq_refl).
Defined.

(** ** Building a profile, then checking an event against it *)

Lemma build_profile_returns (self : BehavioralProfiler) (person : string)
    (access_history : list (dict value)) (now : datetime) (ts : list datetime) :
  access_history <> [] ->
  timestamps_of access_history = Returned ts ->
  exists built,
    build_profile self person access_history now
    = Returned ({| profiles := set (profiles self) person built |}, Some built)
    /\ total_accesses built = Z.of_nat (List.length access_history)
    /\ preferred_hours built = _get_most_common (map hour ts) 3
    /\ preferred_days built = _get_most_common (map weekday ts) 3.
Proof.
  intros Hne Hts. destruct access_history as [| e rest]; [congruence |].
  unfold build_profile. rewrite Hts. cbn [bind].
  eexists. split; [reflexivity |]. auto.
Qed.

Lemma detect_with_profile (self : BehavioralProfiler) (person : string)
    (p : profile) (access_event : dict value) (t : datetime) :
  get (profiles self) person = Some p ->
  fromisoformat_item access_event = Returned t ->
  (detect_behavioral_anomaly self person access_event = Returned None
     <-> In (hour t) (preferred_hours p))
  /\ (forall alert,
        detect_behavioral_anomaly self person access_event = Returned (Some alert) ->
        alert_severity alert = "LOW" /\ alert_hour alert = hour t
        /\ ~ In (hour t) (preferred_hours p)).
Proof.
  intros Hp Ht. unfold detect_behavioral_anomaly. rewrite Hp, Ht. cbn [bind].
  destruct (existsb (Z.eqb (hour t)) (preferred_hours p)) eqn:E; cbn [negb].
  - apply existsb_exists in E as (h & Hin & Heq). apply Z.eqb_eq in Heq. subst h.
    split; [split; auto | discriminate].
  - assert (~ In (hour t) (preferred_hours p)) as Hnot.
    { intros Hin. assert (existsb (Z.eqb (hour t)) (preferred_hours p) = true);
        [| congruence].
      apply existsb_exists. exists (hour t). split; [exact Hin | apply Z.eqb_refl]. }
    split; [split; [discriminate | contradiction] |].
    intros alert H. injection H as <-. auto.
Qed.



(** X25. An empty history builds nothing: [build_profile] returns the
    empty dictionary and stores no profile.  For a person without a
    profile [detect_behavioral_anomaly] returns [None] without reading
    the event; for a person with one, an event without 'timestamp'
    raises. *)
Theorem profile_edge_cases (self : BehavioralProfiler) (person : string)
    (now : datetime) (access_event : dict value) :
  build_profile self person [] now = Returned (self, None)
  /\ (get (profiles self) person = None ->
      detect_behavioral_anomaly self person access_event = Returned None)
  /\ (get (profiles self) person <> None ->
      get access_event "timestamp" = None ->
      detect_behavioral_anomaly self person access_event = Raised "KeyError").
Proof.
  split; [reflexivity |]. unfold detect_behavioral_anomaly. split.
  - now intros ->.
  - intros Hp Hkey. destruct (get (profiles self) person); [| congruence].
    unfold fromisoformat_item. now rewrite Hkey.
Qed.

Lemma profile_edge_cases_witness :
  get (profiles init) "resident_001" = None
  /\ detect_behavioral_anomaly init "resident_001" [] = Returned None.
Proof.
  split; [reflexivity |].
  exact (proj1 (proj2 (profile_edge_cases init "resident_001" 0%Z [])) eq_refl).
Defined.

(** X26. Against a profile just built: an event at an hour that the
    history never shows is always flagged; an event at the hour that
    the history shows strictly most often is never flagged; and when
    the history shows at most three different hours, none of them is
    flagged. *)
Theorem detect_by_frequency (self : BehavioralProfiler) (person : string)
    (access_history : list (dict value)) (now : datetime) (ts : list datetime)
    (access_event : dict value) (t : datetime) :
  access_history <> [] ->
  timestamps_of access_history = Returned ts ->
  fromisoformat_item access_event = Returned t ->
  exists built after,
    build_profile self person access_history now = Returned (after, Some built)
    /\ (~ In (hour t) (map hour ts) ->
        exists alert,
          detect_behavioral_anomaly after person access_event = Returned (Some alert))
    /\ ((forall h, h <> hour t ->
           (occurrences (map hour ts) h < occurrences (map hour ts) (hour t))%nat) ->
        detect_behavioral_anomaly after person access_event = Returned None)
    /\ ((List.length (nodup Z.eq_dec (map hour ts)) <= 3)%nat ->
        In (hour t) (map hour ts) ->
        detect_behavioral_anomaly after person access_event = Returned None).
Proof.
  intros Hne Hts Ht.
  destruct (build_profile_returns self person access_history now ts Hne Hts)
    as (built & Hb & _ & Hhours & _).
  exists built, {| profiles := set (profiles self) person built |}.
  assert (get (profiles {| profiles := set (profiles self) person built |}) person
          = Some built) as Hget by apply get_set_eq.
  destruct (detect_with_profile _ person built access_event t Hget Ht) as [D1 _].
  rewrite Hhours in D1.
  destruct (get_most_common_aux (map hour ts) 3) as (_ & _ & Hsub & Hall & Hfirst).
  split; [exact Hb |]. split; [| split].
  - intros Hnot.
    destruct (detect_behavioral_anomaly
                {| profiles := set (profiles self) person built |} person access_event)
      as [[alert |] | e] eqn:D.
    + now exists alert.
    + exfalso. apply Hnot, Hsub, D1. reflexivity.
    + exfalso. unfold detect_behavioral_anomaly in D. rewrite Hget, Ht in D.
      cbn [bind] in D. destruct (negb _) in D; discriminate.
  - intros Hmost. apply D1.
    destruct (_get_most_common (map hour ts) 3) as [| first rest] eqn:E.
    + exfalso.
      assert (ts <> []) as Hts'.
      { intros ->. destruct access_history as [| e rest]; [congruence |].
        cbn [timestamps_of] in Hts.
        apply bind_returned in Hts as (t0 & _ & Hts).
        apply bind_returned in Hts as (ts0 & _ & Hts). discriminate. }
      apply (get_most_common_nonempty (map hour ts) 2); [| exact E].
      destruct ts; [congruence | discriminate].
    + specialize (Hfirst first eq_refl (hour t)).
      destruct (Z.eq_dec first (hour t)) as [-> | Hdiff]; [now left |].
      specialize (Hmost first Hdiff). lia.
  - intros Hfew Hin. apply D1. now apply Hall.
Qed.

Lemma detect_by_frequency_witness :
  let history := [access_event_at "resident_001" 0%Z;
                  access_event_at "resident_001" 3600000000%Z] in
  let access_event := access_event_at "resident_001" 7200000000%Z in
  history <> []
  /\ timestamps_of history = Returned [0; 3600000000]%Z
  /\ fromisoformat_item access_event = Returned 7200000000%Z
  /\ exists built after,
      build_profile init "resident_001" history 0%Z = Returned (after, Some built)
      /\ exists alert,
          detect_behavioral_anomaly after "resident_001" access_event
          = Returned (Some alert).
Proof.
  cbv zeta.
  assert (H1 : [access_event_at "resident_001" 0%Z;
                access_event_at "resident_001" 3600000000%Z] <> []) by discriminate.
  split; [exact H1 |]. split; [reflexivity |]. split; [reflexivity |].
  destruct (detect_by_frequency init "resident_001" _ 0%Z [0; 3600000000]%Z
              (access_event_at "resident_001" 7200000000%Z) 7200000000%Z
              H1 eq_refl eq_refl)
    as (built & after & Hb & Hd & _).
  exists built, after. split; [exact Hb |].
  apply Hd. intros H. vm_compute in H. destruct H as [H | [H | []]]; discriminate.
Defined.

End ProfilerProperties.
